(** * Hour Logger Pro: duration calculator, period aggregator, filter/sort view

    A shallow embedding of the computation core of the home page component
    ([calculateHoursForLog] and the two [useMemo] bodies), together with the
    parts of the JavaScript run time and of date-fns that the component calls.

    Modelling conventions.
    - A JavaScript [number] is an exact rational or [NaN]: [option Qc] with
      [None] for [NaN].  Infinities do not arise from the operations used.
    - A JavaScript string is a [string]; the strings that occur (dates, clock
      times, years, months) are ASCII, where code-unit order is byte order.
    - A [Date] is its time value, an integer number of milliseconds since the
      epoch; an Invalid Date is [None] at type [option Z].
    - The local time zone is a fixed offset [tz], in minutes east of UTC.
    - A thrown exception is [None] at the result type of the function.
    - A handler of the component is a function from the state of the page to
      the state it leaves, with the list of the requests it makes of the
      document store and of the toast. *)

From Stdlib Require Import ZArith QArith Qcanon Qround Qabs Lia Lqa Bool List.
From Stdlib Require Import Ascii String DecimalString Permutation Sorted.
Import ListNotations.

Local Open Scope Z_scope.

(** ** Bounded checking: a property of the integers below [n], by evaluation *)

Definition forall_below (n : Z) (p : Z -> bool) : bool :=
  forallb p (map Z.of_nat (seq 0 (Z.to_nat n))).

(** ** JavaScript numbers *)

Module Num.

Definition number : Type := option Qc.

Definition NaN : number := None.

Definition ofZ (z : Z) : number := Some (Q2Qc (inject_Z z)).

Definition zero : number := ofZ 0.

Definition lift2 (f : Qc -> Qc -> Qc) (a b : number) : number :=
  match a, b with
  | Some x, Some y => Some (f x y)
  | _, _ => None
  end.

Definition add : number -> number -> number := lift2 Qcplus.
Definition sub : number -> number -> number := lift2 Qcminus.

(** [x / 60] for the one divisor the component uses. *)
Definition div60 (a : number) : number :=
  option_map (fun x => (x / Q2Qc (inject_Z 60))%Qc) a.

(** [a > b]; every comparison with [NaN] is false. *)
Definition gtb (a b : number) : bool :=
  match a, b with
  | Some x, Some y => match (y ?= x)%Qc with Lt => true | _ => false end
  | _, _ => false
  end.

(** Number.prototype.toFixed(2) picks the integer [n] with [n / 100]
    nearest to [x], the larger one on a tie, after moving the sign out. *)
Definition nearest_hundredth (q : Q) : Z := Qfloor (q * (100 # 1) + (1 # 2)).

Definition round2 (x : Qc) : Qc :=
  match (x ?= Q2Qc 0)%Qc with
  | Lt => (- Q2Qc (nearest_hundredth (- x)%Qc # 100))%Qc
  | _ => Q2Qc (nearest_hundredth x # 100)
  end.

(** [parseFloat(x.toFixed(2))].  For [|x| >= 10^21] toFixed prints [x]
    itself; a double of that size is an integer, and [round2] is the
    identity on integers (lemma [round2_integer]), so one formula serves.
    [NaN] prints as "NaN" and reads back as [NaN]. *)
Definition parseFloat_toFixed2 (a : number) : number := option_map round2 a.

End Num.

(** ** ECMAScript time values and calendar arithmetic *)

Module Time.

Definition msPerMinute : Z := 60000.
Definition msPerDay : Z := 86400000.

Definition Day (t : Z) : Z := t / msPerDay.
Definition TimeWithinDay (t : Z) : Z := t mod msPerDay.

Definition DayFromYear (y : Z) : Z :=
  365 * (y - 1970) + (y - 1969) / 4 - (y - 1901) / 100 + (y - 1601) / 400.

Definition InLeapYear (y : Z) : bool :=
  ((y mod 4 =? 0) && negb (y mod 100 =? 0)) || (y mod 400 =? 0).

Definition leapDays (y : Z) : Z := if InLeapYear y then 1 else 0.

Definition DaysInYear (y : Z) : Z := 365 + leapDays y.

(** The largest [y] with [DayFromYear y <= d]: an estimate from the mean
    year length, corrected by at most one year either way. *)
Definition YearFromDay (d : Z) : Z :=
  let y0 := 1970 + (d * 400) / 146097 in
  if DayFromYear (y0 + 1) <=? d then y0 + 1
  else if DayFromYear y0 <=? d then y0
  else y0 - 1.

(** Days of the year before month [m] (0 = January), [m = 12] giving the
    length of the year. *)
Definition DaysBeforeMonth (leap m : Z) : Z :=
  match m with
  | 0 => 0
  | 1 => 31
  | 2 => 59 + leap
  | 3 => 90 + leap
  | 4 => 120 + leap
  | 5 => 151 + leap
  | 6 => 181 + leap
  | 7 => 212 + leap
  | 8 => 243 + leap
  | 9 => 273 + leap
  | 10 => 304 + leap
  | 11 => 334 + leap
  | _ => 365 + leap
  end.

Definition MonthFromDayInYear (leap d : Z) : Z :=
  if d <? 31 then 0
  else if d <? 59 + leap then 1
  else if d <? 90 + leap then 2
  else if d <? 120 + leap then 3
  else if d <? 151 + leap then 4
  else if d <? 181 + leap then 5
  else if d <? 212 + leap then 6
  else if d <? 243 + leap then 7
  else if d <? 273 + leap then 8
  else if d <? 304 + leap then 9
  else if d <? 334 + leap then 10
  else 11.

Definition YearFromTime (t : Z) : Z := YearFromDay (Day t).
Definition DayWithinYear (t : Z) : Z := Day t - DayFromYear (YearFromTime t).
Definition MonthFromTime (t : Z) : Z :=
  MonthFromDayInYear (leapDays (YearFromTime t)) (DayWithinYear t).
Definition DateFromTime (t : Z) : Z :=
  DayWithinYear t
  - DaysBeforeMonth (leapDays (YearFromTime t)) (MonthFromTime t) + 1.
Definition WeekDay (t : Z) : Z := (Day t + 4) mod 7.

Definition MakeTime (h m s ms : Z) : Z :=
  h * 3600000 + m * msPerMinute + s * 1000 + ms.

(** [MakeDay year month date], month 0-based and normalised into the year. *)
Definition MakeDay (y m dt : Z) : Z :=
  let ym := y + m / 12 in
  let mn := m mod 12 in
  DayFromYear ym + DaysBeforeMonth (leapDays ym) mn + dt - 1.

Definition MakeDate (day time : Z) : Z := day * msPerDay + time.

Definition DaysInMonth (y m : Z) : Z :=
  DaysBeforeMonth (leapDays y) (m + 1) - DaysBeforeMonth (leapDays y) m.

End Time.

(** ** JavaScript strings *)

Module Str.

(** A string is falsy exactly when it is empty. *)
Definition truthy (s : string) : bool := negb (String.eqb s "").

Definition is_digit (c : ascii) : bool :=
  ((48 <=? N_of_ascii c) && (N_of_ascii c <=? 57))%N.

Definition digit_value (c : ascii) : Z := Z.of_N (N_of_ascii c) - 48.

(** The characters matched by [\s] among the ASCII ones. *)
Definition is_space (c : ascii) : bool :=
  let n := N_of_ascii c in
  ((9 <=? n) && (n <=? 13) || (n =? 32))%N.

Fixpoint all_space (s : string) : bool :=
  match s with
  | EmptyString => true
  | String c s' => is_space c && all_space s'
  end.

(** [n.toString()] for an integer [n >= 0]. *)
Definition toString (n : Z) : string :=
  NilZero.string_of_uint (N.to_uint (Z.to_N n)).

Fixpoint zeros (k : nat) (s : string) : string :=
  match k with
  | O => s
  | S k' => String "0" (zeros k' s)
  end.

(** date-fns [addLeadingZeros(number, targetLength)]. *)
Definition addLeadingZeros (n : Z) (targetLength : nat) : string :=
  let sign := if n <? 0 then "-"%string else ""%string in
  let output := toString (Z.abs n) in
  (sign ++ zeros (targetLength - String.length output)%nat output)%string.

(** [a < b] and [a > b] on strings compare code units. *)
Definition lt (a b : string) : bool := String.ltb a b.
Definition gt (a b : string) : bool := String.ltb b a.

(** [a.localeCompare(b)]: on the digit-and-hyphen strings compared here the
    collation order is the code-unit order. *)
Definition localeCompare (a b : string) : Z :=
  match String.compare a b with
  | Lt => -1
  | Eq => 0
  | Gt => 1
  end.

Definition read2 (a b : ascii) : option Z :=
  if is_digit a && is_digit b
  then Some (10 * digit_value a + digit_value b)
  else None.

Definition read4 (a b c d : ascii) : option Z :=
  if is_digit a && is_digit b && is_digit c && is_digit d
  then Some (1000 * digit_value a + 100 * digit_value b
             + 10 * digit_value c + digit_value d)
  else None.

Definition is_hyphen (c : ascii) : bool := Ascii.eqb c "-".

(** The year, month (1-based) and day of a string of the shape
    [dddd-dd-dd] that names a day of the calendar. *)
Definition readDate (s : string) : option (Z * Z * Z) :=
  match list_ascii_of_string s with
  | [y1; y2; y3; y4; h1; m1; m2; h2; d1; d2] =>
      match read4 y1 y2 y3 y4, read2 m1 m2, read2 d1 d2 with
      | Some y, Some m, Some d =>
          if is_hyphen h1 && is_hyphen h2
             && (1 <=? m) && (m <=? 12)
             && (1 <=? d) && (d <=? Time.DaysInMonth y (m - 1))
          then Some (y, m, d)
          else None
      | _, _, _ => None
      end
  | _ => None
  end.

(** The regular expression [^\d{1,2}]: one or two leading digits, the
    value matched and the rest of the string. *)
Definition takeDigits12 (s : string) : option (Z * string) :=
  match s with
  | String a (String b rest) =>
      if is_digit a
      then if is_digit b
           then Some (10 * digit_value a + digit_value b, rest)
           else Some (digit_value a, String b rest)
      else None
  | String a EmptyString =>
      if is_digit a then Some (digit_value a, EmptyString) else None
  | EmptyString => None
  end.

End Str.

(** ** Arrays: [find], [filter] and [sort] *)

Module Arr.

Section Sort.
Context {A : Type}.

(** The comparator answers an integer or [NaN]; SortCompare reads [NaN]
    as [+0]. *)
Variable comparefn : A -> A -> option Z.

Definition SortCompare (x y : A) : Z :=
  match comparefn x y with
  | Some v => v
  | None => 0
  end.

(** Array.prototype.sort is stable.  The elements are placed from the
    last one back, each in front of the first element already placed
    that it does not compare greater than, so that elements comparing
    equal keep the order they came in. *)
Fixpoint insert (x : A) (l : list A) : list A :=
  match l with
  | [] => [x]
  | y :: l' =>
      if 0 <? SortCompare x y then y :: insert x l' else x :: y :: l'
  end.

Fixpoint sort (l : list A) : list A :=
  match l with
  | [] => []
  | x :: l' => insert x (sort l')
  end.
End Sort.

(** [filter] with a predicate that may throw: the exception ends the
    traversal. *)
Fixpoint filter_exn {A : Type} (p : A -> option bool) (l : list A)
  : option (list A) :=
  match l with
  | [] => Some []
  | x :: l' =>
      match p x with
      | None => None
      | Some b =>
          match filter_exn p l' with
          | None => None
          | Some r => Some (if b then x :: r else r)
          end
      end
  end.

(** A [Set] of strings keeps its elements in insertion order. *)
Definition Set_add (x : string) (s : list string) : list string :=
  if existsb (String.eqb x) s then s else s ++ [x].

End Arr.

(** ** The Date object and the date-fns functions the component calls *)

Module DateFns.

Inductive pattern : Type := yyyy_MM_dd | yyyy | MM.

Section Zone.

(** Offset of local time from UTC, in minutes. *)
Variable tz : Z.

Definition LocalTime (t : Z) : Z := t + tz * Time.msPerMinute.
Definition UTC (l : Z) : Z := l - tz * Time.msPerMinute.

(** [new Date(s)] for a date-only string: midnight UTC of that day.  A
    string of another shape, or one that names no day of the calendar, is
    read as an Invalid Date; engines accept further forms of their own,
    which no statement below depends on. *)
Definition newDate (s : string) : option Z :=
  match Str.readDate s with
  | Some (y, m, d) => Some (Time.MakeDate (Time.MakeDay y (m - 1) d) 0)
  | None => None
  end.

Definition getDay (d : Z) : Z := Time.WeekDay (LocalTime d).
Definition getDate (d : Z) : Z := Time.DateFromTime (LocalTime d).

Definition setDate (d dt : Z) : Z :=
  let t := LocalTime d in
  UTC (Time.MakeDate
         (Time.MakeDay (Time.YearFromTime t) (Time.MonthFromTime t) dt)
         (Time.TimeWithinDay t)).

Definition setHours (d h m s ms : Z) : Z :=
  UTC (Time.MakeDate (Time.Day (LocalTime d)) (Time.MakeTime h m s ms)).

Definition setUTCHours (t h m s ms : Z) : Z :=
  Time.MakeDate (Time.Day t) (Time.MakeTime h m s ms).

Definition HourFromTime (t : Z) : Z := (t / 3600000) mod 24.

Definition setUTCMinutes (t m s ms : Z) : Z :=
  Time.MakeDate (Time.Day t) (Time.MakeTime (HourFromTime t) m s ms).

(** [parseISO(s)] for a date-only string: local midnight of that day, and
    an Invalid Date when the string names no day of the calendar. *)
Definition parseISO (s : string) : option Z :=
  match Str.readDate s with
  | Some (y, m, d) =>
      Some (UTC (Time.MakeDate (Time.MakeDay y (m - 1) d) 0))
  | None => None
  end.

(** The [y] formatter prints year 0 and the years before it as years of
    the era before. *)
Definition format (d : Z) (p : pattern) : string :=
  let t := LocalTime d in
  let signedYear := Time.YearFromTime t in
  let year := if 0 <? signedYear then signedYear else 1 - signedYear in
  let y := Str.addLeadingZeros year 4 in
  let m := Str.addLeadingZeros (Time.MonthFromTime t + 1) 2 in
  let dd := Str.addLeadingZeros (Time.DateFromTime t) 2 in
  match p with
  | yyyy_MM_dd => (y ++ "-" ++ m ++ "-" ++ dd)%string
  | yyyy => y
  | MM => m
  end.

(** [format] throws a RangeError on an Invalid Date. *)
Definition format_exn (d : option Z) (p : pattern) : option string :=
  option_map (fun t => format t p) d.

(** [parse(s, "HH:mm", referenceDate)]: hours of one or two digits up to
    23, a colon, minutes of one or two digits up to 59, then white space
    at most; the hour and then the minute are set on the local calendar
    day of the reference date. *)
Definition readClock (s : string) : option (Z * Z) :=
  match Str.takeDigits12 s with
  | Some (h, String c rest) =>
      if Ascii.eqb c ":" then
        match Str.takeDigits12 rest with
        | Some (m, rest') =>
            if Str.all_space rest' && (h <=? 23) && (m <=? 59)
            then Some (h, m)
            else None
        | None => None
        end
      else None
  | _ => None
  end.

Definition parse (s : string) (referenceDate : option Z) : option Z :=
  match referenceDate, readClock s with
  | Some r, Some (h, m) =>
      Some (UTC (setUTCMinutes (setUTCHours (LocalTime r) h 0 0 0) m 0 0))
  | _, _ => None
  end.

(** [differenceInMinutes(left, right)] truncates towards zero. *)
Definition differenceInMinutes (dateLeft dateRight : option Z) : option Z :=
  match dateLeft, dateRight with
  | Some l, Some r => Some (Z.quot (l - r) Time.msPerMinute)
  | _, _ => None
  end.

Definition startOfWeek (d weekStartsOn : Z) : Z :=
  let day := getDay d in
  let diff := (if day <? weekStartsOn then 7 else 0) + day - weekStartsOn in
  setHours (setDate d (getDate d - diff)) 0 0 0 0.

Definition endOfWeek (d weekStartsOn : Z) : Z :=
  let day := getDay d in
  let diff :=
    (if day <? weekStartsOn then -7 else 0) + 6 - (day - weekStartsOn) in
  setHours (setDate d (getDate d + diff)) 23 59 59 999.

(** The [while] loop of [eachDayOfInterval]; [fuel] bounds its turns. *)
Fixpoint eachDay_loop (fuel : nat) (currentDate endTime : Z) : list Z :=
  match fuel with
  | O => []
  | S fuel' =>
      if currentDate <=? endTime
      then currentDate
           :: eachDay_loop fuel'
                (setHours (setDate currentDate (getDate currentDate + 1))
                   0 0 0 0)
                endTime
      else []
  end.

(** One turn a day and one more cover the interval; a start after the end
    throws a RangeError. *)
Definition eachDayOfInterval (start finish : Z) : option (list Z) :=
  if start <=? finish then
    let currentDate := setHours start 0 0 0 0 in
    let fuel := Z.to_nat ((finish - currentDate) / Time.msPerDay + 1) in
    Some (eachDay_loop fuel currentDate finish)
  else None.

Definition isWeekend (d : Z) : bool :=
  let day := getDay d in
  (day =? 0) || (day =? 6).

End Zone.

End DateFns.

(** ** The home page component *)

Module Home.

(** Modelled from the spec: the [LogEntry] type, which the component
    imports from [lib/types]: an identifier absent until the entry is
    saved, the date as a [yyyy-MM-dd] string, the clock times as [HH:mm]
    strings that may be absent, the break in whole minutes. *)
Record LogEntry : Type := {
  id : option string;
  date : string;
  timeIn : option string;
  timeOut : option string;
  breakMinutes : Z
}.

Inductive SortOrder : Type := asc | desc.

(** The pieces of component state that the two memos read, and the one
    they write. *)
Record State : Type := {
  logs : option (list LogEntry);
  savedHolidayHours : Num.number;
  manualWeeklyHours : option Num.number;
  sortOrder : SortOrder;
  filterYear : string;
  filterMonth : string;
  filterStartDate : string;
  filterEndDate : string
}.

Definition setSavedHolidayHours (v : Num.number) (st : State) : State :=
  {| logs := logs st;
     savedHolidayHours := v;
     manualWeeklyHours := manualWeeklyHours st;
     sortOrder := sortOrder st;
     filterYear := filterYear st;
     filterMonth := filterMonth st;
     filterStartDate := filterStartDate st;
     filterEndDate := filterEndDate st |}.

Record Totals : Type := {
  dailyHours : Num.number;
  weeklyHours : Num.number
}.

Record View : Type := {
  filteredAndSortedLogs : list LogEntry;
  availableYears : list string;
  availableMonths : list string
}.

(** [!s] for a string that may be undefined. *)
Definition falsy (s : option string) : bool :=
  match s with
  | None => true
  | Some x => negb (Str.truthy x)
  end.

Definition str (s : option string) : string :=
  match s with
  | Some x => x
  | None => EmptyString
  end.

Definition ofInt (v : option Z) : Num.number :=
  match v with
  | Some z => Num.ofZ z
  | None => Num.NaN
  end.

Section Zone.

Variable tz : Z.

Definition calculateHoursForLog (log : LogEntry) : Num.number :=
  if falsy (timeIn log) || falsy (timeOut log) then Num.zero
  else
    let timeInDate :=
      DateFns.parse tz (str (timeIn log)) (DateFns.newDate (date log)) in
    let timeOutDate :=
      DateFns.parse tz (str (timeOut log)) (DateFns.newDate (date log)) in
    let diff := DateFns.differenceInMinutes timeOutDate timeInDate in
    Num.div60 (Num.sub (ofInt diff) (Num.ofZ (breakMinutes log))).

(** The body of the callback given to [daysInWeek.forEach], as a step on
    the accumulator [weekly]. *)
Definition addDay (ls : list LogEntry) (weekly : Num.number) (day : Z)
  : Num.number :=
  if DateFns.isWeekend tz day then weekly
  else
    let dayStr := DateFns.format tz day DateFns.yyyy_MM_dd in
    match find (fun log => String.eqb (date log) dayStr) ls with
    | Some logForDay => Num.add weekly (calculateHoursForLog logForDay)
    | None => weekly
    end.

(** The first memo, run with the clock reading [today]: the totals it
    returns and the state after the update it may request. *)
Definition dailyAndWeeklyHours (today : Z) (st : State)
  : option (Totals * State) :=
  let todayStr := DateFns.format tz today DateFns.yyyy_MM_dd in
  match logs st with
  | None =>
      Some ({| dailyHours := Num.zero; weeklyHours := Num.zero |}, st)
  | Some ls =>
      let todayLog :=
        find (fun log => String.eqb (date log) todayStr) ls in
      let daily :=
        match todayLog with
        | Some l => calculateHoursForLog l
        | None => Num.zero
        end in
      match manualWeeklyHours st with
      | Some manual =>
          Some ({| dailyHours := daily; weeklyHours := manual |}, st)
      | None =>
          let weekStart := DateFns.startOfWeek tz today 1 in
          let weekEnd := DateFns.endOfWeek tz today 1 in
          match DateFns.eachDayOfInterval tz weekStart weekEnd with
          | None => None
          | Some daysInWeek =>
              let weekly := fold_left (addDay ls) daysInWeek Num.zero in
              let st' :=
                if (List.length ls =? 0)%nat
                   && Num.gtb (savedHolidayHours st) Num.zero
                then setSavedHolidayHours Num.zero st
                else st in
              let finalWeeklyHours :=
                if (0 <? List.length ls)%nat
                then Num.add weekly (savedHolidayHours st)
                else Num.zero in
              Some ({| dailyHours := daily;
                       weeklyHours :=
                         Num.parseFloat_toFixed2 finalWeeklyHours |},
                    st')
          end
      end
  end.

(** The callback of [logs.forEach] that collects the years and months. *)
Definition collect (acc : option (list string * list string))
  (log : LogEntry) : option (list string * list string) :=
  match acc with
  | None => None
  | Some (years, months) =>
      let logDate := DateFns.parseISO tz (date log) in
      match DateFns.format_exn tz logDate DateFns.yyyy,
            DateFns.format_exn tz logDate DateFns.MM with
      | Some y, Some m => Some (Arr.Set_add y years, Arr.Set_add m months)
      | _, _ => None
      end
  end.

(** The predicate given to [logs.filter]; [format] is reached only behind
    a filter that is set. *)
Definition keep (st : State) (log : LogEntry) : option bool :=
  let logDate := DateFns.parseISO tz (date log) in
  let yearFails :=
    if Str.truthy (filterYear st)
    then option_map (fun y => negb (String.eqb y (filterYear st)))
           (DateFns.format_exn tz logDate DateFns.yyyy)
    else Some false in
  match yearFails with
  | None => None
  | Some true => Some false
  | Some false =>
      let monthFails :=
        if Str.truthy (filterMonth st)
        then option_map (fun m => negb (String.eqb m (filterMonth st)))
               (DateFns.format_exn tz logDate DateFns.MM)
        else Some false in
      match monthFails with
      | None => None
      | Some true => Some false
      | Some false =>
          if Str.truthy (filterStartDate st)
             && Str.lt (date log) (filterStartDate st)
          then Some false
          else if Str.truthy (filterEndDate st)
                  && Str.gt (date log) (filterEndDate st)
          then Some false
          else Some true
      end
  end.

Definition getTime (d : option Z) : option Z := d.

Definition compareLogs (order : SortOrder) (a b : LogEntry) : option Z :=
  let dateA := getTime (DateFns.newDate (date a)) in
  let dateB := getTime (DateFns.newDate (date b)) in
  match order with
  | asc =>
      match dateA, dateB with
      | Some x, Some y => Some (x - y)
      | _, _ => None
      end
  | desc => Some (Str.localeCompare (date b) (date a))
  end.

(** The second memo. *)
Definition filteredSortedAndAvailable (st : State) : option View :=
  match logs st with
  | None =>
      Some {| filteredAndSortedLogs := [];
              availableYears := [];
              availableMonths := [] |}
  | Some ls =>
      match fold_left collect ls (Some ([], [])) with
      | None => None
      | Some (years, months) =>
          match Arr.filter_exn (keep st) ls with
          | None => None
          | Some filtered =>
              let sorted :=
                Arr.sort (compareLogs (sortOrder st)) filtered in
              Some {| filteredAndSortedLogs := sorted;
                      availableYears :=
                        Arr.sort
                          (fun a b => Some (Str.localeCompare b a)) years;
                      availableMonths :=
                        Arr.sort
                          (fun a b => Some (Str.localeCompare a b))
                          months |}
          end
      end
  end.

End Zone.

End Home.

(** ** Reference definitions: what the specification speaks of *)

Module Spec.

(** A log date as the data model has it: a [yyyy-MM-dd] string naming a
    day of a year from 0001 to 9999. *)
Definition wellFormedDate (s : string) : bool :=
  match Str.readDate s with
  | Some (y, _, _) => 1 <=? y
  | None => false
  end.

(** The minutes since midnight of an [HH:mm] clock time. *)
Definition clockMinutes (s : string) : option Z :=
  match DateFns.readClock s with
  | Some (h, m) => Some (60 * h + m)
  | None => None
  end.

(** A clock time that is present: neither undefined nor empty. *)
Definition present (s : option string) : Prop :=
  exists x, s = Some x /\ x <> EmptyString.


(** The number of the local calendar day of an instant, counted from the
    epoch, and the Monday that begins its week. *)
Definition localDay (tz t : Z) : Z := (t + tz * 60000) / 86400000.

Definition mondayOf (n : Z) : Z := n - (n + 3) mod 7.

(** The instant [r] milliseconds into local day [n]. *)
Definition atDay (tz n r : Z) : Z :=
  DateFns.UTC tz (Time.MakeDate n r).

(** Day 0 was a Thursday; 0 is Sunday, 1 Monday, ..., 6 Saturday. *)
Definition weekdayOf (n : Z) : Z := (n + 4) mod 7.

(** The [yyyy-MM-dd] name of calendar day [n]. *)
Definition dayString (n : Z) : string :=
  DateFns.format 0 (n * 86400000) DateFns.yyyy_MM_dd.

(** Monday to Friday of the week of day [n], as date strings. *)
Definition weekdayStrings (n : Z) : list string :=
  map (fun i => dayString (mondayOf n + i)) [0; 1; 2; 3; 4].

(** The first entry, in collection order, with a given date. *)
Definition firstOn (ls : list Home.LogEntry) (d : string)
  : option Home.LogEntry :=
  find (fun log => String.eqb (Home.date log) d) ls.

(** Every entry whose date is one of the given ones. *)
Definition entriesOn (ls : list Home.LogEntry) (ds : list string)
  : list Home.LogEntry :=
  filter (fun log => existsb (String.eqb (Home.date log)) ds) ls.

Definition sum (xs : list Num.number) : Num.number :=
  fold_right Num.add Num.zero xs.

Definition hoursOf (tz : Z) (l : option Home.LogEntry) : Num.number :=
  match l with
  | Some log => Home.calculateHoursForLog tz log
  | None => Num.zero
  end.

(** The weekday sum, one entry a day: for each of Monday to Friday the
    hours of the first entry with that date, nothing where there is none. *)
Definition firstEntryHours (tz : Z) (ls : list Home.LogEntry) (n : Z)
  : Num.number :=
  sum (map (fun d => hoursOf tz (firstOn ls d)) (weekdayStrings n)).

(** The weekday sum over every entry dated Monday to Friday of the week. *)
Definition allEntryHours (tz : Z) (ls : list Home.LogEntry) (n : Z)
  : Num.number :=
  sum (map (Home.calculateHoursForLog tz) (entriesOn ls (weekdayStrings n))).

(** A clock time that is missing: undefined or empty. *)
Definition absent (s : option string) : Prop :=
  s = None \/ s = Some EmptyString.

(** A string that names a day of the calendar as [yyyy-MM-dd]. *)
Definition isDate (s : string) : Prop := Str.readDate s <> None.

(** A number that is not [NaN] and not below zero. *)
Definition nonNegative (a : Num.number) : Prop :=
  exists q, a = Some q /\ (0 <= q)%Qc.

Definition withLogs (ls : list Home.LogEntry) (st : Home.State)
  : Home.State :=
  {| Home.logs := Some ls;
     Home.savedHolidayHours := Home.savedHolidayHours st;
     Home.manualWeeklyHours := Home.manualWeeklyHours st;
     Home.sortOrder := Home.sortOrder st;
     Home.filterYear := Home.filterYear st;
     Home.filterMonth := Home.filterMonth st;
     Home.filterStartDate := Home.filterStartDate st;
     Home.filterEndDate := Home.filterEndDate st |}.

(** Rounding to two decimals, stated without the algorithm: a whole number
    of hundredths at distance at most half a hundredth. *)
Definition roundedTo2 (x r : Qc) : Prop :=
  exists n : Z, r = Q2Qc (n # 100) /\ (Qabs (r - x) <= 1 # 200)%Q.

(** The character of a decimal digit, and strings of two and four
    characters. *)
Definition digit_char (d : Z) : ascii := ascii_of_N (Z.to_N (d + 48)).
Definition str2 (a b : ascii) : string := String a (String b EmptyString).
Definition str4 (a b c d : ascii) : string := String a (String b (str2 c d)).

Definition yearOf (s : string) : string := substring 0 4 s.
Definition monthOf (s : string) : string := substring 5 2 s.

Definition unset (s : string) : Prop := s = EmptyString.

(** [a <= b] in the order of the code units. *)
Definition le (a b : string) : Prop := String.compare a b <> Gt.

(** The filter conditions, each skipped when its filter is unset. *)
Definition satisfies (st : Home.State) (log : Home.LogEntry) : Prop :=
  (unset (Home.filterYear st) \/ yearOf (Home.date log) = Home.filterYear st)
  /\ (unset (Home.filterMonth st)
      \/ monthOf (Home.date log) = Home.filterMonth st)
  /\ (unset (Home.filterStartDate st)
      \/ le (Home.filterStartDate st) (Home.date log))
  /\ (unset (Home.filterEndDate st)
      \/ le (Home.date log) (Home.filterEndDate st)).

(** The conditions as a test, the way the filter evaluates them. *)
Definition satisfiesb (st : Home.State) (log : Home.LogEntry) : bool :=
  (negb (Str.truthy (Home.filterYear st))
   || String.eqb (yearOf (Home.date log)) (Home.filterYear st))
  && (negb (Str.truthy (Home.filterMonth st))
      || String.eqb (monthOf (Home.date log)) (Home.filterMonth st))
  && negb (Str.truthy (Home.filterStartDate st)
           && String.ltb (Home.date log) (Home.filterStartDate st))
  && negb (Str.truthy (Home.filterEndDate st)
           && String.ltb (Home.filterEndDate st) (Home.date log)).

(** The years and the months of the dates of the entries, each once, in
    the order they first occur, after those of [acc]. *)
Definition yearsOf (ls : list Home.LogEntry) (acc : list string)
  : list string :=
  fold_left (fun a l => Arr.Set_add (yearOf (Home.date l)) a) ls acc.

Definition monthsOf (ls : list Home.LogEntry) (acc : list string)
  : list string :=
  fold_left (fun a l => Arr.Set_add (monthOf (Home.date l)) a) ls acc.

(** The number of the day a date string names, counted from the epoch. *)
Definition dayNumber (s : string) : Z :=
  match Str.readDate s with
  | Some (y, m, d) => Time.MakeDay y (m - 1) d
  | None => 0
  end.

Definition byDay (log : Home.LogEntry) : Z := dayNumber (Home.date log).

Definition dated (log : Home.LogEntry) : Prop := isDate (Home.date log).

(** Lexicographic combination of two comparisons. *)
Definition lex (c1 c2 : comparison) : comparison :=
  match c1 with
  | Eq => c2
  | _ => c1
  end.

Definition strictlyAscending (l : list string) : Prop :=
  StronglySorted (fun a b => String.compare a b = Lt) l.

Definition strictlyDescending (l : list string) : Prop :=
  StronglySorted (fun a b => String.compare a b = Gt) l.

Definition withFilters (y m s e : string) (st : Home.State) : Home.State :=
  {| Home.logs := Home.logs st;
     Home.savedHolidayHours := Home.savedHolidayHours st;
     Home.manualWeeklyHours := Home.manualWeeklyHours st;
     Home.sortOrder := Home.sortOrder st;
     Home.filterYear := y;
     Home.filterMonth := m;
     Home.filterStartDate := s;
     Home.filterEndDate := e |}.

Definition withSort (o : Home.SortOrder) (st : Home.State) : Home.State :=
  {| Home.logs := Home.logs st;
     Home.savedHolidayHours := Home.savedHolidayHours st;
     Home.manualWeeklyHours := Home.manualWeeklyHours st;
     Home.sortOrder := o;
     Home.filterYear := Home.filterYear st;
     Home.filterMonth := Home.filterMonth st;
     Home.filterStartDate := Home.filterStartDate st;
     Home.filterEndDate := Home.filterEndDate st |}.

End Spec.

(** ** Sample entries and states *)

Module Examples.

Definition entry (d tin tout : string) (brk : Z) : Home.LogEntry :=
  {| Home.id := None;
     Home.date := d;
     Home.timeIn := Some tin;
     Home.timeOut := Some tout;
     Home.breakMinutes := brk |}.

Definition officeDay : Home.LogEntry :=
  entry "2024-01-01" "09:00" "17:00" 30.

Definition reversedDay : Home.LogEntry :=
  entry "2024-01-01" "17:00" "09:00" 0.

Definition noTimeIn : Home.LogEntry :=
  entry "2024-01-01" "" "17:00" 0.

Definition fullDay (d : string) : Home.LogEntry :=
  entry d "09:00" "17:00" 0.

(** Midnight UTC at the start of 2024-01-01, a Monday. *)
Definition newYear2024 : Z := 1704067200000.

Definition state (ls : list Home.LogEntry) (carry : Num.number)
  (manual : option Num.number) : Home.State :=
  {| Home.logs := Some ls;
     Home.savedHolidayHours := carry;
     Home.manualWeeklyHours := manual;
     Home.sortOrder := Home.desc;
     Home.filterYear := "";
     Home.filterMonth := "";
     Home.filterStartDate := "";
     Home.filterEndDate := "" |}.

End Examples.

(** ** The handlers of the home page component *)

Module Page.

Import Home.

(** What a handler asks of its collaborators, the document store and the
    toast.  A write names the user whose collection it goes to; [stamps]
    lists the fields set to the server time stamp. *)
Inductive Effect : Type :=
| setDocumentNonBlocking
    (uid docId : string) (data : LogEntry) (stamps : list string)
    (merge : bool)
| addDocumentNonBlocking (uid : string) (data : LogEntry) (stamps : list string)
| deleteDocumentNonBlocking (uid docId : string)
| toast (title : string) (hours : Num.number).

(** The state of the component: the signed-in user, the entry being edited
    and the state the memos read. *)
Record Page : Type := {
  user : option string;
  isUserLoading : bool;
  editingLog : option LogEntry;
  state : State
}.

Definition setState (st : State) (p : Page) : Page :=
  {| user := user p;
     isUserLoading := isUserLoading p;
     editingLog := editingLog p;
     state := st |}.

Definition setEditingLog (e : option LogEntry) (p : Page) : Page :=
  {| user := user p;
     isUserLoading := isUserLoading p;
     editingLog := e;
     state := state p |}.

Definition setManualWeeklyHours (v : option Num.number) (st : State) : State :=
  {| logs := logs st;
     savedHolidayHours := savedHolidayHours st;
     manualWeeklyHours := v;
     sortOrder := sortOrder st;
     filterYear := filterYear st;
     filterMonth := filterMonth st;
     filterStartDate := filterStartDate st;
     filterEndDate := filterEndDate st |}.

Definition setSortOrder (o : SortOrder) (st : State) : State :=
  {| logs := logs st;
     savedHolidayHours := savedHolidayHours st;
     manualWeeklyHours := manualWeeklyHours st;
     sortOrder := o;
     filterYear := filterYear st;
     filterMonth := filterMonth st;
     filterStartDate := filterStartDate st;
     filterEndDate := filterEndDate st |}.

Definition setFilters (y m s e : string) (st : State) : State :=
  {| logs := logs st;
     savedHolidayHours := savedHolidayHours st;
     manualWeeklyHours := manualWeeklyHours st;
     sortOrder := sortOrder st;
     filterYear := y;
     filterMonth := m;
     filterStartDate := s;
     filterEndDate := e |}.

(** The collection of the logs of the user, [null] without a user. *)
Definition logsCollectionRef (p : Page) : option string := user p.

Definition resetManualHours (p : Page) : Page :=
  setState (setManualWeeklyHours None (state p)) p.

Definition handleAddOrUpdateLog (logData : LogEntry) (id : option string)
  (p : Page) : Page * list Effect :=
  match logsCollectionRef p with
  | None => (p, [])
  | Some ref =>
      let write :=
        match editingLog p with
        | Some e =>
            if falsy (Home.id e)
            then addDocumentNonBlocking ref logData
                   ["createdAt"; "updatedAt"]%string
            else setDocumentNonBlocking ref (str (Home.id e)) logData
                   ["updatedAt"]%string true
        | None =>
            addDocumentNonBlocking ref logData
              ["createdAt"; "updatedAt"]%string
        end in
      (resetManualHours (setEditingLog None p), [write])
  end.

Definition handleDeleteLog (id : string) (p : Page) : Page * list Effect :=
  match logsCollectionRef p with
  | None => (p, [])
  | Some ref => (resetManualHours p, [deleteDocumentNonBlocking ref id])
  end.

(** The toast prints [hours] with two decimals. *)
Definition handleSaveHolidayHours (hours : Num.number) (p : Page)
  : Page * list Effect :=
  let prev := savedHolidayHours (state p) in
  let newTotal := Num.add prev hours in
  let p' :=
    setState
      (setSavedHolidayHours (Num.parseFloat_toFixed2 newTotal) (state p)) p in
  (resetManualHours p', [toast "Holiday Hours Saved" hours]).

Definition handleClearFilters (p : Page) : Page :=
  setState (setFilters "" "" "" "" (state p)) p.

Definition handleUpdateWeeklyHours (newHours : Num.number) (p : Page)
  : Page * list Effect :=
  (setState (setManualWeeklyHours (Some newHours) (state p)) p,
   [toast "Weekly Hours Updated" newHours]).

(** The [onEdit] and [onSortToggle] callbacks given to the log history. *)
Definition onEdit (log : LogEntry) (p : Page) : Page :=
  resetManualHours (setEditingLog (Some log) p).

Definition onSortToggle (p : Page) : Page :=
  let prev := sortOrder (state p) in
  setState
    (setSortOrder (match prev with asc => desc | desc => asc end) (state p)) p.

End Page.

(** ** Further reference definitions *)

Module PageSpec.

Import Home.

(** The user a write goes to. *)
Definition target (w : Page.Effect) : option string :=
  match w with
  | Page.setDocumentNonBlocking uid _ _ _ _ => Some uid
  | Page.addDocumentNonBlocking uid _ _ => Some uid
  | Page.deleteDocumentNonBlocking uid _ => Some uid
  | Page.toast _ _ => None
  end.

(** The weekly total the aggregator computes when no override is set. *)
Definition computedWeekly (tz today : Z) (st : State) (ls : list LogEntry)
  : Num.number :=
  Num.parseFloat_toFixed2
    (if (0 <? List.length ls)%nat
     then Num.add (Spec.firstEntryHours tz ls (Spec.localDay tz today))
            (savedHolidayHours st)
     else Num.zero).

(** The weekly total of a run of the aggregator. *)
Definition weeklyOf (r : option (Totals * State)) : option Num.number :=
  option_map (fun x => weeklyHours (fst x)) r.

Definition totalsOf (r : option (Totals * State)) : option Totals :=
  option_map fst r.

(** The visible list of a run of the second memo. *)
Definition visibleOf (v : option View) : option (list LogEntry) :=
  option_map filteredAndSortedLogs v.

Definition wellFormed (log : LogEntry) : Prop :=
  Spec.wellFormedDate (date log) = true.

Definition monthNames : list string :=
  ["01"; "02"; "03"; "04"; "05"; "06";
   "07"; "08"; "09"; "10"; "11"; "12"]%string.

(** The order of the visible list in a sort direction. *)
Definition inOrder (o : SortOrder) (a b : LogEntry) : Prop :=
  match o with
  | asc => Spec.byDay a <= Spec.byDay b
  | desc => Spec.byDay b <= Spec.byDay a
  end.

End PageSpec.

(** ** Further sample entries and states *)

Module Samples.

Definition signedIn (st : Home.State) : Page.Page :=
  {| Page.user := Some "u1"%string;
     Page.isUserLoading := false;
     Page.editingLog := None;
     Page.state := st |}.

Definition monday : Home.LogEntry := Examples.fullDay "2024-01-01".
Definition wednesday : Home.LogEntry := Examples.fullDay "2024-01-03".
Definition saturday : Home.LogEntry := Examples.fullDay "2024-01-06".
Definition march : Home.LogEntry := Examples.fullDay "2024-03-05".

Definition badTime : Home.LogEntry :=
  Examples.entry "2024-01-02" "9am" "17:00" 0.

(** An entry as the store returns it, with its identifier, and one whose
    identifier is empty. *)
Definition stored : Home.LogEntry :=
  {| Home.id := Some "d7"%string;
     Home.date := "2024-01-01";
     Home.timeIn := Some "09:00"%string;
     Home.timeOut := Some "17:00"%string;
     Home.breakMinutes := 0 |}.

Definition unnamed : Home.LogEntry :=
  {| Home.id := Some ""%string;
     Home.date := "2024-01-01";
     Home.timeIn := Some "09:00"%string;
     Home.timeOut := Some "17:00"%string;
     Home.breakMinutes := 0 |}.

End Samples.

(** * Facts *)

Lemma forall_below_spec n p :
  forall_below n p = true -> forall r, 0 <= r < n -> p r = true.
Proof.
  unfold forall_below. rewrite forallb_forall. intros H r Hr.
  apply H. apply in_map_iff. exists (Z.to_nat r). split; [lia|].
  apply in_seq. lia.
Qed.

(** ** Calendar arithmetic *)

Module TimeFacts.
Import Time.

Lemma DayFromYear_shift q r :
  DayFromYear (400 * q + r) = 146097 * q + DayFromYear r.
Proof.
  unfold DayFromYear.
  replace (400 * q + r - 1969) with ((r - 1969) + (100 * q) * 4) by lia.
  replace (400 * q + r - 1901) with ((r - 1901) + (4 * q) * 100) by lia.
  replace (400 * q + r - 1601) with ((r - 1601) + q * 400) by lia.
  rewrite !Z.div_add by lia. lia.
Qed.

Lemma InLeapYear_shift q r : InLeapYear (400 * q + r) = InLeapYear r.
Proof.
  unfold InLeapYear.
  replace (400 * q + r) with (r + (100 * q) * 4) at 1 by lia.
  replace (400 * q + r) with (r + (4 * q) * 100) at 1 by lia.
  replace (400 * q + r) with (r + q * 400) at 1 by lia.
  rewrite !Z.mod_add by lia. reflexivity.
Qed.

Lemma leapDays_range y : 0 <= leapDays y <= 1.
Proof. unfold leapDays. destruct (InLeapYear y); lia. Qed.

(** A year is followed by the next after its 365 or 366 days. *)
Lemma DayFromYear_succ y : DayFromYear (y + 1) = DayFromYear y + DaysInYear y.
Proof.
  rewrite (Z.div_mod y 400) by lia.
  assert (Hr : 0 <= y mod 400 < 400) by (apply Z.mod_pos_bound; lia).
  generalize dependent (y mod 400). generalize (y / 400). intros q r Hr.
  unfold DaysInYear, leapDays.
  rewrite <- Z.add_assoc, !DayFromYear_shift, InLeapYear_shift.
  assert (H : (DayFromYear (r + 1)
               =? DayFromYear r + (365 + if InLeapYear r then 1 else 0))
              = true).
  { revert r Hr. apply (forall_below_spec 400). vm_compute. reflexivity. }
  apply Z.eqb_eq in H. lia.
Qed.

Lemma DayFromYear_mono y1 y2 : y1 <= y2 -> DayFromYear y1 <= DayFromYear y2.
Proof.
  intros H. unfold DayFromYear. Z.to_euclidean_division_equations. lia.
Qed.

Lemma DayFromYear_lt y1 y2 :
  y1 < y2 -> DayFromYear y1 + DaysInYear y1 <= DayFromYear y2.
Proof.
  intros H. rewrite <- DayFromYear_succ. apply DayFromYear_mono. lia.
Qed.

Lemma YearFromDay_spec d :
  DayFromYear (YearFromDay d) <= d < DayFromYear (YearFromDay d + 1).
Proof.
  unfold YearFromDay.
  destruct (Z.leb_spec (DayFromYear (1970 + d * 400 / 146097 + 1)) d).
  - split; [lia|].
    unfold DayFromYear in *. Z.to_euclidean_division_equations. lia.
  - destruct (Z.leb_spec (DayFromYear (1970 + d * 400 / 146097)) d).
    + split; lia.
    + replace (1970 + d * 400 / 146097 - 1 + 1)
        with (1970 + d * 400 / 146097) by lia.
      split; [|lia].
      unfold DayFromYear in *. Z.to_euclidean_division_equations. lia.
Qed.

Lemma YearFromDay_unique d y :
  DayFromYear y <= d < DayFromYear y + DaysInYear y -> YearFromDay d = y.
Proof.
  intros H. pose proof (YearFromDay_spec d) as S.
  rewrite DayFromYear_succ in S.
  destruct (Z.lt_trichotomy (YearFromDay d) y) as [L | [E | G]]; [|exact E|].
  - apply DayFromYear_lt in L. lia.
  - apply DayFromYear_lt in G. lia.
Qed.

Lemma DayWithinYear_range t :
  0 <= DayWithinYear t < DaysInYear (YearFromTime t).
Proof.
  unfold DayWithinYear, YearFromTime.
  pose proof (YearFromDay_spec (Day t)) as S.
  rewrite DayFromYear_succ in S. lia.
Qed.

(** Unfold the month table at literal months, leaving [leap] alone. *)
Ltac month_table :=
  repeat match goal with
         | |- context [DaysBeforeMonth ?l (Z.pos ?a + 1)] =>
             let v := eval compute in (Z.pos a + 1) in
             change (Z.pos a + 1) with v
         | |- context [DaysBeforeMonth ?l (0 + 1)] => change (0 + 1) with 1
         | H : context [DaysBeforeMonth ?l (Z.pos ?a + 1)] |- _ =>
             let v := eval compute in (Z.pos a + 1) in
             change (Z.pos a + 1) with v in H
         | H : context [DaysBeforeMonth ?l (0 + 1)] |- _ =>
             change (0 + 1) with 1 in H
         end;
  unfold DaysBeforeMonth in *.

Lemma MonthFromDayInYear_spec leap d :
  0 <= leap <= 1 -> 0 <= d < 365 + leap ->
  let m := MonthFromDayInYear leap d in
  0 <= m <= 11
  /\ DaysBeforeMonth leap m <= d < DaysBeforeMonth leap (m + 1).
Proof.
  intros Hl Hd. cbv zeta. unfold MonthFromDayInYear.
  repeat match goal with
         | |- context [?a <? ?b] => destruct (Z.ltb_spec a b)
         end; month_table; lia.
Qed.

Lemma MonthFromDayInYear_unique leap d m :
  0 <= leap <= 1 -> 0 <= m <= 11 ->
  DaysBeforeMonth leap m <= d < DaysBeforeMonth leap (m + 1) ->
  MonthFromDayInYear leap d = m.
Proof.
  intros Hl Hm Hd.
  assert (C : m = 0 \/ m = 1 \/ m = 2 \/ m = 3 \/ m = 4 \/ m = 5 \/ m = 6
              \/ m = 7 \/ m = 8 \/ m = 9 \/ m = 10 \/ m = 11) by lia.
  unfold MonthFromDayInYear.
  repeat destruct C as [C | C]; subst m; month_table;
    repeat match goal with
           | |- context [?a <? ?b] => destruct (Z.ltb_spec a b)
           end; lia.
Qed.

Lemma MonthFromTime_range t : 0 <= MonthFromTime t <= 11.
Proof.
  unfold MonthFromTime.
  apply MonthFromDayInYear_spec;
    [apply leapDays_range | apply DayWithinYear_range].
Qed.

(** Setting the day of the month moves by whole days. *)
Lemma MakeDay_of_time t k :
  MakeDay (YearFromTime t) (MonthFromTime t) (DateFromTime t + k) = Day t + k.
Proof.
  pose proof (MonthFromTime_range t) as Hm.
  unfold MakeDay.
  rewrite (Z.div_small (MonthFromTime t) 12),
          (Z.mod_small (MonthFromTime t) 12) by lia.
  rewrite Z.add_0_r. unfold DateFromTime, DayWithinYear. lia.
Qed.

(** The fields of day [MakeDay y m dt] are [y], [m] and [dt] again. *)
Lemma fields_of_MakeDay y m dt :
  0 <= m <= 11 -> 1 <= dt <= DaysInMonth y m ->
  let n := MakeDay y m dt in
  YearFromDay n = y
  /\ MonthFromDayInYear (leapDays y) (n - DayFromYear y) = m
  /\ n - DayFromYear y - DaysBeforeMonth (leapDays y) m + 1 = dt.
Proof.
  intros Hm Hd. unfold MakeDay.
  rewrite (Z.div_small m 12), (Z.mod_small m 12) by lia.
  rewrite Z.add_0_r. unfold DaysInMonth in Hd.
  pose proof (leapDays_range y) as Hl.
  assert (B : 0 <= DaysBeforeMonth (leapDays y) m
              /\ DaysBeforeMonth (leapDays y) (m + 1) <= 365 + leapDays y).
  { assert (C : m = 0 \/ m = 1 \/ m = 2 \/ m = 3 \/ m = 4 \/ m = 5 \/ m = 6
                \/ m = 7 \/ m = 8 \/ m = 9 \/ m = 10 \/ m = 11) by lia.
    repeat destruct C as [C | C]; subst m; month_table; lia. }
  split; [|split].
  - apply YearFromDay_unique. unfold DaysInYear. lia.
  - apply MonthFromDayInYear_unique; lia.
  - lia.
Qed.

End TimeFacts.

(** ** Numbers *)

Module NumFacts.
Import Num.

Lemma zero_is_0 : zero = Some 0%Qc.
Proof. reflexivity. Qed.

Lemma add_comm a b : add a b = add b a.
Proof. destruct a, b; unfold add, lift2; try reflexivity. f_equal. ring. Qed.

Lemma add_assoc a b c : add a (add b c) = add (add a b) c.
Proof. destruct a, b, c; unfold add, lift2; try reflexivity. f_equal. ring. Qed.

Lemma add_zero_r a : add a zero = a.
Proof.
  destruct a; unfold add, lift2, zero, ofZ; try reflexivity.
  f_equal. change (Q2Qc (inject_Z 0)) with 0%Qc. ring.
Qed.

Lemma add_zero_l a : add zero a = a.
Proof. rewrite add_comm. apply add_zero_r. Qed.


Lemma round2_0 : parseFloat_toFixed2 zero = zero.
Proof.
  unfold parseFloat_toFixed2, zero, ofZ, option_map. f_equal.
  apply Qc_is_canon. reflexivity.
Qed.

Lemma nearest_hundredth_spec q :
  (inject_Z (nearest_hundredth q) <= q * 100 + (1#2) 
   /\ q * 100 + (1#2) < inject_Z (nearest_hundredth q) + 1)%Q.
Proof.
  unfold nearest_hundredth. split.
  - apply Qfloor_le.
  - pose proof (Qlt_floor (q * (100#1) + (1#2))) as H.
    rewrite inject_Z_plus in H. exact H.
Qed.

Lemma hundredths n : (n # 100 == inject_Z n * (1 # 100))%Q.
Proof. unfold Qeq, Qmult, inject_Z; cbn. lia. Qed.

Lemma round2_rounded x : Spec.roundedTo2 x (round2 x).
Proof.
  unfold Spec.roundedTo2, round2.
  destruct (x ?= Q2Qc 0)%Qc eqn:E.
  1,3: exists (nearest_hundredth x); split; [reflexivity|];
       cbv [Qcminus Qcplus Qcopp Q2Qc]; cbn [this];
       rewrite !Qred_correct, hundredths;
       pose proof (nearest_hundredth_spec x) as [A B];
       apply Qabs_Qle_condition; split; lra.
  pose proof (nearest_hundredth_spec (- x)%Qc) as [A B].
  exists (- nearest_hundredth (- x)%Qc).
  set (n := nearest_hundredth (- x)%Qc) in *. clearbody n.
  cbv [Qcminus Qcplus Qcopp Q2Qc] in *; cbn [this] in *.
  rewrite Qred_correct in A, B.
  split.
  - apply Qc_is_canon. cbn [this]. rewrite !Qred_correct. reflexivity.
  - rewrite !Qred_correct, hundredths.
    apply Qabs_Qle_condition; split; lra.
Qed.
Lemma nearest_hundredth_integer z : nearest_hundredth (inject_Z z) = 100 * z.
Proof.
  unfold nearest_hundredth, inject_Z, Qfloor, Qmult, Qplus. cbn.
  replace (z * 100 * 2 + 1) with (1 + (100 * z) * 2) by lia.
  rewrite Z.div_add by lia. reflexivity.
Qed.

Lemma nearest_hundredth_comp q q' :
  (q == q')%Q -> nearest_hundredth q = nearest_hundredth q'.
Proof.
  intros E. unfold nearest_hundredth. apply Qfloor_comp. rewrite E. reflexivity.
Qed.

(** On an integer, rounding to two decimals changes nothing. *)
Lemma round2_integer z : round2 (Q2Qc (inject_Z z)) = Q2Qc (inject_Z z).
Proof.
  unfold round2. apply Qc_is_canon.
  destruct (Q2Qc (inject_Z z) ?= Q2Qc 0)%Qc.
  1,3: cbv [Q2Qc]; cbn [this];
       rewrite (nearest_hundredth_comp _ (inject_Z z)) by apply Qred_correct;
       rewrite nearest_hundredth_integer, !Qred_correct;
       unfold Qeq, inject_Z; cbn [Qnum Qden]; lia.
  cbv [Q2Qc Qcopp]; cbn [this].
  rewrite (nearest_hundredth_comp _ (inject_Z (- z))).
  - rewrite nearest_hundredth_integer, !Qred_correct.
    unfold Qeq, Qopp, inject_Z; cbn [Qnum Qden]. lia.
  - rewrite !Qred_correct. reflexivity.
Qed.

End NumFacts.

(** ** Dates in the local zone *)

Module DateFacts.
Import Time DateFns TimeFacts.
Import Spec (atDay).

Lemma Day_MakeDate n r : 0 <= r < msPerDay -> Day (MakeDate n r) = n.
Proof.
  intros H. unfold Day, MakeDate, msPerDay in *.
  rewrite Z.add_comm, Z.div_add by lia. rewrite Z.div_small; lia.
Qed.

Lemma TimeWithinDay_MakeDate n r :
  0 <= r < msPerDay -> TimeWithinDay (MakeDate n r) = r.
Proof.
  intros H. unfold TimeWithinDay, MakeDate, msPerDay in *.
  rewrite Z.add_comm, Z.mod_add by lia. apply Z.mod_small; lia.
Qed.

Lemma LocalTime_atDay tz n r : LocalTime tz (atDay tz n r) = MakeDate n r.
Proof. unfold LocalTime, atDay, UTC. lia. Qed.

Lemma atDay_localDay tz t :
  t = atDay tz (Spec.localDay tz t) ((t + tz * 60000) mod 86400000)
  /\ 0 <= (t + tz * 60000) mod 86400000 < msPerDay.
Proof.
  unfold atDay, UTC, MakeDate, Spec.localDay, msPerDay, msPerMinute.
  pose proof (Z.div_mod (t + tz * 60000) 86400000).
  pose proof (Z.mod_pos_bound (t + tz * 60000) 86400000). lia.
Qed.

Section AtDay.
Variables tz n r : Z.
Hypothesis Hr : 0 <= r < msPerDay.

Lemma getDay_atDay : getDay tz (atDay tz n r) = Spec.weekdayOf n.
Proof.
  unfold getDay, WeekDay. rewrite LocalTime_atDay, Day_MakeDate by exact Hr.
  reflexivity.
Qed.

Lemma setDate_atDay k :
  setDate tz (atDay tz n r) (getDate tz (atDay tz n r) + k)
  = atDay tz (n + k) r.
Proof.
  unfold setDate, getDate. rewrite LocalTime_atDay, MakeDay_of_time.
  rewrite Day_MakeDate, TimeWithinDay_MakeDate by exact Hr. reflexivity.
Qed.

Lemma setHours_atDay h m s ms :
  setHours tz (atDay tz n r) h m s ms = atDay tz n (MakeTime h m s ms).
Proof.
  unfold setHours. rewrite LocalTime_atDay, Day_MakeDate by exact Hr.
  reflexivity.
Qed.

Lemma format_atDay p :
  format tz (atDay tz n r) p = format 0 (n * 86400000) p.
Proof.
  unfold format. rewrite LocalTime_atDay.
  replace (LocalTime 0 (n * 86400000)) with (MakeDate n 0)
    by (unfold LocalTime, MakeDate, msPerDay; lia).
  unfold DateFromTime, MonthFromTime, DayWithinYear, YearFromTime.
  rewrite !Day_MakeDate by (unfold msPerDay in *; lia). reflexivity.
Qed.
End AtDay.

Lemma isWeekend_atDay tz n r :
  0 <= r < msPerDay ->
  isWeekend tz (atDay tz n r)
  = (Spec.weekdayOf n =? 0) || (Spec.weekdayOf n =? 6).
Proof.
  intros H. unfold isWeekend. rewrite getDay_atDay by exact H. reflexivity.
Qed.

Lemma startOfWeek_monday tz t :
  startOfWeek tz t 1 = atDay tz (Spec.mondayOf (Spec.localDay tz t)) 0.
Proof.
  pose proof (atDay_localDay tz t) as [E Hr]. revert E Hr.
  generalize (Spec.localDay tz t) ((t + tz * 60000) mod 86400000).
  intros n r E Hr. subst t.
  unfold startOfWeek. rewrite getDay_atDay by exact Hr.
  rewrite <- Z.add_opp_r.
  rewrite setDate_atDay, setHours_atDay by exact Hr.
  change (MakeTime 0 0 0 0) with 0.
  f_equal. unfold Spec.mondayOf, Spec.weekdayOf.
  destruct (Z.ltb_spec ((n + 4) mod 7) 1);
    Z.to_euclidean_division_equations; lia.
Qed.

Lemma endOfWeek_sunday tz t :
  endOfWeek tz t 1
  = atDay tz (Spec.mondayOf (Spec.localDay tz t) + 6) 86399999.
Proof.
  pose proof (atDay_localDay tz t) as [E Hr]. revert E Hr.
  generalize (Spec.localDay tz t) ((t + tz * 60000) mod 86400000).
  intros n r E Hr. subst t.
  unfold endOfWeek. rewrite getDay_atDay by exact Hr.
  rewrite setDate_atDay, setHours_atDay by exact Hr.
  change (MakeTime 23 59 59 999) with 86399999.
  f_equal. unfold Spec.mondayOf, Spec.weekdayOf.
  destruct (Z.ltb_spec ((n + 4) mod 7) 1);
    Z.to_euclidean_division_equations; lia.
Qed.

Lemma atDay_le tz n1 r1 n2 r2 :
  0 <= r1 < msPerDay -> 0 <= r2 < msPerDay ->
  (atDay tz n1 r1 <=? atDay tz n2 r2)
  = ((n1 <? n2) || ((n1 =? n2) && (r1 <=? r2))).
Proof.
  intros H1 H2. unfold atDay, UTC, MakeDate, msPerDay in *.
  destruct (Z.leb_spec (n1 * 86400000 + r1 - tz * msPerMinute)
              (n2 * 86400000 + r2 - tz * msPerMinute));
    destruct (Z.ltb_spec n1 n2); destruct (Z.eqb_spec n1 n2);
    destruct (Z.leb_spec r1 r2); cbn; try reflexivity; lia.
Qed.

(** The loop lists the days from [n] on, one a turn, up to the day of the
    end of the interval, whatever fuel is left over. *)
Lemma eachDay_loop_days tz r k : 
  0 <= r < msPerDay ->
  forall n extra,
  eachDay_loop tz (k + extra) (atDay tz n 0) (atDay tz (n + Z.of_nat k - 1) r)
  = map (fun i => atDay tz (n + Z.of_nat i) 0) (seq 0 k).
Proof.
  intros Hr. induction k as [|k IH]; intros n extra.
  - cbn [Nat.add seq map]. destruct extra; [reflexivity|].
    cbn [eachDay_loop]. rewrite atDay_le by (unfold msPerDay in *; lia).
    destruct (Z.ltb_spec n (n + Z.of_nat 0 - 1)); [lia|].
    destruct (Z.eqb_spec n (n + Z.of_nat 0 - 1)); [lia|]. reflexivity.
  - cbn [Nat.add eachDay_loop].
    rewrite atDay_le by (unfold msPerDay in *; lia).
    replace ((n <? n + Z.of_nat (S k) - 1)
             || (n =? n + Z.of_nat (S k) - 1) && (0 <=? r)) with true.
    2:{ destruct (Z.ltb_spec n (n + Z.of_nat (S k) - 1)); [reflexivity|].
        destruct (Z.eqb_spec n (n + Z.of_nat (S k) - 1)); [|lia].
        destruct (Z.leb_spec 0 r); [reflexivity|lia]. }
    rewrite setDate_atDay, setHours_atDay by (unfold msPerDay; lia).
    change (MakeTime 0 0 0 0) with 0.
    replace (n + Z.of_nat (S k) - 1) with ((n + 1) + Z.of_nat k - 1) by lia.
    rewrite IH. cbn [seq map]. f_equal; [f_equal; lia|].
    rewrite <- seq_shift, map_map. apply map_ext. intros i. f_equal. lia.
Qed.

Lemma eachDayOfInterval_week tz t :
  let M := Spec.mondayOf (Spec.localDay tz t) in
  eachDayOfInterval tz (startOfWeek tz t 1) (endOfWeek tz t 1)
  = Some (map (fun i => atDay tz (M + i) 0) [0; 1; 2; 3; 4; 5; 6]).
Proof.
  intros M. rewrite startOfWeek_monday, endOfWeek_sunday. fold M.
  unfold eachDayOfInterval.
  rewrite atDay_le by (unfold msPerDay; lia).
  replace ((M <? M + 6) || (M =? M + 6) && (0 <=? 86399999)) with true
    by (destruct (Z.ltb_spec M (M + 6)); [reflexivity | lia]).
  rewrite setHours_atDay by (unfold msPerDay; lia).
  change (MakeTime 0 0 0 0) with 0.
  replace (Z.to_nat ((atDay tz (M + 6) 86399999 - atDay tz M 0) / msPerDay + 1))
    with (7 + 0)%nat.
  2:{ unfold atDay, UTC, MakeDate, msPerDay.
      replace ((M + 6) * 86400000 + 86399999 - tz * msPerMinute
               - (M * 86400000 + 0 - tz * msPerMinute))
        with (86399999 + 6 * 86400000) by lia.
      rewrite Z.div_add by lia. reflexivity. }
  replace (M + 6) with (M + Z.of_nat 7 - 1) by lia.
  rewrite eachDay_loop_days by (unfold msPerDay; lia).
  reflexivity.
Qed.
End DateFacts.

(** ** The period aggregator *)

Module AggregatorFacts.
Import Home.
Import Spec (atDay).

Lemma mondayOf_spec n :
  Spec.weekdayOf (Spec.mondayOf n) = 1
  /\ Spec.mondayOf n <= n < Spec.mondayOf n + 7.
Proof.
  unfold Spec.weekdayOf, Spec.mondayOf.
  Z.to_euclidean_division_equations; lia.
Qed.

Lemma weekdayOf_offset n i :
  Spec.weekdayOf (Spec.mondayOf n + i) = (1 + i) mod 7.
Proof.
  unfold Spec.weekdayOf, Spec.mondayOf.
  Z.to_euclidean_division_equations; lia.
Qed.

Lemma format_today tz today :
  DateFns.format tz today DateFns.yyyy_MM_dd
  = Spec.dayString (Spec.localDay tz today).
Proof.
  destruct (DateFacts.atDay_localDay tz today) as [E Hr].
  rewrite E at 1. apply DateFacts.format_atDay. exact Hr.
Qed.

(** One turn of the [forEach] over the days of the week. *)
Lemma addDay_atDay tz ls w n :
  addDay tz ls w (atDay tz n 0)
  = if (Spec.weekdayOf n =? 0) || (Spec.weekdayOf n =? 6) then w
    else Num.add w (Spec.hoursOf tz (Spec.firstOn ls (Spec.dayString n))).
Proof.
  unfold addDay.
  rewrite DateFacts.isWeekend_atDay by (unfold Time.msPerDay; lia).
  destruct ((Spec.weekdayOf n =? 0) || (Spec.weekdayOf n =? 6));
    [reflexivity|].
  rewrite DateFacts.format_atDay by (unfold Time.msPerDay; lia).
  fold (Spec.dayString n). unfold Spec.firstOn.
  destruct (find _ ls); cbn [Spec.hoursOf]; [reflexivity|].
  symmetry. apply NumFacts.add_zero_r.
Qed.

Lemma forEach_week tz ls n :
  fold_left (addDay tz ls)
    (map (fun i => atDay tz (Spec.mondayOf n + i) 0) [0; 1; 2; 3; 4; 5; 6])
    Num.zero
  = Spec.firstEntryHours tz ls n.
Proof.
  cbn [map fold_left]. rewrite !addDay_atDay, !weekdayOf_offset.
  change ((1 + 0) mod 7) with 1. change ((1 + 1) mod 7) with 2.
  change ((1 + 2) mod 7) with 3. change ((1 + 3) mod 7) with 4.
  change ((1 + 4) mod 7) with 5. change ((1 + 5) mod 7) with 6.
  change ((1 + 6) mod 7) with 0. cbn [Z.eqb orb Pos.eqb].
  unfold Spec.firstEntryHours, Spec.weekdayStrings, Spec.sum.
  cbn [map fold_right].
  rewrite NumFacts.add_zero_r, NumFacts.add_zero_l.
  rewrite !NumFacts.add_assoc. reflexivity.
Qed.

(** The first memo in closed form, once the collection has loaded and no
    override is set. *)
Lemma run_computed tz today st ls :
  logs st = Some ls -> manualWeeklyHours st = None ->
  dailyAndWeeklyHours tz today st
  = Some ({| dailyHours :=
               Spec.hoursOf tz
                 (Spec.firstOn ls (Spec.dayString (Spec.localDay tz today)));
             weeklyHours :=
               Num.parseFloat_toFixed2
                 (if (0 <? List.length ls)%nat
                  then Num.add
                         (Spec.firstEntryHours tz ls (Spec.localDay tz today))
                         (savedHolidayHours st)
                  else Num.zero) |},
          if (List.length ls =? 0)%nat
             && Num.gtb (savedHolidayHours st) Num.zero
          then setSavedHolidayHours Num.zero st
          else st).
Proof.
  intros Hl Hm. unfold dailyAndWeeklyHours.
  rewrite Hl, Hm, DateFacts.eachDayOfInterval_week, forEach_week, format_today.
  reflexivity.
Qed.

Lemma run_override tz today st ls m :
  logs st = Some ls -> manualWeeklyHours st = Some m ->
  dailyAndWeeklyHours tz today st
  = Some ({| dailyHours :=
               Spec.hoursOf tz
                 (Spec.firstOn ls (Spec.dayString (Spec.localDay tz today)));
             weeklyHours := m |}, st).
Proof.
  intros Hl Hm. unfold dailyAndWeeklyHours.
  rewrite Hl, Hm, format_today. reflexivity.
Qed.
End AggregatorFacts.

(** ** The duration calculator *)

Module ClockFacts.
Import Time DateFns Home.

Lemma digit_value_range c :
  Str.is_digit c = true -> 0 <= Str.digit_value c <= 9.
Proof.
  unfold Str.is_digit, Str.digit_value. intros H.
  apply andb_true_iff in H as [A B].
  apply N.leb_le in A, B. lia.
Qed.






Lemma falsy_absent s : falsy s = true <-> Spec.absent s.
Proof.
  unfold falsy, Spec.absent, Str.truthy. destruct s as [x|].
  - rewrite negb_involutive, String.eqb_eq. split.
    + intros ->. right. reflexivity.
    + intros [H | H]; congruence.
  - split; [left; reflexivity | reflexivity].
Qed.

Lemma falsy_present s : Spec.present s -> falsy s = false.
Proof.
  intros [x [-> Hx]]. unfold falsy, Str.truthy.
  rewrite negb_involutive. apply String.eqb_neq. exact Hx.
Qed.

End ClockFacts.

(** ** Date strings *)

Module StringFacts.
Import Spec (digit_char, str2, str4).

Lemma digit_char_value c :
  Str.is_digit c = true -> digit_char (Str.digit_value c) = c.
Proof.
  intros H. unfold digit_char, Str.digit_value.
  unfold Str.is_digit in H. apply andb_true_iff in H as [A _].
  apply N.leb_le in A.
  replace (Z.to_N (Z.of_N (N_of_ascii c) - 48 + 48)) with (N_of_ascii c)
    by lia.
  apply ascii_N_embedding.
Qed.

Lemma pad4_digits n :
  0 <= n < 10000 ->
  Str.addLeadingZeros n 4
  = str4 (digit_char (n / 1000)) (digit_char ((n / 100) mod 10))
      (digit_char ((n / 10) mod 10)) (digit_char (n mod 10)).
Proof.
  intros H. apply String.eqb_eq. revert n H.
  apply (forall_below_spec 10000). vm_compute. reflexivity.
Qed.

Lemma pad2_digits n :
  0 <= n < 100 ->
  Str.addLeadingZeros n 2
  = str2 (digit_char (n / 10)) (digit_char (n mod 10)).
Proof.
  intros H. apply String.eqb_eq. revert n H.
  apply (forall_below_spec 100). vm_compute. reflexivity.
Qed.

Lemma read4_print a b c d n :
  Str.read4 a b c d = Some n ->
  0 <= n < 10000 /\ Str.addLeadingZeros n 4 = str4 a b c d.
Proof.
  unfold Str.read4. intros H.
  destruct (Str.is_digit a) eqn:A; [|discriminate].
  destruct (Str.is_digit b) eqn:B; [|discriminate].
  destruct (Str.is_digit c) eqn:C; [|discriminate].
  destruct (Str.is_digit d) eqn:D; [|discriminate].
  cbn [andb] in H.
  assert (E : 1000 * Str.digit_value a + 100 * Str.digit_value b
              + 10 * Str.digit_value c + Str.digit_value d = n)
    by congruence.
  pose proof (ClockFacts.digit_value_range a A).
  pose proof (ClockFacts.digit_value_range b B).
  pose proof (ClockFacts.digit_value_range c C).
  pose proof (ClockFacts.digit_value_range d D).
  split; [lia|]. rewrite pad4_digits by lia.
  rewrite <- (digit_char_value a A).
  rewrite <- (digit_char_value b B).
  rewrite <- (digit_char_value c C).
  rewrite <- (digit_char_value d D).
  unfold str4, str2. repeat f_equal;
    Z.to_euclidean_division_equations; lia.
Qed.

Lemma read2_print a b n :
  Str.read2 a b = Some n ->
  0 <= n < 100 /\ Str.addLeadingZeros n 2 = str2 a b.
Proof.
  unfold Str.read2. intros H.
  destruct (Str.is_digit a) eqn:A; [|discriminate].
  destruct (Str.is_digit b) eqn:B; [|discriminate].
  cbn [andb] in H.
  assert (E : 10 * Str.digit_value a + Str.digit_value b = n) by congruence.
  pose proof (ClockFacts.digit_value_range a A).
  pose proof (ClockFacts.digit_value_range b B).
  split; [lia|]. rewrite pad2_digits by lia.
  rewrite <- (digit_char_value a A).
  rewrite <- (digit_char_value b B).
  unfold str2. repeat f_equal; Z.to_euclidean_division_equations; lia.
Qed.

(** A string that reads as a date is ten characters: the digits of the
    year, the month and the day, with hyphens between. *)
Lemma readDate_shape s y m d :
  Str.readDate s = Some (y, m, d) ->
  exists y1 y2 y3 y4 m1 m2 d1 d2,
    s = (str4 y1 y2 y3 y4 ++ "-" ++ str2 m1 m2 ++ "-" ++ str2 d1 d2)%string
    /\ Str.read4 y1 y2 y3 y4 = Some y
    /\ Str.read2 m1 m2 = Some m
    /\ Str.read2 d1 d2 = Some d
    /\ 1 <= m <= 12 /\ 1 <= d <= Time.DaysInMonth y (m - 1).
Proof.
  unfold Str.readDate. intros H.
  rewrite <- (string_of_list_ascii_of_string s).
  destruct (list_ascii_of_string s)
    as [|y1 [|y2 [|y3 [|y4 [|h1 [|m1 [|m2 [|h2 [|d1 [|d2 [|x l]]]]]]]]]]];
    try discriminate.
  destruct (Str.read4 y1 y2 y3 y4) as [y'|] eqn:Ey; [|discriminate].
  destruct (Str.read2 m1 m2) as [m'|] eqn:Em; [|discriminate].
  destruct (Str.read2 d1 d2) as [d'|] eqn:Ed; [|discriminate].
  destruct (Str.is_hyphen h1) eqn:H1; [|discriminate].
  destruct (Str.is_hyphen h2) eqn:H2; [|discriminate].
  cbn [andb] in H.
  destruct (1 <=? m') eqn:M1; [|discriminate].
  destruct (m' <=? 12) eqn:M2; [|discriminate].
  destruct (1 <=? d') eqn:D1; [|discriminate].
  destruct (d' <=? Time.DaysInMonth y' (m' - 1)) eqn:D2; [|discriminate].
  cbn [andb] in H.
  assert (y' = y /\ m' = m /\ d' = d) as [-> [-> ->]]
    by (repeat split; congruence).
  apply Ascii.eqb_eq in H1, H2. subst h1 h2.
  apply Z.leb_le in M1, M2, D1, D2.
  exists y1, y2, y3, y4, m1, m2, d1, d2.
  repeat split; try assumption; reflexivity.
Qed.

End StringFacts.

(** ** Sorting *)

Module SortFacts.
Import Arr.

Section Generic.
Context {A : Type}.
Variable comparefn : A -> A -> option Z.

Lemma insert_perm x l : Permutation (insert comparefn x l) (x :: l).
Proof.
  induction l as [|y l IH]; cbn [insert]; [apply Permutation_refl|].
  destruct (0 <? SortCompare comparefn x y); [|apply Permutation_refl].
  apply perm_trans with (y :: x :: l);
    [apply perm_skip; exact IH | apply perm_swap].
Qed.

Lemma sort_perm l : Permutation (sort comparefn l) l.
Proof.
  induction l as [|x l IH]; cbn [sort]; [apply perm_nil|].
  apply perm_trans with (x :: sort comparefn l);
    [apply insert_perm | apply perm_skip; exact IH].
Qed.

(** Elements of [P], on which the comparator follows an order [R]. *)
Variable P : A -> Prop.
Variable R : A -> A -> Prop.
Hypothesis R_trans :
  forall x y z, P x -> P y -> P z -> R x y -> R y z -> R x z.
Hypothesis greater :
  forall x y, P x -> P y -> 0 < SortCompare comparefn x y -> R y x.
Hypothesis not_greater :
  forall x y, P x -> P y -> SortCompare comparefn x y <= 0 -> R x y.

Lemma insert_sorted x l :
  P x -> Forall P l -> StronglySorted R l ->
  StronglySorted R (insert comparefn x l).
Proof.
  intros Px Pl Sl. induction l as [|y l IH]; cbn [insert].
  - constructor; constructor.
  - inversion Pl as [|? ? Py Pl']; subst.
    inversion Sl as [|? ? Sl' Fy]; subst.
    destruct (Z.ltb_spec 0 (SortCompare comparefn x y)) as [G | G].
    + constructor; [apply IH; assumption|].
      apply (Permutation_Forall (Permutation_sym (insert_perm x l))).
      constructor; [apply greater; assumption | exact Fy].
    + constructor; [exact Sl|].
      assert (Rxy : R x y) by (apply not_greater; assumption).
      constructor; [exact Rxy|].
      rewrite Forall_forall in Fy, Pl' |- *. intros z Hz.
      apply (R_trans x y z); auto.
Qed.

Lemma sort_P l : Forall P l -> Forall P (sort comparefn l).
Proof.
  intros H. apply (Permutation_Forall (Permutation_sym (sort_perm l))).
  exact H.
Qed.

Lemma sort_sorted l :
  Forall P l -> StronglySorted R (sort comparefn l).
Proof.
  intros Pl. induction l as [|x l IH]; cbn [sort]; [constructor|].
  inversion Pl; subst.
  apply insert_sorted; [assumption | apply sort_P; assumption | auto].
Qed.
End Generic.

Section Orders.
Context {A : Type}.

Lemma StronglySorted_app (R : A -> A -> Prop) l1 l2 :
  StronglySorted R l1 -> StronglySorted R l2 ->
  (forall x y, In x l1 -> In y l2 -> R x y) ->
  StronglySorted R (l1 ++ l2).
Proof.
  intros S1 S2 H. induction l1 as [|a l1 IH]; [exact S2|].
  inversion S1 as [|? ? S1' Fa]; subst. cbn [app]. constructor.
  - apply IH; [exact S1'|]. intros x y Hx Hy. apply H; [right|]; assumption.
  - apply Forall_app. split; [exact Fa|].
    apply Forall_forall. intros y Hy. apply H; [left; reflexivity | exact Hy].
Qed.

Lemma StronglySorted_rev (R : A -> A -> Prop) l :
  StronglySorted R l -> StronglySorted (fun a b => R b a) (rev l).
Proof.
  intros S. induction S as [|a l S IH Fa]; cbn [rev]; [constructor|].
  apply StronglySorted_app; [exact IH | repeat constructor|].
  intros x y Hx [<- | []]. rewrite Forall_forall in Fa.
  apply Fa. apply in_rev. exact Hx.
Qed.

Lemma StronglySorted_weaken (R R' : A -> A -> Prop) l :
  (forall x y, In x l -> In y l -> R x y -> R' x y) ->
  StronglySorted R l -> StronglySorted R' l.
Proof.
  intros H S. induction S as [|a l S IH Fa]; [constructor|].
  constructor.
  - apply IH. intros x y Hx Hy. apply H; right; assumption.
  - rewrite Forall_forall in Fa |- *. intros y Hy.
    apply H; [left; reflexivity | right; exact Hy | apply Fa; exact Hy].
Qed.

(** Sorted without repetition is strictly sorted. *)
Lemma StronglySorted_strict (R : A -> A -> Prop) l :
  NoDup l -> StronglySorted R l ->
  StronglySorted (fun a b => R a b /\ a <> b) l.
Proof.
  intros N S. induction S as [|a l S IH Fa]; [constructor|].
  inversion N as [|? ? Na Nl]; subst. constructor; [apply IH; exact Nl|].
  rewrite Forall_forall in Fa |- *. intros y Hy.
  split; [apply Fa; exact Hy | intros ->; contradiction].
Qed.

(** A list has at most one arrangement sorted by an asymmetric order. *)
Lemma sorted_unique (R : A -> A -> Prop) l1 :
  (forall x y, R x y -> R y x -> False) ->
  forall l2, StronglySorted R l1 -> StronglySorted R l2 ->
             Permutation l1 l2 -> l1 = l2.
Proof.
  intros asym. induction l1 as [|a l1 IH]; intros l2 S1 S2 Pm.
  - apply Permutation_nil in Pm. symmetry. exact Pm.
  - destruct l2 as [|b l2];
      [apply Permutation_sym, Permutation_nil in Pm; discriminate|].
    inversion S1 as [|? ? S1' Fa]; subst.
    inversion S2 as [|? ? S2' Fb]; subst.
    rewrite Forall_forall in Fa, Fb.
    assert (E : a = b).
    { assert (Ia : In a (b :: l2))
        by (apply (Permutation_in _ Pm); left; reflexivity).
      assert (Ib : In b (a :: l1))
        by (apply (Permutation_in _ (Permutation_sym Pm));
            left; reflexivity).
      destruct Ia as [-> | Ia]; [reflexivity|].
      destruct Ib as [-> | Ib]; [reflexivity|].
      exfalso. apply (asym a b); [apply Fa | apply Fb]; assumption. }
    subst b. f_equal. apply IH; [assumption | assumption|].
    apply Permutation_cons_inv with a. exact Pm.
Qed.
End Orders.

End SortFacts.

(** ** The order of strings *)

Module OrderFacts.

Lemma ascii_compare_trans a b c :
  Ascii.compare a b = Lt -> Ascii.compare b c = Lt -> Ascii.compare a c = Lt.
Proof.
  unfold Ascii.compare. rewrite !N.compare_lt_iff. lia.
Qed.

Lemma ascii_compare_refl a : Ascii.compare a a = Eq.
Proof. unfold Ascii.compare. apply N.compare_refl. Qed.

Lemma compare_refl s : String.compare s s = Eq.
Proof.
  induction s as [|a s IH]; cbn [String.compare]; [reflexivity|].
  rewrite ascii_compare_refl. exact IH.
Qed.

Lemma compare_trans a :
  forall b c, String.compare a b = Lt -> String.compare b c = Lt ->
              String.compare a c = Lt.
Proof.
  induction a as [|x a IH]; intros [|y b] [|z c]; cbn [String.compare];
    try discriminate; try reflexivity.
  destruct (Ascii.compare x y) eqn:Exy; try discriminate;
    destruct (Ascii.compare y z) eqn:Eyz; try discriminate; intros H1 H2.
  - apply Ascii.compare_eq_iff in Exy, Eyz. subst.
    rewrite ascii_compare_refl. apply (IH b c); assumption.
  - apply Ascii.compare_eq_iff in Exy. subst. rewrite Eyz. reflexivity.
  - apply Ascii.compare_eq_iff in Eyz. subst. rewrite Exy. reflexivity.
  - rewrite (ascii_compare_trans x y z Exy Eyz). reflexivity.
Qed.

Lemma compare_gt_lt a b : String.compare a b = Gt <-> String.compare b a = Lt.
Proof.
  rewrite (String.compare_antisym b a).
  destruct (String.compare a b); cbn; split; congruence.
Qed.

Lemma localeCompare_pos a b :
  0 < Str.localeCompare a b <-> String.compare a b = Gt.
Proof.
  unfold Str.localeCompare.
  destruct (String.compare a b); split; (lia || congruence).
Qed.

End OrderFacts.

(** ** The filter/sort view *)

Module ViewFacts.
Import Home.
Import Spec (str2, str4, yearsOf, monthsOf, satisfiesb).

(** The fields printed for the day made of a year, a month and a day. *)
Lemma format_MakeDay y m d p :
  1 <= m <= 12 -> 1 <= d <= Time.DaysInMonth y (m - 1) ->
  DateFns.format 0 (Time.MakeDay y (m - 1) d * 86400000) p
  = let year := if 0 <? y then y else 1 - y in
    match p with
    | DateFns.yyyy_MM_dd =>
        (Str.addLeadingZeros year 4 ++ "-" ++ Str.addLeadingZeros m 2
         ++ "-" ++ Str.addLeadingZeros d 2)%string
    | DateFns.yyyy => Str.addLeadingZeros year 4
    | DateFns.MM => Str.addLeadingZeros m 2
    end.
Proof.
  intros Hm Hd.
  destruct (TimeFacts.fields_of_MakeDay y (m - 1) d) as [Fy [Fm Fd]];
    [lia | exact Hd|].
  unfold DateFns.format.
  replace (DateFns.LocalTime 0 (Time.MakeDay y (m - 1) d * 86400000))
    with (Time.MakeDate (Time.MakeDay y (m - 1) d) 0)
    by (unfold DateFns.LocalTime, Time.MakeDate, Time.msPerDay; lia).
  unfold Time.DateFromTime, Time.MonthFromTime, Time.DayWithinYear,
    Time.YearFromTime.
  rewrite DateFacts.Day_MakeDate by (unfold Time.msPerDay; lia).
  rewrite Fy, Fm, Fd. replace (m - 1 + 1) with m by lia. reflexivity.
Qed.

Lemma parseISO_readDate tz s y m d :
  Str.readDate s = Some (y, m, d) ->
  DateFns.parseISO tz s = Some (Spec.atDay tz (Time.MakeDay y (m - 1) d) 0).
Proof. intros H. unfold DateFns.parseISO. rewrite H. reflexivity. Qed.

(** Reading a log date and printing its year or month gives back the
    characters of the year or month. *)
Lemma format_parseISO tz s :
  Spec.wellFormedDate s = true ->
  DateFns.format_exn tz (DateFns.parseISO tz s) DateFns.yyyy
  = Some (Spec.yearOf s)
  /\ DateFns.format_exn tz (DateFns.parseISO tz s) DateFns.MM
     = Some (Spec.monthOf s).
Proof.
  unfold Spec.wellFormedDate. intros H.
  destruct (Str.readDate s) as [[[y m] d]|] eqn:E; [|discriminate].
  apply Z.leb_le in H.
  rewrite (parseISO_readDate tz s y m d E).
  destruct (StringFacts.readDate_shape s y m d E)
    as (y1 & y2 & y3 & y4 & m1 & m2 & d1 & d2 & -> & Ry & Rm & Rd & Hm & Hd).
  cbn [DateFns.format_exn option_map].
  rewrite !DateFacts.format_atDay by (unfold Time.msPerDay; lia).
  rewrite !format_MakeDay by assumption. cbv zeta.
  destruct (Z.ltb_spec 0 y); [|lia].
  apply StringFacts.read4_print in Ry as [_ ->].
  apply StringFacts.read2_print in Rm as [_ ->].
  split; reflexivity.
Qed.

Lemma collect_fold tz ls :
  Forall (fun l => Spec.wellFormedDate (date l) = true) ls ->
  forall ys ms,
    fold_left (collect tz) ls (Some (ys, ms))
    = Some (yearsOf ls ys, monthsOf ls ms).
Proof.
  intros H. induction H as [|l ls Hl _ IH]; intros ys ms; [reflexivity|].
  cbn [fold_left yearsOf monthsOf]. unfold collect at 2.
  destruct (format_parseISO tz (date l) Hl) as [-> ->]. apply IH.
Qed.

Lemma Set_add_spec x s :
  NoDup s ->
  NoDup (Arr.Set_add x s)
  /\ forall y, In y (Arr.Set_add x s) <-> In y s \/ y = x.
Proof.
  intros N. unfold Arr.Set_add.
  destruct (existsb (String.eqb x) s) eqn:E.
  - split; [exact N|]. intros y. split; [left; assumption|].
    intros [H | ->]; [exact H|].
    apply existsb_exists in E as [z [Hz Ez]].
    apply String.eqb_eq in Ez. subst z. exact Hz.
  - split.
    + apply NoDup_app; [exact N | repeat constructor; intros [] |]. 
      intros a Ha [<- | []].
      assert (C : existsb (String.eqb x) s = true)
        by (apply existsb_exists; exists x; split;
            [exact Ha | apply String.eqb_refl]).
      congruence.
    + intros y. rewrite in_app_iff. cbn [In]. intuition congruence.
Qed.

Lemma fold_Set_add_spec {A} (f : A -> string) ls :
  forall acc, NoDup acc ->
    let r := fold_left (fun a l => Arr.Set_add (f l) a) ls acc in
    NoDup r /\ forall y, In y r <-> In y acc \/ exists l, In l ls /\ f l = y.
Proof.
  induction ls as [|l ls IH]; intros acc N; cbn [fold_left].
  - split; [exact N|]. intros y. split; [left; assumption|].
    intros [H | [l [[] _]]]. exact H.
  - destruct (Set_add_spec (f l) acc N) as [N' M'].
    destruct (IH _ N') as [N'' M'']. split; [exact N''|].
    intros y. rewrite M'', M'. cbn [In]. split.
    + intros [[H | ->] | [l' [H1 H2]]].
      * left; exact H.
      * right. exists l. split; [left; reflexivity | reflexivity].
      * right. exists l'. split; [right; exact H1 | exact H2].
    + intros [H | [l' [[<- | H1] H2]]].
      * left; left; exact H.
      * left; right. symmetry. exact H2.
      * right. exists l'. split; assumption.
Qed.

Lemma truthy_unset s : Str.truthy s = false <-> Spec.unset s.
Proof.
  unfold Str.truthy, Spec.unset. rewrite negb_false_iff. apply String.eqb_eq.
Qed.

Lemma keep_value tz st log :
  Spec.wellFormedDate (date log) = true ->
  keep tz st log = Some (satisfiesb st log).
Proof.
  intros W. destruct (format_parseISO tz (date log) W) as [Fy Fm].
  unfold keep, satisfiesb, Str.lt, Str.gt. rewrite Fy, Fm.
  cbn [option_map].
  destruct (Str.truthy (filterYear st));
    destruct (Str.truthy (filterMonth st));
    destruct (Str.truthy (filterStartDate st));
    destruct (Str.truthy (filterEndDate st));
    destruct (String.eqb (Spec.yearOf (date log)) (filterYear st));
    destruct (String.eqb (Spec.monthOf (date log)) (filterMonth st));
    destruct (String.ltb (date log) (filterStartDate st));
    destruct (String.ltb (filterEndDate st) (date log));
    reflexivity.
Qed.

Lemma equal_or_unset f x :
  negb (Str.truthy f) || String.eqb x f = true <-> Spec.unset f \/ x = f.
Proof.
  rewrite orb_true_iff, negb_true_iff, truthy_unset, String.eqb_eq.
  reflexivity.
Qed.

Lemma from_or_unset f x :
  negb (Str.truthy f && String.ltb x f) = true
  <-> Spec.unset f \/ Spec.le f x.
Proof.
  rewrite negb_true_iff, andb_false_iff, truthy_unset.
  unfold String.ltb, Spec.le. rewrite (String.compare_antisym f x).
  destruct (String.compare x f); cbn [CompOpp];
    split; intros [H | H]; auto; try discriminate;
    try (right; discriminate); exfalso; apply H; reflexivity.
Qed.

Lemma upto_or_unset f x :
  negb (Str.truthy f && String.ltb f x) = true
  <-> Spec.unset f \/ Spec.le x f.
Proof.
  rewrite negb_true_iff, andb_false_iff, truthy_unset.
  unfold String.ltb, Spec.le. rewrite (String.compare_antisym x f).
  destruct (String.compare f x); cbn [CompOpp];
    split; intros [H | H]; auto; try discriminate;
    try (right; discriminate); exfalso; apply H; reflexivity.
Qed.

(** The filter predicate decides the conjunction of the conditions set. *)
Lemma satisfiesb_spec st log :
  satisfiesb st log = true <-> Spec.satisfies st log.
Proof.
  unfold satisfiesb, Spec.satisfies.
  rewrite !andb_true_iff, !equal_or_unset, from_or_unset, upto_or_unset.
  tauto.
Qed.

Lemma filter_exn_total {A} (p : A -> option bool) (q : A -> bool) l :
  Forall (fun x => p x = Some (q x)) l ->
  Arr.filter_exn p l = Some (filter q l).
Proof.
  intros H. induction H as [|x l Hx _ IH]; [reflexivity|].
  cbn [Arr.filter_exn filter]. rewrite Hx, IH. reflexivity.
Qed.

(** The second memo in closed form, on log dates of the data model. *)
Lemma view_computed tz st ls :
  logs st = Some ls ->
  Forall (fun l => Spec.wellFormedDate (date l) = true) ls ->
  filteredSortedAndAvailable tz st
  = Some {| filteredAndSortedLogs :=
              Arr.sort (compareLogs (sortOrder st))
                (filter (satisfiesb st) ls);
            availableYears :=
              Arr.sort (fun a b => Some (Str.localeCompare b a))
                (yearsOf ls []);
            availableMonths :=
              Arr.sort (fun a b => Some (Str.localeCompare a b))
                (monthsOf ls []) |}.
Proof.
  intros Hl W. unfold filteredSortedAndAvailable.
  rewrite Hl, (collect_fold tz ls W).
  rewrite (filter_exn_total (keep tz st) (satisfiesb st)); [reflexivity|].
  apply Forall_forall. intros l Hin. apply keep_value.
  rewrite Forall_forall in W. apply W. exact Hin.
Qed.

Lemma compare_not_lt_trans x y z :
  String.compare x y <> Lt -> String.compare y z <> Lt ->
  String.compare x z <> Lt.
Proof.
  intros Hxy Hyz Hxz. destruct (String.compare x y) eqn:E.
  - apply String.compare_eq_iff in E. subst y. contradiction.
  - contradiction.
  - apply OrderFacts.compare_gt_lt in E. apply Hyz.
    apply (OrderFacts.compare_trans y x z); assumption.
Qed.

Lemma compare_not_gt_trans x y z :
  String.compare x y <> Gt -> String.compare y z <> Gt ->
  String.compare x z <> Gt.
Proof.
  rewrite (String.compare_antisym x y), (String.compare_antisym y z),
    (String.compare_antisym x z).
  intros Hxy Hyz Hxz. apply (compare_not_lt_trans z y x).
  - destruct (String.compare z y); cbn in *; congruence.
  - destruct (String.compare y x); cbn in *; congruence.
  - destruct (String.compare z x); cbn in *; congruence.
Qed.

(** Sorting distinct strings with [b.localeCompare(a)] puts them in
    strictly descending order, with [a.localeCompare(b)] in strictly
    ascending order. *)
Lemma sort_descending l :
  NoDup l ->
  Spec.strictlyDescending
    (Arr.sort (fun a b => Some (Str.localeCompare b a)) l).
Proof.
  intros N. unfold Spec.strictlyDescending.
  apply SortFacts.StronglySorted_weaken
    with (R := fun a b => String.compare a b <> Lt /\ a <> b).
  - intros x y _ _ [H1 H2]. destruct (String.compare x y) eqn:E.
    + apply String.compare_eq_iff in E. contradiction.
    + contradiction.
    + reflexivity.
  - apply SortFacts.StronglySorted_strict.
    + apply (Permutation_NoDup (Permutation_sym (SortFacts.sort_perm _ l))).
      exact N.
    + apply SortFacts.sort_sorted with (P := fun _ => True).
      * intros x y z _ _ _. apply compare_not_lt_trans.
      * intros x y _ _. unfold Arr.SortCompare.
        rewrite OrderFacts.localeCompare_pos. congruence.
      * intros x y _ _. unfold Arr.SortCompare. intros H E.
        apply OrderFacts.compare_gt_lt, OrderFacts.localeCompare_pos in E.
        lia.
      * apply Forall_forall. intros; exact I.
Qed.

Lemma sort_ascending l :
  NoDup l ->
  Spec.strictlyAscending
    (Arr.sort (fun a b => Some (Str.localeCompare a b)) l).
Proof.
  intros N. unfold Spec.strictlyAscending.
  apply SortFacts.StronglySorted_weaken
    with (R := fun a b => String.compare a b <> Gt /\ a <> b).
  - intros x y _ _ [H1 H2]. destruct (String.compare x y) eqn:E.
    + apply String.compare_eq_iff in E. contradiction.
    + reflexivity.
    + contradiction.
  - apply SortFacts.StronglySorted_strict.
    + apply (Permutation_NoDup (Permutation_sym (SortFacts.sort_perm _ l))).
      exact N.
    + apply SortFacts.sort_sorted with (P := fun _ => True).
      * intros x y z _ _ _. apply compare_not_gt_trans.
      * intros x y _ _. unfold Arr.SortCompare.
        rewrite OrderFacts.localeCompare_pos, OrderFacts.compare_gt_lt.
        congruence.
      * intros x y _ _. unfold Arr.SortCompare. intros H E.
        apply OrderFacts.localeCompare_pos in E. lia.
      * apply Forall_forall. intros; exact I.
Qed.

Lemma yearOf_monthOf_length s :
  Spec.wellFormedDate s = true ->
  String.length (Spec.yearOf s) = 4%nat
  /\ String.length (Spec.monthOf s) = 2%nat.
Proof.
  unfold Spec.wellFormedDate. intros H.
  destruct (Str.readDate s) as [[[y m] d]|] eqn:E; [|discriminate].
  destruct (StringFacts.readDate_shape s y m d E)
    as (y1 & y2 & y3 & y4 & m1 & m2 & d1 & d2 & -> & _).
  split; reflexivity.
Qed.

(** On a log date, the year 2024 and the month 03 are the seven characters
    the string starts with. *)
Lemma starts_with_2024_03 s :
  Spec.wellFormedDate s = true ->
  (Spec.yearOf s = "2024"%string /\ Spec.monthOf s = "03"%string)
  <-> String.prefix "2024-03" s = true.
Proof.
  unfold Spec.wellFormedDate. intros H.
  destruct (Str.readDate s) as [[[y m] d]|] eqn:E; [|discriminate].
  destruct (StringFacts.readDate_shape s y m d E)
    as (y1 & y2 & y3 & y4 & m1 & m2 & d1 & d2 & -> & _).
  rewrite String.prefix_correct.
  unfold Spec.yearOf, Spec.monthOf, str4, str2.
  cbn [String.append substring String.length]. split.
  - intros [Hy Hm]. congruence.
  - intros Hp. split; congruence.
Qed.
End ViewFacts.

(** ** The order of dates *)

Module DateOrderFacts.
Import Time TimeFacts.
Import Home.
Import Spec (str2, str4, lex, dayNumber, byDay, dated).

Lemma compare_positional q1 r1 q2 r2 B :
  0 <= r1 < B -> 0 <= r2 < B ->
  (q1 * B + r1 ?= q2 * B + r2) = lex (q1 ?= q2) (r1 ?= r2).
Proof.
  intros H1 H2. destruct (Z.compare_spec q1 q2) as [-> | L | G]; cbn [lex].
  - destruct (Z.compare_spec r1 r2);
      [apply Z.compare_eq_iff | apply Z.compare_lt_iff
       | apply Z.compare_gt_iff]; lia.
  - apply Z.compare_lt_iff. nia.
  - apply Z.compare_gt_iff. nia.
Qed.

Lemma ascii_compare_digits a b :
  Ascii.compare a b = (Str.digit_value a ?= Str.digit_value b).
Proof.
  unfold Ascii.compare, Str.digit_value.
  rewrite <- N2Z.inj_compare.
  destruct (Z.compare_spec (Z.of_N (N_of_ascii a)) (Z.of_N (N_of_ascii b)));
    symmetry;
    [apply Z.compare_eq_iff | apply Z.compare_lt_iff
     | apply Z.compare_gt_iff]; lia.
Qed.

Lemma MakeDay_month y m d :
  0 <= m <= 11 ->
  MakeDay y m d = DayFromYear y + DaysBeforeMonth (leapDays y) m + d - 1.
Proof.
  intros H. unfold MakeDay.
  rewrite (Z.div_small m 12), (Z.mod_small m 12), Z.add_0_r by lia.
  reflexivity.
Qed.

(** Days are numbered in the order of year, then month, then day. *)
Lemma compare_MakeDay y1 m1 d1 y2 m2 d2 :
  0 <= m1 <= 11 -> 1 <= d1 <= DaysInMonth y1 m1 ->
  0 <= m2 <= 11 -> 1 <= d2 <= DaysInMonth y2 m2 ->
  (MakeDay y1 m1 d1 ?= MakeDay y2 m2 d2)
  = lex (y1 ?= y2) (lex (m1 ?= m2) (d1 ?= d2)).
Proof.
  intros Hm1 Hd1 Hm2 Hd2.
  rewrite !MakeDay_month by assumption.
  pose proof (leapDays_range y1) as L1.
  pose proof (leapDays_range y2) as L2.
  assert (C1 : m1 = 0 \/ m1 = 1 \/ m1 = 2 \/ m1 = 3 \/ m1 = 4 \/ m1 = 5
               \/ m1 = 6 \/ m1 = 7 \/ m1 = 8 \/ m1 = 9 \/ m1 = 10
               \/ m1 = 11) by lia.
  assert (C2 : m2 = 0 \/ m2 = 1 \/ m2 = 2 \/ m2 = 3 \/ m2 = 4 \/ m2 = 5
               \/ m2 = 6 \/ m2 = 7 \/ m2 = 8 \/ m2 = 9 \/ m2 = 10
               \/ m2 = 11) by lia.
  unfold DaysInMonth in Hd1, Hd2.
  destruct (Z.compare_spec y1 y2) as [-> | Ly | Gy]; cbn [lex].
  - destruct (Z.compare_spec m1 m2) as [-> | Lm | Gm]; cbn [lex].
    + destruct (Z.compare_spec d1 d2);
        [apply Z.compare_eq_iff | apply Z.compare_lt_iff
         | apply Z.compare_gt_iff]; lia.
    + apply Z.compare_lt_iff.
      repeat destruct C1 as [C1 | C1]; subst m1;
        repeat destruct C2 as [C2 | C2]; subst m2; try lia;
        month_table; lia.
    + apply Z.compare_gt_iff.
      repeat destruct C1 as [C1 | C1]; subst m1;
        repeat destruct C2 as [C2 | C2]; subst m2; try lia;
        month_table; lia.
  - apply Z.compare_lt_iff. apply DayFromYear_lt in Ly. unfold DaysInYear in Ly.
    repeat destruct C1 as [C1 | C1]; subst m1;
      repeat destruct C2 as [C2 | C2]; subst m2; month_table; lia.
  - apply Z.compare_gt_iff. apply DayFromYear_lt in Gy. unfold DaysInYear in Gy.
    repeat destruct C1 as [C1 | C1]; subst m1;
      repeat destruct C2 as [C2 | C2]; subst m2; month_table; lia.
Qed.

Lemma read4_compare a1 a2 a3 a4 b1 b2 b3 b4 x y :
  Str.read4 a1 a2 a3 a4 = Some x -> Str.read4 b1 b2 b3 b4 = Some y ->
  (x ?= y)
  = lex (Ascii.compare a1 b1)
      (lex (Ascii.compare a2 b2)
         (lex (Ascii.compare a3 b3) (Ascii.compare a4 b4))).
Proof.
  unfold Str.read4. intros Hx Hy.
  destruct (Str.is_digit a1) eqn:A1; [|discriminate].
  destruct (Str.is_digit a2) eqn:A2; [|discriminate].
  destruct (Str.is_digit a3) eqn:A3; [|discriminate].
  destruct (Str.is_digit a4) eqn:A4; [|discriminate].
  destruct (Str.is_digit b1) eqn:B1; [|discriminate].
  destruct (Str.is_digit b2) eqn:B2; [|discriminate].
  destruct (Str.is_digit b3) eqn:B3; [|discriminate].
  destruct (Str.is_digit b4) eqn:B4; [|discriminate].
  cbn [andb] in Hx, Hy.
  apply ClockFacts.digit_value_range in A1, A2, A3, A4, B1, B2, B3, B4.
  rewrite !ascii_compare_digits.
  assert (Hx' : 1000 * Str.digit_value a1 + 100 * Str.digit_value a2
                + 10 * Str.digit_value a3 + Str.digit_value a4 = x)
    by congruence.
  assert (Hy' : 1000 * Str.digit_value b1 + 100 * Str.digit_value b2
                + 10 * Str.digit_value b3 + Str.digit_value b4 = y)
    by congruence.
  assert (Ex : x = ((Str.digit_value a1 * 10 + Str.digit_value a2) * 10
                    + Str.digit_value a3) * 10 + Str.digit_value a4)
    by lia.
  assert (Ey : y = ((Str.digit_value b1 * 10 + Str.digit_value b2) * 10
                    + Str.digit_value b3) * 10 + Str.digit_value b4)
    by lia.
  rewrite Ex, Ey, !compare_positional by lia.
  destruct (Str.digit_value a1 ?= Str.digit_value b1);
    destruct (Str.digit_value a2 ?= Str.digit_value b2);
    destruct (Str.digit_value a3 ?= Str.digit_value b3); reflexivity.
Qed.

Lemma read2_compare a1 a2 b1 b2 x y :
  Str.read2 a1 a2 = Some x -> Str.read2 b1 b2 = Some y ->
  (x ?= y) = lex (Ascii.compare a1 b1) (Ascii.compare a2 b2).
Proof.
  unfold Str.read2. intros Hx Hy.
  destruct (Str.is_digit a1) eqn:A1; [|discriminate].
  destruct (Str.is_digit a2) eqn:A2; [|discriminate].
  destruct (Str.is_digit b1) eqn:B1; [|discriminate].
  destruct (Str.is_digit b2) eqn:B2; [|discriminate].
  cbn [andb] in Hx, Hy.
  apply ClockFacts.digit_value_range in A1, A2, B1, B2.
  rewrite !ascii_compare_digits.
  assert (Hx' : 10 * Str.digit_value a1 + Str.digit_value a2 = x)
    by congruence.
  assert (Hy' : 10 * Str.digit_value b1 + Str.digit_value b2 = y)
    by congruence.
  assert (Ex : x = Str.digit_value a1 * 10 + Str.digit_value a2) by lia.
  assert (Ey : y = Str.digit_value b1 * 10 + Str.digit_value b2) by lia.
  rewrite Ex, Ey, compare_positional by lia. reflexivity.
Qed.

(** On date strings the order of the code units is the order of the
    days. *)
Lemma compare_dates s1 s2 :
  Spec.isDate s1 -> Spec.isDate s2 ->
  String.compare s1 s2 = (dayNumber s1 ?= dayNumber s2).
Proof.
  unfold Spec.isDate, dayNumber. intros H1 H2.
  destruct (Str.readDate s1) as [[[y1 m1] d1]|] eqn:E1; [|congruence].
  destruct (Str.readDate s2) as [[[y2 m2] d2]|] eqn:E2; [|congruence].
  destruct (StringFacts.readDate_shape s1 y1 m1 d1 E1)
    as (a1 & a2 & a3 & a4 & a5 & a6 & a7 & a8
        & -> & Ry1 & Rm1 & Rd1 & Hm1 & Hd1).
  destruct (StringFacts.readDate_shape s2 y2 m2 d2 E2)
    as (b1 & b2 & b3 & b4 & b5 & b6 & b7 & b8
        & -> & Ry2 & Rm2 & Rd2 & Hm2 & Hd2).
  rewrite compare_MakeDay by (assumption || lia).
  replace (m1 - 1 ?= m2 - 1) with (m1 ?= m2)
    by (destruct (Z.compare_spec m1 m2); symmetry;
        [apply Z.compare_eq_iff | apply Z.compare_lt_iff
         | apply Z.compare_gt_iff]; lia).
  rewrite (read4_compare _ _ _ _ _ _ _ _ _ _ Ry1 Ry2),
    (read2_compare _ _ _ _ _ _ Rm1 Rm2),
    (read2_compare _ _ _ _ _ _ Rd1 Rd2).
  unfold str4, str2. cbn [String.append String.compare].
  rewrite OrderFacts.ascii_compare_refl.
  destruct (Ascii.compare a1 b1); try reflexivity;
    destruct (Ascii.compare a2 b2); try reflexivity;
    destruct (Ascii.compare a3 b3); try reflexivity;
    destruct (Ascii.compare a4 b4); try reflexivity;
    destruct (Ascii.compare a5 b5); try reflexivity;
    destruct (Ascii.compare a6 b6); try reflexivity;
    destruct (Ascii.compare a7 b7); try reflexivity;
    destruct (Ascii.compare a8 b8); reflexivity.
Qed.

Lemma dayNumber_inj s1 s2 :
  Spec.isDate s1 -> Spec.isDate s2 -> dayNumber s1 = dayNumber s2 -> s1 = s2.
Proof.
  intros H1 H2 E. apply String.compare_eq_iff.
  rewrite (compare_dates s1 s2 H1 H2). apply Z.compare_eq_iff. exact E.
Qed.

Lemma newDate_dayNumber s :
  Spec.isDate s -> DateFns.newDate s = Some (dayNumber s * msPerDay).
Proof.
  unfold Spec.isDate, DateFns.newDate, dayNumber. intros H.
  destruct (Str.readDate s) as [[[y m] d]|]; [|congruence].
  unfold MakeDate. f_equal. lia.
Qed.

Lemma wellFormed_isDate s : Spec.wellFormedDate s = true -> Spec.isDate s.
Proof.
  unfold Spec.wellFormedDate, Spec.isDate.
  destruct (Str.readDate s); [discriminate | discriminate].
Qed.

Lemma NoDup_map_inj {A B} (f : A -> B) l x y :
  NoDup (map f l) -> In x l -> In y l -> f x = f y -> x = y.
Proof.
  induction l as [|a l IH]; cbn [map]; intros N Hx Hy E; [contradiction|].
  inversion N as [|? ? Na Nl]; subst.
  destruct Hx as [-> | Hx]; destruct Hy as [-> | Hy].
  - reflexivity.
  - exfalso. apply Na. rewrite E. apply in_map. exact Hy.
  - exfalso. apply Na. rewrite <- E. apply in_map. exact Hx.
  - apply IH; assumption.
Qed.

(** Sorting dated entries in ascending direction puts them in the order of
    their days, in descending direction in the reverse of that order. *)
Lemma sort_asc_sorted l :
  Forall dated l ->
  StronglySorted (fun a b => byDay a <= byDay b)
    (Arr.sort (compareLogs asc) l).
Proof.
  apply SortFacts.sort_sorted.
  - intros x y z _ _ _. lia.
  - unfold dated, byDay, Arr.SortCompare, compareLogs, getTime.
    intros x y Px Py.
    rewrite (newDate_dayNumber _ Px), (newDate_dayNumber _ Py).
    unfold msPerDay. lia.
  - unfold dated, byDay, Arr.SortCompare, compareLogs, getTime.
    intros x y Px Py.
    rewrite (newDate_dayNumber _ Px), (newDate_dayNumber _ Py).
    unfold msPerDay. lia.
Qed.

Lemma sort_desc_sorted l :
  Forall dated l ->
  StronglySorted (fun a b => byDay b <= byDay a)
    (Arr.sort (compareLogs desc) l).
Proof.
  apply SortFacts.sort_sorted.
  - intros x y z _ _ _. lia.
  - unfold dated, byDay, Arr.SortCompare, compareLogs. intros x y Px Py.
    rewrite OrderFacts.localeCompare_pos, (compare_dates _ _ Py Px).
    rewrite Z.compare_gt_iff. lia.
  - unfold dated, byDay, Arr.SortCompare, compareLogs. intros x y Px Py H.
    destruct (Z.le_gt_cases (dayNumber (date y)) (dayNumber (date x)))
      as [L | G]; [exact L|].
    assert (C : String.compare (date y) (date x) = Gt)
      by (rewrite (compare_dates _ _ Py Px); apply Z.compare_gt_iff;
          exact G).
    apply OrderFacts.localeCompare_pos in C. lia.
Qed.

Lemma strictly_by_day (R : Z -> Z -> Prop) l :
  Forall dated l -> NoDup (map date l) ->
  StronglySorted (fun a b => R (byDay a) (byDay b)) l ->
  StronglySorted (fun a b => R (byDay a) (byDay b) /\ byDay a <> byDay b) l.
Proof.
  intros D N S.
  assert (N' : NoDup l) by (apply NoDup_map_inv with (f := date); exact N).
  apply SortFacts.StronglySorted_weaken
    with (R := fun a b => R (byDay a) (byDay b) /\ a <> b);
    [|apply SortFacts.StronglySorted_strict; assumption].
  intros x y Hx Hy [H1 H2]. split; [exact H1|]. intros E. apply H2.
  rewrite Forall_forall in D.
  apply (NoDup_map_inj date l x y N Hx Hy).
  apply dayNumber_inj; [apply D; exact Hx | apply D; exact Hy | exact E].
Qed.

(** On dated entries of distinct dates the two directions give lists that
    are the reverse of each other. *)
Lemma sort_asc_rev_desc l :
  Forall dated l -> NoDup (map date l) ->
  Arr.sort (compareLogs asc) l = rev (Arr.sort (compareLogs desc) l).
Proof.
  intros D N.
  assert (Pa := SortFacts.sort_perm (compareLogs asc) l).
  assert (Pd := SortFacts.sort_perm (compareLogs desc) l).
  apply SortFacts.sorted_unique with (R := fun a b => byDay a < byDay b).
  - intros x y. lia.
  - apply SortFacts.StronglySorted_weaken
      with (R := fun a b => byDay a <= byDay b /\ byDay a <> byDay b);
      [intros; lia|].
    apply (strictly_by_day Z.le); [ | | apply sort_asc_sorted; exact D].
    + apply (Permutation_Forall (Permutation_sym Pa)). exact D.
    + apply (Permutation_NoDup (Permutation_map date (Permutation_sym Pa))).
      exact N.
  - apply SortFacts.StronglySorted_weaken
      with (R := fun a b => byDay b >= byDay a /\ byDay b <> byDay a);
      [intros; lia|].
    apply (SortFacts.StronglySorted_rev
             (fun a b => byDay a >= byDay b /\ byDay a <> byDay b)).
    apply (strictly_by_day Z.ge).
    + apply (Permutation_Forall (Permutation_sym Pd)). exact D.
    + apply (Permutation_NoDup (Permutation_map date (Permutation_sym Pd))).
      exact N.
    + apply SortFacts.StronglySorted_weaken
        with (R := fun a b => byDay b <= byDay a);
        [intros; lia | apply sort_desc_sorted; exact D].
  - apply perm_trans with l; [exact Pa|].
    apply perm_trans with (Arr.sort (compareLogs desc) l);
      [apply Permutation_sym; exact Pd | apply Permutation_rev].
Qed.

Lemma keep_unset tz st log :
  Spec.unset (filterYear st) -> Spec.unset (filterMonth st) ->
  Spec.unset (filterStartDate st) -> Spec.unset (filterEndDate st) ->
  keep tz st log = Some true.
Proof.
  unfold Spec.unset, keep. intros -> -> -> ->. reflexivity.
Qed.

Lemma filter_exn_all {A} (p : A -> option bool) l :
  (forall x, p x = Some true) -> Arr.filter_exn p l = Some l.
Proof.
  intros H. induction l as [|a l IH]; [reflexivity|].
  cbn [Arr.filter_exn]. rewrite H, IH. reflexivity.
Qed.

Lemma collect_total tz l :
  Forall dated l ->
  forall acc, exists r, fold_left (collect tz) l (Some acc) = Some r.
Proof.
  intros D. induction D as [|x l Dx _ IH]; intros [ys ms]; cbn [fold_left].
  - eexists. reflexivity.
  - unfold collect at 2, DateFns.parseISO. unfold dated, Spec.isDate in Dx.
    destruct (Str.readDate (date x)) as [[[y m] d]|]; [|congruence].
    cbn [DateFns.format_exn option_map]. apply IH.
Qed.

(** The second memo with no filter set: every entry is visible. *)
Lemma view_unfiltered tz st ls :
  logs st = Some ls -> Forall dated ls ->
  Spec.unset (filterYear st) -> Spec.unset (filterMonth st) ->
  Spec.unset (filterStartDate st) -> Spec.unset (filterEndDate st) ->
  exists v,
    filteredSortedAndAvailable tz st = Some v
    /\ filteredAndSortedLogs v = Arr.sort (compareLogs (sortOrder st)) ls.
Proof.
  intros Hl D Fy Fm Fs Fe. unfold filteredSortedAndAvailable. rewrite Hl.
  destruct (collect_total tz ls D ([], [])) as [[ys ms] ->].
  rewrite filter_exn_all by (intros x; apply keep_unset; assumption).
  eexists. split; reflexivity.
Qed.
End DateOrderFacts.

(** ** Entries that share a date *)

Module DuplicateFacts.
Import Home.

Lemma firstOn_skip l1 e l2 d :
  date e <> d ->
  Spec.firstOn (l1 ++ e :: l2) d = Spec.firstOn (l1 ++ l2) d.
Proof.
  intros Hne. unfold Spec.firstOn. induction l1 as [|a l1 IH]; cbn [app find].
  - apply String.eqb_neq in Hne. rewrite Hne. reflexivity.
  - destruct (String.eqb (date a) d); [reflexivity | exact IH].
Qed.

(** An entry that follows another of the same date is never the first of
    its date. *)
Lemma firstOn_drop_later l1 e l2 d :
  (exists e0, In e0 l1 /\ date e0 = date e) ->
  Spec.firstOn (l1 ++ e :: l2) d = Spec.firstOn (l1 ++ l2) d.
Proof.
  intros [e0 [Hin He]].
  destruct (string_dec (date e) d) as [Heq | Hne];
    [|apply firstOn_skip; exact Hne].
  unfold Spec.firstOn. induction l1 as [|a l1 IH]; [contradiction|].
  cbn [app find]. destruct (String.eqb (date a) d) eqn:Ea; [reflexivity|].
  destruct Hin as [-> | Hin]; [|exact (IH Hin)].
  apply String.eqb_neq in Ea. congruence.
Qed.

Lemma firstEntryHours_drop_later tz l1 e l2 n :
  (exists e0, In e0 l1 /\ date e0 = date e) ->
  Spec.firstEntryHours tz (l1 ++ e :: l2) n
  = Spec.firstEntryHours tz (l1 ++ l2) n.
Proof.
  intros H. unfold Spec.firstEntryHours. f_equal. apply map_ext.
  intros d. rewrite (firstOn_drop_later _ _ _ _ H). reflexivity.
Qed.

End DuplicateFacts.

(** ** The weekdays of a week *)

Module WeekFacts.
Import Home Time TimeFacts.
Import Spec (digit_char, str2, str4).

Lemma digit_char_digit k :
  0 <= k <= 9 ->
  Str.is_digit (digit_char k) = true /\ Str.digit_value (digit_char k) = k.
Proof.
  intros H.
  assert (C : k = 0 \/ k = 1 \/ k = 2 \/ k = 3 \/ k = 4 \/ k = 5 \/ k = 6
              \/ k = 7 \/ k = 8 \/ k = 9) by lia.
  repeat destruct C as [C | C]; subst k; split; reflexivity.
Qed.

Lemma read4_pad n a b c d :
  0 <= n < 10000 -> Str.addLeadingZeros n 4 = str4 a b c d ->
  Str.read4 a b c d = Some n.
Proof.
  intros H E. rewrite StringFacts.pad4_digits in E by exact H.
  unfold str4, str2 in E.
  assert (Ea : digit_char (n / 1000) = a) by congruence.
  assert (Eb : digit_char ((n / 100) mod 10) = b) by congruence.
  assert (Ec : digit_char ((n / 10) mod 10) = c) by congruence.
  assert (Ed : digit_char (n mod 10) = d) by congruence.
  destruct (digit_char_digit (n / 1000)) as [A1 A2];
    [Z.to_euclidean_division_equations; lia|].
  destruct (digit_char_digit ((n / 100) mod 10)) as [B1 B2];
    [Z.to_euclidean_division_equations; lia|].
  destruct (digit_char_digit ((n / 10) mod 10)) as [C1 C2];
    [Z.to_euclidean_division_equations; lia|].
  destruct (digit_char_digit (n mod 10)) as [D1 D2];
    [Z.to_euclidean_division_equations; lia|].
  subst a b c d. unfold Str.read4. rewrite A1, B1, C1, D1, A2, B2, C2, D2.
  cbn [andb]. f_equal. Z.to_euclidean_division_equations; lia.
Qed.

Lemma read2_pad n a b :
  0 <= n < 100 -> Str.addLeadingZeros n 2 = str2 a b ->
  Str.read2 a b = Some n.
Proof.
  intros H E. rewrite StringFacts.pad2_digits in E by exact H.
  unfold str2 in E.
  assert (Ea : digit_char (n / 10) = a) by congruence.
  assert (Eb : digit_char (n mod 10) = b) by congruence.
  destruct (digit_char_digit (n / 10)) as [A1 A2];
    [Z.to_euclidean_division_equations; lia|].
  destruct (digit_char_digit (n mod 10)) as [B1 B2];
    [Z.to_euclidean_division_equations; lia|].
  subst a b. unfold Str.read2. rewrite A1, B1, A2, B2.
  cbn [andb]. f_equal. Z.to_euclidean_division_equations; lia.
Qed.

(** The name of a day of the years 0001 to 9999 reads back as that day. *)
Lemma dayNumber_dayString n :
  1 <= YearFromDay n <= 9999 -> Spec.dayNumber (Spec.dayString n) = n.
Proof.
  intros Hy.
  pose proof (MonthFromTime_range (MakeDate n 0)) as Hm.
  pose proof (DayWithinYear_range (MakeDate n 0)) as Hw.
  pose proof (MakeDay_of_time (MakeDate n 0) 0) as Hn.
  destruct (MonthFromDayInYear_spec
              (leapDays (YearFromTime (MakeDate n 0)))
              (DayWithinYear (MakeDate n 0))
              (leapDays_range _) Hw) as [_ Hd].
  fold (MonthFromTime (MakeDate n 0)) in Hd.
  unfold Spec.dayNumber, Spec.dayString, DateFns.format.
  replace (DateFns.LocalTime 0 (n * 86400000)) with (MakeDate n 0)
    by (unfold DateFns.LocalTime, MakeDate, msPerDay; lia).
  set (Y := YearFromTime (MakeDate n 0)) in *.
  set (M := MonthFromTime (MakeDate n 0)) in *.
  set (D := DateFromTime (MakeDate n 0)) in *.
  assert (EY : Y = YearFromDay n)
    by (unfold Y, YearFromTime; rewrite DateFacts.Day_MakeDate;
        [reflexivity | unfold msPerDay; lia]).
  assert (HD : 1 <= D <= DaysInMonth Y M)
    by (unfold D, DateFromTime, DaysInMonth; fold Y; fold M; lia).
  assert (HD' : D <= 31).
  { unfold DaysInMonth in HD. pose proof (leapDays_range Y).
    assert (C : M = 0 \/ M = 1 \/ M = 2 \/ M = 3 \/ M = 4 \/ M = 5 \/ M = 6
                \/ M = 7 \/ M = 8 \/ M = 9 \/ M = 10 \/ M = 11) by lia.
    clearbody M. clear Hn Hd.
    repeat destruct C as [C | C]; subst M; month_table; lia. }
  destruct (Z.ltb_spec 0 Y); [|lia].
  rewrite DateFacts.Day_MakeDate in Hn by (unfold msPerDay; lia).
  rewrite Z.add_0_r in Hn. fold Y in Hn. fold M in Hn. fold D in Hn.
  clearbody Y M D.
  rewrite (StringFacts.pad4_digits Y), (StringFacts.pad2_digits (M + 1)),
    (StringFacts.pad2_digits D) by lia.
  unfold Str.readDate, str4, str2.
  cbn [String.append list_ascii_of_string].
  rewrite (read4_pad Y) by (lia || apply StringFacts.pad4_digits; lia).
  rewrite (read2_pad (M + 1)) by (lia || apply StringFacts.pad2_digits; lia).
  rewrite (read2_pad D) by (lia || apply StringFacts.pad2_digits; lia).
  change (Str.is_hyphen "-") with true. cbn [andb].
  replace (M + 1 - 1) with M by lia.
  destruct (Z.leb_spec 1 (M + 1)); [|lia].
  destruct (Z.leb_spec (M + 1) 12); [|lia].
  destruct (Z.leb_spec 1 D); [|lia].
  destruct (Z.leb_spec D (DaysInMonth Y M)); [|lia].
  cbn [andb]. replace (M + 1 - 1) with M by lia. lia.
Qed.

Lemma YearFromDay_mono d1 d2 : d1 <= d2 -> YearFromDay d1 <= YearFromDay d2.
Proof.
  intros H. pose proof (YearFromDay_spec d1) as S1.
  pose proof (YearFromDay_spec d2) as S2.
  destruct (Z.le_gt_cases (YearFromDay d1) (YearFromDay d2)) as [L | G];
    [exact L|].
  assert (M : DayFromYear (YearFromDay d2 + 1) <= DayFromYear (YearFromDay d1))
    by (apply DayFromYear_mono; lia).
  lia.
Qed.

Lemma NoDup_map_on {A B} (f : A -> B) l :
  (forall x y, In x l -> In y l -> f x = f y -> x = y) ->
  NoDup l -> NoDup (map f l).
Proof.
  intros Inj N. induction N as [|a l Na N IH]; cbn [map]; constructor.
  - intros H. apply in_map_iff in H as [b [E Hb]]. apply Na.
    rewrite <- (Inj b a); [exact Hb | right; exact Hb | left; reflexivity
                           | exact E].
  - apply IH. intros x y Hx Hy. apply Inj; right; assumption.
Qed.

(** The five weekdays of a week of the years 0001 to 9999 have five
    different names. *)
Lemma weekdayStrings_NoDup n :
  1 <= YearFromDay (Spec.mondayOf n) ->
  YearFromDay (Spec.mondayOf n + 4) <= 9999 ->
  NoDup (Spec.weekdayStrings n).
Proof.
  intros Lo Hi. unfold Spec.weekdayStrings. apply NoDup_map_on.
  - intros i j Hi' Hj' E.
    assert (Ri : 0 <= i <= 4) by (cbn in Hi'; lia).
    assert (Rj : 0 <= j <= 4) by (cbn in Hj'; lia).
    apply (f_equal Spec.dayNumber) in E.
    rewrite !dayNumber_dayString in E; [lia | |].
    + pose proof (YearFromDay_mono (Spec.mondayOf n) (Spec.mondayOf n + j)).
      pose proof (YearFromDay_mono (Spec.mondayOf n + j) (Spec.mondayOf n + 4)).
      lia.
    + pose proof (YearFromDay_mono (Spec.mondayOf n) (Spec.mondayOf n + i)).
      pose proof (YearFromDay_mono (Spec.mondayOf n + i) (Spec.mondayOf n + 4)).
      lia.
  - repeat constructor; cbn; lia.
Qed.

Lemma sum_zero {A} (l : list A) :
  Spec.sum (map (fun _ => Num.zero) l) = Num.zero.
Proof.
  induction l as [|a l IH]; [reflexivity|].
  cbn [map Spec.sum fold_right].
  fold (Spec.sum (map (fun _ : A => Num.zero) l)).
  rewrite IH. reflexivity.
Qed.

(** Putting [c] in place of a term that is zero, at the one place [x] of the
    sum, adds [c]. *)
Lemma sum_replace (g : string -> Num.number) x c ds :
  NoDup ds -> g x = Num.zero ->
  Spec.sum (map (fun d => if String.eqb x d then c else g d) ds)
  = if existsb (String.eqb x) ds
    then Num.add c (Spec.sum (map g ds))
    else Spec.sum (map g ds).
Proof.
  intros N Z0. induction N as [|d ds Nd N IH]; [reflexivity|].
  cbn [map existsb]. unfold Spec.sum in *. cbn [fold_right]. rewrite IH.
  destruct (String.eqb_spec x d) as [<- | Ne]; cbn [orb].
  - replace (existsb (String.eqb x) ds) with false.
    + rewrite Z0, NumFacts.add_zero_l. reflexivity.
    + symmetry. apply not_true_is_false. intros E.
      apply existsb_exists in E as [y [Hy Ey]].
      apply String.eqb_eq in Ey. subst y. contradiction.
  - destruct (existsb (String.eqb x) ds); [|reflexivity].
    rewrite !NumFacts.add_assoc, (NumFacts.add_comm (g d) c). reflexivity.
Qed.

Lemma firstOn_absent ls d :
  ~ In d (map date ls) -> Spec.firstOn ls d = None.
Proof.
  unfold Spec.firstOn. induction ls as [|l ls IH]; intros H; [reflexivity|].
  cbn [find map In] in *.
  destruct (String.eqb_spec (date l) d) as [E | _];
    [exfalso; apply H; left; exact E | apply IH].
  intros Hd. apply H. right. exact Hd.
Qed.

(** With one entry a date at most, the first entries of the days are all
    the entries of the days. *)
Lemma sum_first_is_sum_all tz ls ds :
  NoDup ds -> NoDup (map date ls) ->
  Spec.sum (map (fun d => Spec.hoursOf tz (Spec.firstOn ls d)) ds)
  = Spec.sum (map (calculateHoursForLog tz) (Spec.entriesOn ls ds)).
Proof.
  intros Nd. induction ls as [|e ls IH]; intros Nl.
  - cbn [Spec.firstOn find Spec.hoursOf Spec.entriesOn filter map].
    apply sum_zero.
  - cbn [map] in Nl. inversion Nl as [|? ? Ne Nl']; subst.
    unfold Spec.entriesOn. cbn [filter]. fold (Spec.entriesOn ls ds).
    rewrite (map_ext
               (fun d => Spec.hoursOf tz (Spec.firstOn (e :: ls) d))
               (fun d => if String.eqb (date e) d
                         then calculateHoursForLog tz e
                         else Spec.hoursOf tz (Spec.firstOn ls d))).
    + rewrite sum_replace;
        [|exact Nd | rewrite (firstOn_absent ls _ Ne); reflexivity].
      rewrite (IH Nl').
      destruct (existsb (String.eqb (date e)) ds); reflexivity.
    + intros d. unfold Spec.firstOn. cbn [find].
      destruct (String.eqb (date e) d); reflexivity.
Qed.

(** With one entry a date at most, in a week of the years 0001 to 9999, the
    weekly total is the rounded sum over all the entries dated Monday to
    Friday of the week, plus the carry. *)
Lemma weekly_total_distinct_dates tz today st ls :
  logs st = Some ls -> ls <> [] -> manualWeeklyHours st = None ->
  NoDup (map date ls) ->
  1 <= YearFromDay (Spec.mondayOf (Spec.localDay tz today)) ->
  YearFromDay (Spec.mondayOf (Spec.localDay tz today) + 4) <= 9999 ->
  exists t st',
    dailyAndWeeklyHours tz today st = Some (t, st')
    /\ weeklyHours t
       = Num.parseFloat_toFixed2
           (Num.add (Spec.allEntryHours tz ls (Spec.localDay tz today))
              (savedHolidayHours st)).
Proof.
  intros Hl Hne Hm N Lo Hi.
  rewrite (AggregatorFacts.run_computed tz today st ls Hl Hm).
  eexists. eexists. split; [reflexivity|]. cbn [weeklyHours].
  destruct ls as [|e ls']; [contradiction|].
  cbn [List.length Nat.ltb Nat.leb].
  unfold Spec.firstEntryHours, Spec.allEntryHours.
  rewrite (sum_first_is_sum_all tz (e :: ls') _
             (weekdayStrings_NoDup _ Lo Hi) N).
  reflexivity.
Qed.

End WeekFacts.

(** * Properties of the three components *)

Import Home.

(** C1, as stated, fails: of two entries of eight hours each dated the
    Monday of the week, with no carry, the aggregator counts one, so the
    weekly total is 8 where the sum over the entries of the week is 16. *)
Lemma weekly_total_counterexample :
  let ls := [Examples.fullDay "2024-01-01"; Examples.fullDay "2024-01-01"] in
  let st := Examples.state ls Num.zero None in
  exists t st',
    dailyAndWeeklyHours 0 Examples.newYear2024 st = Some (t, st')
    /\ weeklyHours t = Num.ofZ 8
    /\ Num.parseFloat_toFixed2
         (Num.add
            (Spec.allEntryHours 0 ls (Spec.localDay 0 Examples.newYear2024))
            (savedHolidayHours st))
       = Num.ofZ 16
    /\ weeklyHours t
       <> Num.parseFloat_toFixed2
            (Num.add
               (Spec.allEntryHours 0 ls (Spec.localDay 0 Examples.newYear2024))
               (savedHolidayHours st)).
Proof.
  cbv zeta.
  rewrite (AggregatorFacts.run_computed 0 Examples.newYear2024
             (Examples.state
                [Examples.fullDay "2024-01-01"; Examples.fullDay "2024-01-01"]
                Num.zero None)
             [Examples.fullDay "2024-01-01"; Examples.fullDay "2024-01-01"]
             eq_refl eq_refl).
  eexists. eexists. split; [reflexivity|].
  cbn [weeklyHours].
  assert (A : forall a b : Num.number,
             option_map this a = option_map this b -> a = b).
  { intros [x|] [y|] H; try discriminate; [|reflexivity].
    f_equal. apply Qc_is_canon. cbn in H. injection H as ->. reflexivity. }
  split; [apply A; vm_compute; reflexivity|].
  split; [apply A; vm_compute; reflexivity|].
  intros H. apply (f_equal (option_map this)) in H. vm_compute in H.
  discriminate H.
Qed.

(** C1, amended.  With a non-empty collection and no override, the weekly
    total is, rounded to two decimals, the carry plus the sum, over Monday to
    Friday of the week (from Monday) of today, of the hours of the first
    entry in collection order with that date; a day without an entry adds
    nothing. *)
Theorem weekly_total_of_first_entries (tz today : Z) (st : State)
  (ls : list LogEntry) :
  logs st = Some ls -> ls <> [] -> manualWeeklyHours st = None ->
  let total :=
    Num.add (Spec.firstEntryHours tz ls (Spec.localDay tz today))
      (savedHolidayHours st) in
  exists t st',
    dailyAndWeeklyHours tz today st = Some (t, st')
    /\ weeklyHours t = Num.parseFloat_toFixed2 total
    /\ (forall x, total = Some x ->
        exists r, weeklyHours t = Some r /\ Spec.roundedTo2 x r).
Proof.
  intros Hl Hne Hm total.
  rewrite (AggregatorFacts.run_computed tz today st ls Hl Hm).
  eexists. eexists. split; [reflexivity|]. cbn [weeklyHours].
  destruct ls as [|e ls']; [contradiction|]. cbn [List.length Nat.ltb Nat.leb].
  fold total. split; [reflexivity|].
  intros x Hx. rewrite Hx. exists (Num.round2 x).
  split; [reflexivity | apply NumFacts.round2_rounded].
Qed.

Lemma weekly_total_of_first_entries_witness :
  let ls := [Examples.officeDay; Examples.fullDay "2024-01-03"] in
  let st := Examples.state ls (Num.ofZ 2) None in
  exists t st',
    dailyAndWeeklyHours 0 Examples.newYear2024 st = Some (t, st')
    /\ weeklyHours t
       = Num.parseFloat_toFixed2
           (Num.add
              (Spec.firstEntryHours 0 ls (Spec.localDay 0 Examples.newYear2024))
              (savedHolidayHours st)).
Proof.
  cbv zeta.
  destruct (weekly_total_of_first_entries 0 Examples.newYear2024
              (Examples.state
                 [Examples.officeDay; Examples.fullDay "2024-01-03"]
                 (Num.ofZ 2) None)
              [Examples.officeDay; Examples.fullDay "2024-01-03"])
    as [t [st' [H1 [H2 _]]]];
    [reflexivity | discriminate | reflexivity |].
  exists t, st'. split; [exact H1 | exact H2].
Defined.



(** C3.  With an override set, the weekly total is the override itself,
    whatever the collection and the carry. *)
Theorem override_is_weekly_total (tz today : Z) (st : State)
  (ls : list LogEntry) (m : Num.number) :
  logs st = Some ls -> manualWeeklyHours st = Some m ->
  exists t st',
    dailyAndWeeklyHours tz today st = Some (t, st') /\ weeklyHours t = m.
Proof.
  intros Hl Hm. rewrite (AggregatorFacts.run_override tz today st ls m Hl Hm).
  eexists. eexists. split; reflexivity.
Qed.

Lemma override_is_weekly_total_witness :
  exists t st',
    dailyAndWeeklyHours 0 Examples.newYear2024
      (Examples.state [Examples.officeDay] (Num.ofZ 2) (Some (Num.ofZ 40)))
    = Some (t, st')
    /\ weeklyHours t = Num.ofZ 40.
Proof.
  apply (override_is_weekly_total 0 Examples.newYear2024
           (Examples.state [Examples.officeDay] (Num.ofZ 2)
              (Some (Num.ofZ 40)))
           [Examples.officeDay] (Num.ofZ 40)); reflexivity.
Defined.

(** C4, as stated, fails: with an empty collection and an override of 40 the
    weekly total is 40, not 0, and a carry of 5 stays 5. *)
Lemma empty_collection_counterexample :
  exists t st',
    dailyAndWeeklyHours 0 Examples.newYear2024
      (Examples.state [] (Num.ofZ 5) (Some (Num.ofZ 40)))
    = Some (t, st')
    /\ weeklyHours t = Num.ofZ 40
    /\ weeklyHours t <> Num.zero
    /\ savedHolidayHours st' = Num.ofZ 5
    /\ savedHolidayHours st' <> Num.zero.
Proof.
  eexists. eexists. split; [reflexivity|]. cbn.
  repeat split; try reflexivity;
    intros H; apply (f_equal (option_map this)) in H; discriminate H.
Qed.

(** C4, amended.  With an empty collection and no override, the weekly total
    is 0 whatever the carry, and a carry that is a non-negative number is 0
    in the state that results. *)
Theorem empty_collection_resets (tz today : Z) (st : State) :
  logs st = Some [] -> manualWeeklyHours st = None ->
  exists t st',
    dailyAndWeeklyHours tz today st = Some (t, st')
    /\ weeklyHours t = Num.zero
    /\ (Spec.nonNegative (savedHolidayHours st) ->
        savedHolidayHours st' = Num.zero).
Proof.
  intros Hl Hm. rewrite (AggregatorFacts.run_computed tz today st [] Hl Hm).
  eexists. eexists. split; [reflexivity|]. cbn [weeklyHours List.length].
  split; [apply NumFacts.round2_0|].
  intros [q [Hq Hpos]]. cbn [Nat.eqb andb]. rewrite Hq.
  unfold Num.gtb, Num.zero, Num.ofZ.
  change (Q2Qc (inject_Z 0)) with 0%Qc.
  destruct (0 ?= q)%Qc eqn:C.
  - apply Qceq_alt in C. rewrite Hq. subst q. reflexivity. 
  - reflexivity.
  - apply Qcgt_alt in C. exfalso. apply (Qcle_not_lt _ _ Hpos C).
Qed.

Lemma empty_collection_resets_witness :
  exists t st',
    dailyAndWeeklyHours 0 Examples.newYear2024
      (Examples.state [] (Num.ofZ 5) None)
    = Some (t, st')
    /\ weeklyHours t = Num.zero
    /\ savedHolidayHours st' = Num.zero.
Proof.
  destruct (empty_collection_resets 0 Examples.newYear2024
              (Examples.state [] (Num.ofZ 5) None))
    as [t [st' [H1 [H2 H3]]]]; [reflexivity | reflexivity |].
  exists t, st'. split; [exact H1|]. split; [exact H2|].
  apply H3. exists (Q2Qc (inject_Z 5)). split; [reflexivity | discriminate].
Defined.

(** C5.  With an override set, running the aggregator leaves the state, and
    with it the holiday carry, as it was, also when the collection is empty
    or not yet loaded. *)
Theorem override_keeps_carry (tz today : Z) (st : State) (m : Num.number) :
  manualWeeklyHours st = Some m ->
  exists t,
    dailyAndWeeklyHours tz today st = Some (t, st).
Proof.
  intros Hm. unfold dailyAndWeeklyHours. rewrite Hm.
  destruct (logs st); eexists; reflexivity.
Qed.

Lemma override_keeps_carry_witness :
  exists t,
    dailyAndWeeklyHours 0 Examples.newYear2024
      (Examples.state [] (Num.ofZ 5) (Some (Num.ofZ 40)))
    = Some (t, Examples.state [] (Num.ofZ 5) (Some (Num.ofZ 40))).
Proof.
  apply (override_keeps_carry 0 Examples.newYear2024
           (Examples.state [] (Num.ofZ 5) (Some (Num.ofZ 40))) (Num.ofZ 40)).
  reflexivity.
Defined.

(** C6.  On a collection of log dates of the data model, an entry is in the
    visible list exactly when it is in the collection and meets every filter
    condition that is set: the year of its date is the year filter, the
    month of its date is the month filter, its date is not before the start
    date and not after the end date, in the order of the strings.  With the
    year 2024 and the month 03 the visible entries are those whose date
    starts with 2024-03. *)
Theorem visible_entries_meet_filters (tz : Z) (st : State)
  (ls : list LogEntry) :
  logs st = Some ls ->
  Forall (fun l => Spec.wellFormedDate (date l) = true) ls ->
  exists v,
    filteredSortedAndAvailable tz st = Some v
    /\ (forall e, In e (filteredAndSortedLogs v)
                  <-> In e ls /\ Spec.satisfies st e)
    /\ (filterYear st = "2024"%string -> filterMonth st = "03"%string ->
        Spec.unset (filterStartDate st) -> Spec.unset (filterEndDate st) ->
        forall e, In e (filteredAndSortedLogs v)
                  <-> In e ls /\ String.prefix "2024-03" (date e) = true).
Proof.
  intros Hl W. rewrite (ViewFacts.view_computed tz st ls Hl W).
  eexists. split; [reflexivity|]. cbn [filteredAndSortedLogs].
  assert (M : forall e,
             In e (Arr.sort (compareLogs (sortOrder st))
                     (filter (Spec.satisfiesb st) ls))
             <-> In e ls /\ Spec.satisfies st e).
  { intros e. rewrite <- ViewFacts.satisfiesb_spec, <- filter_In.
    split; apply Permutation_in;
      [|apply Permutation_sym]; apply SortFacts.sort_perm. }
  split; [exact M|].
  intros Fy Fm Fs Fe e. rewrite M. rewrite Forall_forall in W.
  split; intros [Hin H]; (split; [exact Hin|]);
    pose proof (ViewFacts.starts_with_2024_03 _ (W e Hin)) as S.
  - apply S. unfold Spec.satisfies in H. rewrite Fy, Fm in H.
    destruct H as [[U | Hy] [[U' | Hm] _]]; try discriminate.
    split; assumption.
  - apply S in H as [Hy Hm]. unfold Spec.satisfies. rewrite Fy, Fm.
    repeat split; [right; exact Hy | right; exact Hm | left; exact Fs
                   | left; exact Fe].
Qed.

Lemma visible_entries_meet_filters_witness :
  let ls := [Examples.fullDay "2024-03-05"; Examples.fullDay "2024-04-01"] in
  let st :=
    Spec.withFilters "2024" "03" "" "" (Examples.state ls Num.zero None) in
  exists v,
    filteredSortedAndAvailable 0 st = Some v
    /\ (forall e, In e (filteredAndSortedLogs v)
                  <-> In e ls /\ String.prefix "2024-03" (date e) = true).
Proof.
  cbv zeta.
  destruct (visible_entries_meet_filters 0
              (Spec.withFilters "2024" "03" "" ""
                 (Examples.state
                    [Examples.fullDay "2024-03-05";
                     Examples.fullDay "2024-04-01"] Num.zero None))
              [Examples.fullDay "2024-03-05"; Examples.fullDay "2024-04-01"])
    as [v [H1 [_ H2]]].
  - reflexivity.
  - repeat constructor.
  - exists v. split; [exact H1|]. apply H2; reflexivity.
Defined.

(** C7.  On a collection whose dates are valid yyyy-MM-dd dates, no two
    alike, and with no filter set, the visible list in ascending direction,
    which compares time values, and the visible list in descending
    direction, which compares the date strings, hold the same entries, the
    one in the reverse order of the other. *)
Theorem ascending_is_descending_reversed (tz : Z) (st : State)
  (ls : list LogEntry) :
  logs st = Some ls ->
  Forall (fun l => Spec.isDate (date l)) ls ->
  NoDup (map date ls) ->
  Spec.unset (filterYear st) -> Spec.unset (filterMonth st) ->
  Spec.unset (filterStartDate st) -> Spec.unset (filterEndDate st) ->
  exists va vd,
    filteredSortedAndAvailable tz (Spec.withSort asc st) = Some va
    /\ filteredSortedAndAvailable tz (Spec.withSort desc st) = Some vd
    /\ filteredAndSortedLogs va = rev (filteredAndSortedLogs vd)
    /\ Permutation (filteredAndSortedLogs va) (filteredAndSortedLogs vd)
    /\ Permutation (filteredAndSortedLogs va) ls.
Proof.
  intros Hl D N Fy Fm Fs Fe.
  destruct (DateOrderFacts.view_unfiltered tz (Spec.withSort asc st) ls
              Hl D Fy Fm Fs Fe) as [va [Ha Va]].
  destruct (DateOrderFacts.view_unfiltered tz (Spec.withSort desc st) ls
              Hl D Fy Fm Fs Fe) as [vd [Hd Vd]].
  exists va, vd. split; [exact Ha|]. split; [exact Hd|].
  rewrite Va, Vd. cbn [Spec.withSort sortOrder].
  rewrite (DateOrderFacts.sort_asc_rev_desc ls D N).
  split; [reflexivity|]. split.
  - apply Permutation_sym, Permutation_rev.
  - apply perm_trans with (Arr.sort (compareLogs desc) ls);
      [apply Permutation_sym, Permutation_rev | apply SortFacts.sort_perm].
Qed.

Lemma ascending_is_descending_reversed_witness :
  let ls := [Examples.fullDay "2024-03-05"; Examples.fullDay "2024-01-09"] in
  let st := Examples.state ls Num.zero None in
  exists va vd,
    filteredSortedAndAvailable 0 (Spec.withSort asc st) = Some va
    /\ filteredSortedAndAvailable 0 (Spec.withSort desc st) = Some vd
    /\ filteredAndSortedLogs va = rev (filteredAndSortedLogs vd).
Proof.
  cbv zeta.
  destruct (ascending_is_descending_reversed 0
              (Examples.state
                 [Examples.fullDay "2024-03-05"; Examples.fullDay "2024-01-09"]
                 Num.zero None)
              [Examples.fullDay "2024-03-05"; Examples.fullDay "2024-01-09"])
    as [va [vd [H1 [H2 [H3 _]]]]].
  - reflexivity.
  - repeat constructor; unfold Spec.isDate; vm_compute; discriminate.
  - repeat constructor; cbn; intuition discriminate.
  - reflexivity.
  - reflexivity.
  - reflexivity.
  - reflexivity.
  - exists va, vd. split; [exact H1|]. split; [exact H2 | exact H3].
Defined.

(** C8.  On a collection of log dates of the data model, the years listed
    are the four-digit years of the dates of all the entries, without
    repetition and in descending order, and the months listed are their
    two-digit months, without repetition and in ascending order; a state
    with the same collection, whatever its filters and its sort direction,
    lists the same years and months. *)
Theorem available_years_and_months (tz : Z) (st : State)
  (ls : list LogEntry) :
  logs st = Some ls ->
  Forall (fun l => Spec.wellFormedDate (date l) = true) ls ->
  exists v,
    filteredSortedAndAvailable tz st = Some v
    /\ NoDup (availableYears v)
    /\ Spec.strictlyDescending (availableYears v)
    /\ (forall y, In y (availableYears v)
                  <-> exists e, In e ls /\ Spec.yearOf (date e) = y)
    /\ Forall (fun y => String.length y = 4%nat) (availableYears v)
    /\ NoDup (availableMonths v)
    /\ Spec.strictlyAscending (availableMonths v)
    /\ (forall m, In m (availableMonths v)
                  <-> exists e, In e ls /\ Spec.monthOf (date e) = m)
    /\ Forall (fun m => String.length m = 2%nat) (availableMonths v)
    /\ (forall st', logs st' = Some ls ->
        exists v',
          filteredSortedAndAvailable tz st' = Some v'
          /\ availableYears v' = availableYears v
          /\ availableMonths v' = availableMonths v).
Proof.
  intros Hl W. rewrite (ViewFacts.view_computed tz st ls Hl W).
  eexists. split; [reflexivity|].
  cbn [availableYears availableMonths].
  destruct (ViewFacts.fold_Set_add_spec (fun l => Spec.yearOf (date l)) ls []
              (NoDup_nil _)) as [Ny My].
  destruct (ViewFacts.fold_Set_add_spec (fun l => Spec.monthOf (date l)) ls []
              (NoDup_nil _)) as [Nm Mm].
  fold (Spec.yearsOf ls []) in Ny, My.
  fold (Spec.monthsOf ls []) in Nm, Mm.
  assert (Py := SortFacts.sort_perm
                  (fun a b => Some (Str.localeCompare b a))
                  (Spec.yearsOf ls [])).
  assert (Pm := SortFacts.sort_perm
                  (fun a b => Some (Str.localeCompare a b))
                  (Spec.monthsOf ls [])).
  assert (Iy : forall y,
             In y (Arr.sort (fun a b => Some (Str.localeCompare b a))
                     (Spec.yearsOf ls []))
             <-> exists e, In e ls /\ Spec.yearOf (date e) = y).
  { intros y. split.
    - intros H. apply (Permutation_in _ Py) in H. apply My in H.
      destruct H as [[] | H]. exact H.
    - intros H. apply (Permutation_in _ (Permutation_sym Py)).
      apply My. right. exact H. }
  assert (Im : forall m,
             In m (Arr.sort (fun a b => Some (Str.localeCompare a b))
                     (Spec.monthsOf ls []))
             <-> exists e, In e ls /\ Spec.monthOf (date e) = m).
  { intros m. split.
    - intros H. apply (Permutation_in _ Pm) in H. apply Mm in H.
      destruct H as [[] | H]. exact H.
    - intros H. apply (Permutation_in _ (Permutation_sym Pm)).
      apply Mm. right. exact H. }
  rewrite Forall_forall in W.
  repeat split.
  - apply (Permutation_NoDup (Permutation_sym Py)). exact Ny.
  - apply ViewFacts.sort_descending. exact Ny.
  - apply Iy.
  - apply Iy.
  - apply Forall_forall. intros y Hy. apply Iy in Hy as [e [He <-]].
    apply ViewFacts.yearOf_monthOf_length. apply W. exact He.
  - apply (Permutation_NoDup (Permutation_sym Pm)). exact Nm.
  - apply ViewFacts.sort_ascending. exact Nm.
  - apply Im.
  - apply Im.
  - apply Forall_forall. intros m Hm. apply Im in Hm as [e [He <-]].
    apply ViewFacts.yearOf_monthOf_length. apply W. exact He.
  - intros st' Hl'. rewrite (ViewFacts.view_computed tz st' ls Hl').
    + eexists. split; [reflexivity|]. split; reflexivity.
    + apply Forall_forall. exact W.
Qed.

Lemma available_years_and_months_witness :
  let ls := [Examples.fullDay "2023-11-30"; Examples.fullDay "2024-03-05";
             Examples.fullDay "2024-11-02"] in
  exists v,
    filteredSortedAndAvailable 0 (Examples.state ls Num.zero None) = Some v
    /\ Spec.strictlyDescending (availableYears v)
    /\ Spec.strictlyAscending (availableMonths v).
Proof.
  cbv zeta.
  destruct (available_years_and_months 0
              (Examples.state
                 [Examples.fullDay "2023-11-30"; Examples.fullDay "2024-03-05";
                  Examples.fullDay "2024-11-02"] Num.zero None)
              [Examples.fullDay "2023-11-30"; Examples.fullDay "2024-03-05";
               Examples.fullDay "2024-11-02"])
    as [v [H1 [_ [H2 [_ [_ [_ [H3 _]]]]]]]].
  - reflexivity.
  - repeat constructor.
  - exists v. split; [exact H1|]. split; [exact H2 | exact H3].
Defined.

(** C9.  An entry whose time-in or time-out is missing or empty is worth 0
    hours, whatever its date and break; the result is a number, not an
    error. *)
Theorem hours_without_a_time (tz : Z) (log : LogEntry) :
  Spec.absent (timeIn log) \/ Spec.absent (timeOut log) ->
  calculateHoursForLog tz log = Num.zero.
Proof.
  intros H. unfold calculateHoursForLog.
  replace (falsy (timeIn log) || falsy (timeOut log)) with true;
    [reflexivity|].
  symmetry. apply orb_true_iff.
  destruct H as [H | H]; [left | right]; apply ClockFacts.falsy_absent; exact H.
Qed.

Lemma hours_without_a_time_witness :
  calculateHoursForLog 0 Examples.noTimeIn = Num.zero.
Proof.
  apply (hours_without_a_time 0 Examples.noTimeIn).
  left. right. reflexivity.
Defined.

(** C10.  Of several entries with one date the aggregator counts the first
    in collection order, for the daily total and for each weekday of the
    weekly total; an entry that follows another of its date adds nothing:
    the totals are those of the collection without it. *)
Theorem same_date_counts_once (tz today : Z) (st : State)
  (l1 l2 : list LogEntry) (e : LogEntry) :
  logs st = Some (l1 ++ e :: l2) ->
  (exists e0, In e0 l1 /\ date e0 = date e) ->
  let ls := l1 ++ e :: l2 in
  let n := Spec.localDay tz today in
  exists t st',
    dailyAndWeeklyHours tz today st = Some (t, st')
    /\ dailyHours t = Spec.hoursOf tz (Spec.firstOn ls (Spec.dayString n))
    /\ (manualWeeklyHours st = None ->
        weeklyHours t
        = Num.parseFloat_toFixed2
            (Num.add (Spec.firstEntryHours tz ls n) (savedHolidayHours st)))
    /\ option_map fst
         (dailyAndWeeklyHours tz today (Spec.withLogs (l1 ++ l2) st))
       = Some t.
Proof.
  intros Hl Hdup ls n.
  assert (N1 : exists a r, l1 ++ e :: l2 = a :: r).
  { destruct l1 as [|a r]; [destruct Hdup as [? [[] _]]|].
    exists a, (r ++ e :: l2). reflexivity. }
  assert (N2 : exists a r, l1 ++ l2 = a :: r).
  { destruct l1 as [|a r]; [destruct Hdup as [? [[] _]]|].
    exists a, (r ++ l2). reflexivity. }
  destruct (manualWeeklyHours st) as [m|] eqn:Hm.
  - rewrite (AggregatorFacts.run_override tz today st ls m Hl Hm).
    eexists. eexists. split; [reflexivity|].
    split; [reflexivity|]. split; [discriminate|].
    rewrite (AggregatorFacts.run_override tz today
               (Spec.withLogs (l1 ++ l2) st) (l1 ++ l2) m eq_refl Hm).
    cbn [option_map fst]. unfold ls. fold n.
    rewrite (DuplicateFacts.firstOn_drop_later _ _ _ _ Hdup). reflexivity.
  - rewrite (AggregatorFacts.run_computed tz today st ls Hl Hm).
    eexists. eexists. split; [reflexivity|].
    split; [reflexivity|]. cbn [weeklyHours]. split.
    + intros _. unfold ls. destruct N1 as [a [r ->]]. reflexivity.
    + rewrite (AggregatorFacts.run_computed tz today
                 (Spec.withLogs (l1 ++ l2) st) (l1 ++ l2) eq_refl Hm).
      cbn [option_map fst Spec.withLogs savedHolidayHours]. unfold ls. fold n.
      rewrite (DuplicateFacts.firstOn_drop_later _ _ _ _ Hdup).
      rewrite (DuplicateFacts.firstEntryHours_drop_later _ _ _ _ _ Hdup).
      destruct N1 as [a1 [r1 ->]]. destruct N2 as [a2 [r2 ->]]. reflexivity.
Qed.

Lemma same_date_counts_once_witness :
  let l1 := [Examples.officeDay] in
  let e := Examples.reversedDay in
  let st := Examples.state (l1 ++ e :: []) Num.zero None in
  exists t st',
    dailyAndWeeklyHours 0 Examples.newYear2024 st = Some (t, st')
    /\ option_map fst
         (dailyAndWeeklyHours 0 Examples.newYear2024 (Spec.withLogs l1 st))
       = Some t.
Proof.
  cbv zeta.
  destruct (same_date_counts_once 0 Examples.newYear2024
              (Examples.state ([Examples.officeDay] ++ [Examples.reversedDay])
                 Num.zero None)
              [Examples.officeDay] [] Examples.reversedDay)
    as [t [st' [H1 [_ [_ H2]]]]].
  - reflexivity.
  - exists Examples.officeDay. split; [left; reflexivity | reflexivity].
  - exists t, st'. split; [exact H1 | exact H2].
Defined.

(** * Further properties of the component *)

(** ** More on the duration calculator and the aggregator *)

Module MoreFacts.

Lemma hours_unreadable tz log :
  Spec.present (timeIn log) -> Spec.present (timeOut log) ->
  Spec.clockMinutes (str (timeIn log)) = None
  \/ Spec.clockMinutes (str (timeOut log)) = None ->
  calculateHoursForLog tz log = Num.NaN.
Proof.
  intros Pi Po H. unfold calculateHoursForLog.
  rewrite (ClockFacts.falsy_present _ Pi), (ClockFacts.falsy_present _ Po).
  cbn [orb]. unfold Spec.clockMinutes in H. unfold DateFns.parse.
  destruct (DateFns.newDate (date log)) as [r|]; [|reflexivity].
  destruct H as [H | H].
  - destruct (DateFns.readClock (str (timeIn log))) as [[h m]|];
      [discriminate|].
    destruct (DateFns.readClock (str (timeOut log))) as [[h m]|]; reflexivity.
  - destruct (DateFns.readClock (str (timeOut log))) as [[h m]|];
      [discriminate|]. reflexivity.
Qed.


Lemma sum_NaN xs : In Num.NaN xs -> Spec.sum xs = Num.NaN.
Proof.
  unfold Spec.sum. induction xs as [|x xs IH]; [contradiction|].
  intros [-> | H]; cbn [fold_right]; [reflexivity|].
  rewrite (IH H). destruct x; reflexivity.
Qed.

Lemma add_NaN_r a : Num.add a Num.NaN = Num.NaN.
Proof. destruct a; reflexivity. Qed.

(** The aggregator as a whole, in closed form. *)
Lemma run_cases tz today st :
  match logs st with
  | None =>
      dailyAndWeeklyHours tz today st
      = Some ({| dailyHours := Num.zero; weeklyHours := Num.zero |}, st)
  | Some ls =>
      dailyAndWeeklyHours tz today st
      = Some ({| dailyHours :=
                   Spec.hoursOf tz
                     (Spec.firstOn ls
                        (Spec.dayString (Spec.localDay tz today)));
                 weeklyHours :=
                   match manualWeeklyHours st with
                   | Some m => m
                   | None => PageSpec.computedWeekly tz today st ls
                   end |},
              if (List.length ls =? 0)%nat
                 && Num.gtb (savedHolidayHours st) Num.zero
                 && match manualWeeklyHours st with
                    | Some _ => false
                    | None => true
                    end
              then setSavedHolidayHours Num.zero st
              else st)
  end.
Proof.
  destruct (logs st) as [ls|] eqn:Hl.
  - destruct (manualWeeklyHours st) as [m|] eqn:Hm.
    + rewrite (AggregatorFacts.run_override tz today st ls m Hl Hm).
      rewrite andb_false_r. reflexivity.
    + rewrite (AggregatorFacts.run_computed tz today st ls Hl Hm).
      rewrite andb_true_r. reflexivity.
  - unfold dailyAndWeeklyHours. rewrite Hl. reflexivity.
Qed.

Lemma firstOn_In ls d e :
  Spec.firstOn ls d = Some e -> In e ls /\ date e = d.
Proof.
  unfold Spec.firstOn. intros H. apply find_some in H as [H1 H2].
  apply String.eqb_eq in H2. split; assumption.
Qed.

Lemma firstOn_unique ls d e :
  NoDup (map date ls) -> In e ls -> date e = d ->
  Spec.firstOn ls d = Some e.
Proof.
  unfold Spec.firstOn. induction ls as [|a ls IH]; intros N Hin Hd;
    [contradiction|].
  cbn [map] in N. inversion N as [|? ? Na N']; subst.
  cbn [find]. destruct (String.eqb_spec (date a) (date e)) as [E | Ne].
  - destruct Hin as [-> | Hin]; [reflexivity|].
    exfalso. apply Na. rewrite E. apply in_map. exact Hin.
  - destruct Hin as [-> | Hin]; [contradiction|]. apply IH; auto.
Qed.

Lemma firstOn_none ls d :
  Spec.firstOn ls d = None -> forall e, In e ls -> date e <> d.
Proof.
  unfold Spec.firstOn. intros H e He E.
  apply (find_none _ _ H) in He. apply String.eqb_neq in He. contradiction.
Qed.

(** With one entry a date at most, the first entry of a date is the same
    however the collection is arranged. *)
Lemma firstOn_perm ls ls' d :
  Permutation ls ls' -> NoDup (map date ls) ->
  Spec.firstOn ls d = Spec.firstOn ls' d.
Proof.
  intros Pm N.
  assert (N' : NoDup (map date ls'))
    by (apply (Permutation_NoDup (Permutation_map date Pm)); exact N).
  destruct (Spec.firstOn ls d) as [e|] eqn:E.
  - apply firstOn_In in E as [Hin Hd]. symmetry.
    apply firstOn_unique; [exact N' | | exact Hd].
    apply (Permutation_in _ Pm). exact Hin.
  - destruct (Spec.firstOn ls' d) as [e'|] eqn:E'; [|reflexivity].
    apply firstOn_In in E' as [Hin Hd]. exfalso.
    apply (firstOn_none ls d E e'); [|exact Hd].
    apply (Permutation_in _ (Permutation_sym Pm)). exact Hin.
Qed.

Lemma firstEntryHours_ext tz ls ls' n :
  (forall d, In d (Spec.weekdayStrings n) ->
             Spec.firstOn ls d = Spec.firstOn ls' d) ->
  Spec.firstEntryHours tz ls n = Spec.firstEntryHours tz ls' n.
Proof.
  intros H. unfold Spec.firstEntryHours. f_equal. apply map_ext_in.
  intros d Hd. rewrite (H d Hd). reflexivity.
Qed.

Lemma computedWeekly_ext tz today st st' ls ls' :
  savedHolidayHours st = savedHolidayHours st' ->
  (ls = [] <-> ls' = []) ->
  (forall d, In d (Spec.weekdayStrings (Spec.localDay tz today)) ->
             Spec.firstOn ls d = Spec.firstOn ls' d) ->
  PageSpec.computedWeekly tz today st ls
  = PageSpec.computedWeekly tz today st' ls'.
Proof.
  intros Hc E H. unfold PageSpec.computedWeekly.
  rewrite (firstEntryHours_ext tz ls ls' _ H), Hc.
  destruct ls as [|a l], ls' as [|a' l']; try reflexivity.
  - destruct E as [E _]. discriminate (E eq_refl).
  - destruct E as [_ E]. discriminate (E eq_refl).
Qed.

End MoreFacts.

(** X1.  An entry whose two times are present but one of which does not read
    as an HH:mm clock time is worth [NaN] hours, not 0, whatever its date
    and break. *)
Theorem hours_of_unreadable_time (tz : Z) (log : LogEntry) :
  Spec.present (timeIn log) -> Spec.present (timeOut log) ->
  Spec.clockMinutes (str (timeIn log)) = None
  \/ Spec.clockMinutes (str (timeOut log)) = None ->
  calculateHoursForLog tz log = Num.NaN.
Proof. exact (MoreFacts.hours_unreadable tz log). Qed.

Lemma hours_of_unreadable_time_witness :
  calculateHoursForLog 0 Samples.badTime = Num.NaN.
Proof.
  apply (hours_of_unreadable_time 0 Samples.badTime).
  - exists "9am"%string. split; [reflexivity | discriminate].
  - exists "17:00"%string. split; [reflexivity | discriminate].
  - left. reflexivity.
Defined.



(** X3.  The aggregator returns totals for every clock reading, time zone
    and state: the week it enumerates never starts after it ends, so the
    RangeError of [eachDayOfInterval] cannot occur. *)
Theorem aggregator_never_throws (tz today : Z) (st : State) :
  exists t st', dailyAndWeeklyHours tz today st = Some (t, st').
Proof.
  pose proof (MoreFacts.run_cases tz today st) as H.
  destruct (logs st); rewrite H; eexists; eexists; reflexivity.
Qed.

(** X4.  With a loaded collection the daily total is the hours of the first
    entry dated the local calendar day of the clock reading, and 0 when no
    entry has that date; the override and the carry play no part. *)
Theorem daily_total_of_today (tz today : Z) (st : State)
  (ls : list LogEntry) :
  logs st = Some ls ->
  exists t st',
    dailyAndWeeklyHours tz today st = Some (t, st')
    /\ dailyHours t
       = Spec.hoursOf tz
           (Spec.firstOn ls (Spec.dayString (Spec.localDay tz today)))
    /\ ((forall e, In e ls ->
                   date e <> Spec.dayString (Spec.localDay tz today)) ->
        dailyHours t = Num.zero).
Proof.
  intros Hl. pose proof (MoreFacts.run_cases tz today st) as H.
  rewrite Hl in H. rewrite H. eexists. eexists. split; [reflexivity|].
  cbn [dailyHours]. split; [reflexivity|]. intros Hn.
  destruct (Spec.firstOn ls (Spec.dayString (Spec.localDay tz today)))
    as [e|] eqn:E; [|reflexivity].
  apply MoreFacts.firstOn_In in E as [Hin Hd].
  exfalso. exact (Hn e Hin Hd).
Qed.

Lemma daily_total_of_today_witness :
  exists t st',
    dailyAndWeeklyHours 60 (Examples.newYear2024 - 1)
      (Examples.state [Samples.wednesday; Examples.officeDay] Num.zero None)
    = Some (t, st')
    /\ dailyHours t
       = Spec.hoursOf 60
           (Spec.firstOn [Samples.wednesday; Examples.officeDay]
              (Spec.dayString (Spec.localDay 60 (Examples.newYear2024 - 1)))).
Proof.
  destruct (daily_total_of_today 60 (Examples.newYear2024 - 1)
              (Examples.state [Samples.wednesday; Examples.officeDay]
                 Num.zero None)
              [Samples.wednesday; Examples.officeDay])
    as [t [st' [H1 [H2 _]]]]; [reflexivity|].
  exists t, st'. split; [exact H1 | exact H2].
Defined.

(** X5.  A run of the aggregator changes nothing of the state but the carry,
    changes nothing at all when the collection is not empty, and is stable:
    run again on the state it leaves, it returns the same totals and leaves
    that state as it is. *)
Theorem aggregator_settles (tz today : Z) (st st' : State) (t : Totals) :
  dailyAndWeeklyHours tz today st = Some (t, st') ->
  st' = setSavedHolidayHours (savedHolidayHours st') st
  /\ (forall ls, logs st = Some ls -> ls <> [] -> st' = st)
  /\ dailyAndWeeklyHours tz today st' = Some (t, st').
Proof.
  intros H. pose proof (MoreFacts.run_cases tz today st) as C.
  pose proof (MoreFacts.run_cases tz today st') as C'.
  destruct (logs st) as [ls|] eqn:Hl.
  - rewrite C in H.
    destruct ls as [|e ls].
    + cbn [List.length Nat.eqb andb] in H.
      destruct (manualWeeklyHours st) as [m|] eqn:Hm.
      * rewrite andb_false_r in H.
        assert (E : st' = st) by congruence. subst st'.
        split; [destruct st; reflexivity|].
        split; [intros; reflexivity|]. rewrite <- H.
        rewrite Hl, Hm in C'. rewrite C', andb_false_r. reflexivity.
      * rewrite andb_true_r in H.
        destruct (Num.gtb (savedHolidayHours st) Num.zero) eqn:G.
        -- assert (E : st' = setSavedHolidayHours Num.zero st) by congruence.
           subst st'. split; [reflexivity|].
           split; [intros ls Hls Hne; congruence|].
           cbn [setSavedHolidayHours logs manualWeeklyHours
                  savedHolidayHours] in C'.
           rewrite Hl, Hm in C'. rewrite C'. rewrite <- H.
           reflexivity.
        -- assert (E : st' = st) by congruence. subst st'.
           split; [destruct st; reflexivity|].
           split; [intros; reflexivity|]. rewrite <- H.
           rewrite Hl, Hm in C'. rewrite C'. cbn [List.length Nat.eqb andb].
           rewrite G. reflexivity.
    + cbn [List.length Nat.eqb andb] in H.
      assert (E : st' = st) by congruence. subst st'.
      split; [destruct st; reflexivity|].
      split; [intros; reflexivity|]. rewrite <- H.
      rewrite Hl in C'. rewrite C'. reflexivity.
  - rewrite C in H. assert (E : st' = st) by congruence. subst st'.
    split; [destruct st; reflexivity|].
    split; [intros; congruence|]. rewrite <- H.
    rewrite Hl in C'. exact C'.
Qed.

Lemma aggregator_settles_witness :
  let st := Examples.state [] (Num.ofZ 5) None in
  let st' := setSavedHolidayHours Num.zero st in
  let t := {| dailyHours := Num.zero;
              weeklyHours := Num.parseFloat_toFixed2 Num.zero |} in
  dailyAndWeeklyHours 0 Examples.newYear2024 st' = Some (t, st').
Proof.
  cbv zeta.
  apply (aggregator_settles 0 Examples.newYear2024
           (Examples.state [] (Num.ofZ 5) None)).
  rewrite (AggregatorFacts.run_computed 0 Examples.newYear2024
             (Examples.state [] (Num.ofZ 5) None) [] eq_refl eq_refl).
  reflexivity.
Defined.

Module WeeklyFacts.

Lemma weeklyOf_run tz today st ls :
  logs st = Some ls ->
  PageSpec.weeklyOf (dailyAndWeeklyHours tz today st)
  = Some match manualWeeklyHours st with
         | Some m => m
         | None => PageSpec.computedWeekly tz today st ls
         end.
Proof.
  intros Hl. pose proof (MoreFacts.run_cases tz today st) as C.
  rewrite Hl in C. rewrite C. reflexivity.
Qed.

Lemma weekly_without tz today st l1 e l2 :
  l1 ++ l2 <> [] ->
  ~ In (date e) (Spec.weekdayStrings (Spec.localDay tz today)) ->
  PageSpec.weeklyOf
    (dailyAndWeeklyHours tz today (Spec.withLogs (l1 ++ e :: l2) st))
  = PageSpec.weeklyOf
      (dailyAndWeeklyHours tz today (Spec.withLogs (l1 ++ l2) st)).
Proof.
  intros Hne Hd.
  rewrite (weeklyOf_run tz today (Spec.withLogs (l1 ++ e :: l2) st)
             (l1 ++ e :: l2) eq_refl).
  rewrite (weeklyOf_run tz today (Spec.withLogs (l1 ++ l2) st)
             (l1 ++ l2) eq_refl).
  cbn [Spec.withLogs manualWeeklyHours]. f_equal.
  destruct (manualWeeklyHours st); [reflexivity|].
  apply MoreFacts.computedWeekly_ext.
  - reflexivity.
  - split; intros E; [|contradiction].
    destruct l1; discriminate E.
  - intros d Hin. apply DuplicateFacts.firstOn_skip.
    intros E. apply Hd. rewrite E. exact Hin.
Qed.

(** Saturday and Sunday of a week of the years 0001 to 9999 are not among
    the names of its weekdays. *)
Lemma weekend_not_weekday n i :
  i = 5 \/ i = 6 ->
  1 <= Time.YearFromDay (Spec.mondayOf n) ->
  Time.YearFromDay (Spec.mondayOf n + 6) <= 9999 ->
  ~ In (Spec.dayString (Spec.mondayOf n + i)) (Spec.weekdayStrings n).
Proof.
  intros Hi Lo Hi' H. unfold Spec.weekdayStrings in H.
  apply in_map_iff in H as [j [E Hj]].
  assert (Rj : 0 <= j <= 4) by (cbn in Hj; lia).
  apply (f_equal Spec.dayNumber) in E.
  rewrite !WeekFacts.dayNumber_dayString in E; [lia | |].
  - pose proof (WeekFacts.YearFromDay_mono (Spec.mondayOf n)
                  (Spec.mondayOf n + i)).
    pose proof (WeekFacts.YearFromDay_mono (Spec.mondayOf n + i)
                  (Spec.mondayOf n + 6)).
    lia.
  - pose proof (WeekFacts.YearFromDay_mono (Spec.mondayOf n)
                  (Spec.mondayOf n + j)).
    pose proof (WeekFacts.YearFromDay_mono (Spec.mondayOf n + j)
                  (Spec.mondayOf n + 6)).
    lia.
Qed.

End WeeklyFacts.

(** X6.  An entry whose date is none of Monday to Friday of the week of
    today adds nothing to the weekly total: the total is that of the
    collection without the entry, as long as other entries remain. *)
Theorem entry_outside_the_weekdays (tz today : Z) (st : State)
  (l1 l2 : list LogEntry) (e : LogEntry) :
  l1 ++ l2 <> [] ->
  ~ In (date e) (Spec.weekdayStrings (Spec.localDay tz today)) ->
  PageSpec.weeklyOf
    (dailyAndWeeklyHours tz today (Spec.withLogs (l1 ++ e :: l2) st))
  = PageSpec.weeklyOf
      (dailyAndWeeklyHours tz today (Spec.withLogs (l1 ++ l2) st)).
Proof. exact (WeeklyFacts.weekly_without tz today st l1 e l2). Qed.

Lemma entry_outside_the_weekdays_witness :
  PageSpec.weeklyOf
    (dailyAndWeeklyHours 0 Examples.newYear2024
       (Spec.withLogs ([Samples.monday] ++ Samples.march :: [])
          (Examples.state [] Num.zero None)))
  = PageSpec.weeklyOf
      (dailyAndWeeklyHours 0 Examples.newYear2024
         (Spec.withLogs ([Samples.monday] ++ [])
            (Examples.state [] Num.zero None))).
Proof.
  apply (entry_outside_the_weekdays 0 Examples.newYear2024
           (Examples.state [] Num.zero None) [Samples.monday] []
           Samples.march).
  - discriminate.
  - vm_compute. intuition discriminate.
Defined.

(** X7.  In a week of the years 0001 to 9999, an entry dated the Saturday or
    the Sunday of the week of today is never counted in the weekly total. *)
Theorem weekend_entry_not_counted (tz today : Z) (st : State)
  (l1 l2 : list LogEntry) (e : LogEntry) (i : Z) :
  let monday := Spec.mondayOf (Spec.localDay tz today) in
  i = 5 \/ i = 6 ->
  date e = Spec.dayString (monday + i) ->
  1 <= Time.YearFromDay monday ->
  Time.YearFromDay (monday + 6) <= 9999 ->
  l1 ++ l2 <> [] ->
  PageSpec.weeklyOf
    (dailyAndWeeklyHours tz today (Spec.withLogs (l1 ++ e :: l2) st))
  = PageSpec.weeklyOf
      (dailyAndWeeklyHours tz today (Spec.withLogs (l1 ++ l2) st)).
Proof.
  intros monday Hi Hd Lo Hi' Hne.
  apply WeeklyFacts.weekly_without; [exact Hne|].
  rewrite Hd. apply WeeklyFacts.weekend_not_weekday; assumption.
Qed.

Lemma weekend_entry_not_counted_witness :
  PageSpec.weeklyOf
    (dailyAndWeeklyHours 0 Examples.newYear2024
       (Spec.withLogs ([Samples.monday] ++ Samples.saturday :: [])
          (Examples.state [] Num.zero None)))
  = PageSpec.weeklyOf
      (dailyAndWeeklyHours 0 Examples.newYear2024
         (Spec.withLogs ([Samples.monday] ++ [])
            (Examples.state [] Num.zero None))).
Proof.
  apply (weekend_entry_not_counted 0 Examples.newYear2024
           (Examples.state [] Num.zero None) [Samples.monday] []
           Samples.saturday 5).
  - left. reflexivity.
  - vm_compute. reflexivity.
  - vm_compute. discriminate.
  - vm_compute. discriminate.
  - discriminate.
Defined.

(** X8.  With one entry a date at most, the totals do not depend on the
    order of the collection. *)
Theorem totals_whatever_the_order (tz today : Z) (st : State)
  (ls ls' : list LogEntry) :
  Permutation ls ls' -> NoDup (map date ls) ->
  PageSpec.totalsOf (dailyAndWeeklyHours tz today (Spec.withLogs ls st))
  = PageSpec.totalsOf (dailyAndWeeklyHours tz today (Spec.withLogs ls' st)).
Proof.
  intros Pm N.
  pose proof (MoreFacts.run_cases tz today (Spec.withLogs ls st)) as C.
  pose proof (MoreFacts.run_cases tz today (Spec.withLogs ls' st)) as C'.
  cbn [Spec.withLogs logs manualWeeklyHours] in C, C'. rewrite C, C'.
  cbn [PageSpec.totalsOf option_map fst].
  rewrite (MoreFacts.firstOn_perm ls ls' _ Pm N).
  destruct (manualWeeklyHours st); [reflexivity|].
  rewrite (MoreFacts.computedWeekly_ext tz today (Spec.withLogs ls st)
             (Spec.withLogs ls' st) ls ls').
  - reflexivity.
  - reflexivity.
  - split; intros ->.
    + apply Permutation_nil. exact Pm.
    + apply Permutation_nil. apply Permutation_sym. exact Pm.
  - intros d _. apply MoreFacts.firstOn_perm; assumption.
Qed.

Lemma totals_whatever_the_order_witness :
  PageSpec.totalsOf
    (dailyAndWeeklyHours 0 Examples.newYear2024
       (Spec.withLogs [Samples.monday; Samples.wednesday]
          (Examples.state [] Num.zero None)))
  = PageSpec.totalsOf
      (dailyAndWeeklyHours 0 Examples.newYear2024
         (Spec.withLogs [Samples.wednesday; Samples.monday]
            (Examples.state [] Num.zero None))).
Proof.
  apply (totals_whatever_the_order 0 Examples.newYear2024
           (Examples.state [] Num.zero None)
           [Samples.monday; Samples.wednesday]
           [Samples.wednesday; Samples.monday]).
  - apply perm_swap.
  - repeat constructor; cbn; intuition discriminate.
Defined.

(** X9.  With a non-empty collection and no override, the weekly total is
    [NaN] as soon as the carry is [NaN] or the first entry of one weekday of
    the week is worth [NaN] hours: one unreadable time spoils the total. *)
Theorem weekly_total_spoiled (tz today : Z) (st : State)
  (ls : list LogEntry) :
  logs st = Some ls -> ls <> [] -> manualWeeklyHours st = None ->
  savedHolidayHours st = Num.NaN
  \/ (exists d, In d (Spec.weekdayStrings (Spec.localDay tz today))
                /\ Spec.hoursOf tz (Spec.firstOn ls d) = Num.NaN) ->
  PageSpec.weeklyOf (dailyAndWeeklyHours tz today st) = Some Num.NaN.
Proof.
  intros Hl Hne Hm H. rewrite (WeeklyFacts.weeklyOf_run tz today st ls Hl), Hm.
  f_equal. unfold PageSpec.computedWeekly.
  destruct ls as [|e ls']; [contradiction|].
  cbn [List.length Nat.ltb Nat.leb].
  destruct H as [-> | [d [Hd Hn]]].
  - rewrite MoreFacts.add_NaN_r. reflexivity.
  - unfold Spec.firstEntryHours. rewrite MoreFacts.sum_NaN; [reflexivity|].
    rewrite <- Hn.
    apply (in_map (fun d => Spec.hoursOf tz (Spec.firstOn (e :: ls') d))).
    exact Hd.
Qed.

Lemma weekly_total_spoiled_witness :
  PageSpec.weeklyOf
    (dailyAndWeeklyHours 0 Examples.newYear2024
       (Examples.state [Samples.monday; Samples.badTime] Num.zero None))
  = Some Num.NaN.
Proof.
  apply (weekly_total_spoiled 0 Examples.newYear2024
           (Examples.state [Samples.monday; Samples.badTime] Num.zero None)
           [Samples.monday; Samples.badTime]).
  - reflexivity.
  - discriminate.
  - reflexivity.
  - right. exists "2024-01-02"%string. split.
    + vm_compute. tauto.
    + apply (MoreFacts.hours_unreadable 0 Samples.badTime).
      * exists "9am"%string. split; [reflexivity | discriminate].
      * exists "17:00"%string. split; [reflexivity | discriminate].
      * left. reflexivity.
Defined.

(** X10.  With a non-empty collection, no override, and no entry dated
    Monday to Friday of the week of today, the weekly total is the carry
    rounded to two decimals. *)
Theorem week_without_entries (tz today : Z) (st : State)
  (ls : list LogEntry) :
  logs st = Some ls -> ls <> [] -> manualWeeklyHours st = None ->
  (forall e, In e ls ->
             ~ In (date e) (Spec.weekdayStrings (Spec.localDay tz today))) ->
  PageSpec.weeklyOf (dailyAndWeeklyHours tz today st)
  = Some (Num.parseFloat_toFixed2 (savedHolidayHours st)).
Proof.
  intros Hl Hne Hm H. rewrite (WeeklyFacts.weeklyOf_run tz today st ls Hl), Hm.
  f_equal. unfold PageSpec.computedWeekly.
  destruct ls as [|e ls']; [contradiction|].
  cbn [List.length Nat.ltb Nat.leb]. f_equal.
  unfold Spec.firstEntryHours.
  rewrite (map_ext_in _ (fun _ => Num.zero)).
  - rewrite WeekFacts.sum_zero. apply NumFacts.add_zero_l.
  - intros d Hd.
    destruct (Spec.firstOn (e :: ls') d) as [x|] eqn:E; [|reflexivity].
    apply MoreFacts.firstOn_In in E as [Hin Hx]. exfalso.
    apply (H x Hin). rewrite Hx. exact Hd.
Qed.

Lemma week_without_entries_witness :
  PageSpec.weeklyOf
    (dailyAndWeeklyHours 0 Examples.newYear2024
       (Examples.state [Samples.march] (Num.ofZ 3) None))
  = Some (Num.parseFloat_toFixed2 (Num.ofZ 3)).
Proof.
  apply (week_without_entries 0 Examples.newYear2024
           (Examples.state [Samples.march] (Num.ofZ 3) None)
           [Samples.march]).
  - reflexivity.
  - discriminate.
  - reflexivity.
  - intros e [<- | []]. vm_compute. intuition discriminate.
Defined.

Module HandlerFacts.
Import Page.

Lemma falsy_id_present i : i <> EmptyString -> falsy (Some i) = false.
Proof.
  intros H. apply ClockFacts.falsy_present. exists i. split; [reflexivity|].
  exact H.
Qed.

Lemma state_resetManualHours p :
  state (resetManualHours p) = setManualWeeklyHours None (state p).
Proof. reflexivity. Qed.

(** Once the override is cleared, the aggregator computes the weekly
    total. *)
Lemma weekly_after_reset tz today st ls :
  logs st = Some ls ->
  PageSpec.weeklyOf
    (dailyAndWeeklyHours tz today (setManualWeeklyHours None st))
  = Some (PageSpec.computedWeekly tz today st ls).
Proof.
  intros Hl.
  rewrite (WeeklyFacts.weeklyOf_run tz today (setManualWeeklyHours None st) ls)
    by exact Hl.
  reflexivity.
Qed.

End HandlerFacts.

(** X11.  No handler writes to the document store without a signed-in user,
    and every write a handler asks for goes to the collection of the
    signed-in user. *)
Theorem writes_go_to_the_user (p : Page.Page) (data : LogEntry)
  (id : option string) (docId : string) (h : Num.number) (w : Page.Effect)
  (uid : string) :
  In w (snd (Page.handleAddOrUpdateLog data id p))
  \/ In w (snd (Page.handleDeleteLog docId p))
  \/ In w (snd (Page.handleSaveHolidayHours h p))
  \/ In w (snd (Page.handleUpdateWeeklyHours h p)) ->
  PageSpec.target w = Some uid ->
  Page.user p = Some uid.
Proof.
  unfold Page.handleAddOrUpdateLog, Page.handleDeleteLog,
    Page.handleSaveHolidayHours, Page.handleUpdateWeeklyHours,
    Page.logsCollectionRef.
  intros H T. destruct (Page.user p) as [u|]; cbn [snd In] in H.
  - destruct H as [[<- | []] | [[<- | []] | [[<- | []] | [<- | []]]]];
      cbn [PageSpec.target] in T; try discriminate; try exact T.
    destruct (Page.editingLog p) as [e|]; [destruct (falsy (Home.id e))|];
      exact T.
  - destruct H as [[] | [[] | [[<- | []] | [<- | []]]]]; discriminate T.
Qed.

Lemma writes_go_to_the_user_witness :
  Page.user (Samples.signedIn (Examples.state [] Num.zero None))
  = Some "u1"%string.
Proof.
  apply (writes_go_to_the_user
           (Samples.signedIn (Examples.state [] Num.zero None))
           Samples.monday None "d1" Num.zero
           (Page.deleteDocumentNonBlocking "u1" "d1") "u1").
  - right. left. left. reflexivity.
  - reflexivity.
Defined.

(** X12.  After a signed-in user saves or deletes an entry, and after an
    entry is picked for editing, the aggregator returns the computed weekly
    total of the loaded collection, whatever override was set before. *)
Theorem override_cleared_by_changes (tz today : Z) (p : Page.Page)
  (ls : list LogEntry) (uid : string) (data e : LogEntry)
  (id : option string) (docId : string) :
  Page.user p = Some uid -> logs (Page.state p) = Some ls ->
  let computed := Some (PageSpec.computedWeekly tz today (Page.state p) ls) in
  PageSpec.weeklyOf
    (dailyAndWeeklyHours tz today
       (Page.state (fst (Page.handleAddOrUpdateLog data id p))))
  = computed
  /\ PageSpec.weeklyOf
       (dailyAndWeeklyHours tz today
          (Page.state (fst (Page.handleDeleteLog docId p))))
     = computed
  /\ PageSpec.weeklyOf
       (dailyAndWeeklyHours tz today (Page.state (Page.onEdit e p)))
     = computed.
Proof.
  intros Hu Hl computed. subst computed.
  unfold Page.handleAddOrUpdateLog, Page.handleDeleteLog, Page.onEdit,
    Page.logsCollectionRef.
  rewrite Hu. cbn [fst]. rewrite !HandlerFacts.state_resetManualHours.
  cbn [Page.setEditingLog Page.state].
  rewrite (HandlerFacts.weekly_after_reset tz today (Page.state p) ls Hl).
  repeat split.
Qed.

Lemma override_cleared_by_changes_witness :
  let st := Examples.state [Samples.monday] Num.zero (Some (Num.ofZ 40)) in
  PageSpec.weeklyOf
    (dailyAndWeeklyHours 0 Examples.newYear2024
       (Page.state (fst (Page.handleDeleteLog "d1" (Samples.signedIn st)))))
  = Some (PageSpec.computedWeekly 0 Examples.newYear2024 st [Samples.monday]).
Proof.
  cbv zeta.
  apply (override_cleared_by_changes 0 Examples.newYear2024
           (Samples.signedIn
              (Examples.state [Samples.monday] Num.zero (Some (Num.ofZ 40))))
           [Samples.monday] "u1" Samples.monday Samples.monday None "d1"
           eq_refl eq_refl).
Defined.

(** X13.  After the weekly hours are set by hand, the aggregator returns
    that value for a loaded collection and leaves the state as it is; the
    collection and the carry are as before. *)
Theorem manual_hours_shown (tz today : Z) (p : Page.Page)
  (ls : list LogEntry) (h : Num.number) :
  logs (Page.state p) = Some ls ->
  let p' := fst (Page.handleUpdateWeeklyHours h p) in
  logs (Page.state p') = Some ls
  /\ savedHolidayHours (Page.state p') = savedHolidayHours (Page.state p)
  /\ exists t,
       dailyAndWeeklyHours tz today (Page.state p') = Some (t, Page.state p')
       /\ weeklyHours t = h.
Proof.
  intros Hl p'. subst p'. unfold Page.handleUpdateWeeklyHours. cbn [fst].
  cbn [Page.setState Page.state Page.setManualWeeklyHours logs
         savedHolidayHours].
  split; [exact Hl|]. split; [reflexivity|].
  rewrite (AggregatorFacts.run_override tz today
             (Page.setManualWeeklyHours (Some h) (Page.state p)) ls h Hl
             eq_refl).
  eexists. split; reflexivity.
Qed.

Lemma manual_hours_shown_witness :
  let p := Samples.signedIn (Examples.state [Samples.monday] Num.zero None) in
  let p' := fst (Page.handleUpdateWeeklyHours (Num.ofZ 40) p) in
  exists t,
    dailyAndWeeklyHours 0 Examples.newYear2024 (Page.state p')
    = Some (t, Page.state p')
    /\ weeklyHours t = Num.ofZ 40.
Proof.
  cbv zeta.
  apply (manual_hours_shown 0 Examples.newYear2024
           (Samples.signedIn (Examples.state [Samples.monday] Num.zero None))
           [Samples.monday] (Num.ofZ 40) eq_refl).
Defined.

(** X14.  After holiday hours are saved, with a non-empty collection the
    aggregator returns the weekday sum plus the new carry, the old carry
    plus the hours rounded to two decimals, the sum rounded again, whatever
    override was set before. *)
Theorem holiday_hours_added (tz today : Z) (p : Page.Page)
  (ls : list LogEntry) (h : Num.number) :
  logs (Page.state p) = Some ls -> ls <> [] ->
  let p' := fst (Page.handleSaveHolidayHours h p) in
  let carry :=
    Num.parseFloat_toFixed2
      (Num.add (savedHolidayHours (Page.state p)) h) in
  savedHolidayHours (Page.state p') = carry
  /\ PageSpec.weeklyOf (dailyAndWeeklyHours tz today (Page.state p'))
     = Some (Num.parseFloat_toFixed2
               (Num.add
                  (Spec.firstEntryHours tz ls (Spec.localDay tz today))
                  carry)).
Proof.
  intros Hl Hne p' carry. subst p' carry.
  unfold Page.handleSaveHolidayHours. cbn [fst].
  rewrite HandlerFacts.state_resetManualHours.
  cbn [Page.setState Page.state].
  split; [reflexivity|].
  rewrite (HandlerFacts.weekly_after_reset tz today _ ls) by exact Hl.
  unfold PageSpec.computedWeekly.
  destruct ls as [|e ls']; [contradiction|]. reflexivity.
Qed.

Lemma holiday_hours_added_witness :
  let p := Samples.signedIn
             (Examples.state [Samples.monday] (Num.ofZ 1)
                (Some (Num.ofZ 40))) in
  savedHolidayHours
    (Page.state (fst (Page.handleSaveHolidayHours (Num.ofZ 2) p)))
  = Num.parseFloat_toFixed2 (Num.add (Num.ofZ 1) (Num.ofZ 2)).
Proof.
  cbv zeta.
  apply (holiday_hours_added 0 Examples.newYear2024
           (Samples.signedIn
              (Examples.state [Samples.monday] (Num.ofZ 1)
                 (Some (Num.ofZ 40))))
           [Samples.monday] (Num.ofZ 2) eq_refl).
  discriminate.
Defined.

(** X15.  Holiday hours saved while the collection is empty do not last: if
    the new carry is above zero, the next run of the aggregator returns a
    weekly total of 0 and resets the carry to 0. *)
Theorem holiday_hours_lost_when_empty (tz today : Z) (p : Page.Page)
  (h : Num.number) :
  logs (Page.state p) = Some [] ->
  let p' := fst (Page.handleSaveHolidayHours h p) in
  Num.gtb (savedHolidayHours (Page.state p')) Num.zero = true ->
  exists t st',
    dailyAndWeeklyHours tz today (Page.state p') = Some (t, st')
    /\ weeklyHours t = Num.zero
    /\ savedHolidayHours st' = Num.zero.
Proof.
  intros Hl p' G. subst p'. revert G.
  unfold Page.handleSaveHolidayHours. cbn [fst].
  rewrite HandlerFacts.state_resetManualHours.
  cbn [Page.setState Page.state].
  set (st1 := Page.setManualWeeklyHours None
                (setSavedHolidayHours
                   (Num.parseFloat_toFixed2
                      (Num.add (savedHolidayHours (Page.state p)) h))
                   (Page.state p))).
  intros G.
  rewrite (AggregatorFacts.run_computed tz today st1 [] Hl eq_refl).
  cbn [List.length Nat.eqb Nat.ltb Nat.leb andb]. rewrite G.
  eexists. eexists. split; [reflexivity|].
  split; [apply NumFacts.round2_0 | reflexivity].
Qed.

Lemma holiday_hours_lost_when_empty_witness :
  let p := Samples.signedIn (Examples.state [] Num.zero None) in
  exists t st',
    dailyAndWeeklyHours 0 Examples.newYear2024
      (Page.state (fst (Page.handleSaveHolidayHours (Num.ofZ 8) p)))
    = Some (t, st')
    /\ weeklyHours t = Num.zero
    /\ savedHolidayHours st' = Num.zero.
Proof.
  cbv zeta.
  apply (holiday_hours_lost_when_empty 0 Examples.newYear2024
           (Samples.signedIn (Examples.state [] Num.zero None)) (Num.ofZ 8)
           eq_refl).
  vm_compute. reflexivity.
Defined.

Module VisibleFacts.

Lemma wellFormed_dated ls :
  Forall PageSpec.wellFormed ls -> Forall Spec.dated ls.
Proof.
  intros H. rewrite Forall_forall in H |- *. intros x Hx.
  apply DateOrderFacts.wellFormed_isDate. apply H. exact Hx.
Qed.

Lemma Forall_filter {A} (P : A -> Prop) q l :
  Forall P l -> Forall P (filter q l).
Proof.
  intros H. rewrite Forall_forall in H |- *. intros x Hx.
  apply filter_In in Hx as [Hx _]. apply H. exact Hx.
Qed.

Lemma NoDup_map_filter {A B} (f : A -> B) q l :
  NoDup (map f l) -> NoDup (map f (filter q l)).
Proof.
  induction l as [|a l IH]; cbn [map filter]; intros N; [constructor|].
  inversion N as [|? ? Na N']; subst.
  destruct (q a); [|apply IH; exact N'].
  cbn [map]. constructor; [|apply IH; exact N'].
  intros H. apply Na. apply in_map_iff in H as [x [E Hx]].
  apply filter_In in Hx as [Hx _]. rewrite <- E. apply in_map. exact Hx.
Qed.

Lemma filter_none {A} (q : A -> bool) l :
  (forall x, In x l -> q x = false) -> filter q l = [].
Proof.
  induction l as [|a l IH]; intros H; [reflexivity|].
  cbn [filter]. rewrite (H a) by (left; reflexivity).
  apply IH. intros x Hx. apply H. right. exact Hx.
Qed.

(** The visible list of the second memo, on log dates of the data model. *)
Lemma visible_computed tz st ls :
  logs st = Some ls -> Forall PageSpec.wellFormed ls ->
  PageSpec.visibleOf (filteredSortedAndAvailable tz st)
  = Some (Arr.sort (compareLogs (sortOrder st))
            (filter (Spec.satisfiesb st) ls)).
Proof.
  intros Hl W. rewrite (ViewFacts.view_computed tz st ls Hl W). reflexivity.
Qed.

Lemma sort_in_order o l :
  Forall Spec.dated l ->
  StronglySorted (PageSpec.inOrder o) (Arr.sort (compareLogs o) l).
Proof.
  intros D. destruct o.
  - apply DateOrderFacts.sort_asc_sorted. exact D.
  - apply DateOrderFacts.sort_desc_sorted. exact D.
Qed.

(** The month of a log date is one of the twelve two-digit months. *)
Lemma monthOf_name s :
  Spec.wellFormedDate s = true -> In (Spec.monthOf s) PageSpec.monthNames.
Proof.
  unfold Spec.wellFormedDate. intros H.
  destruct (Str.readDate s) as [[[y m] d]|] eqn:E; [|discriminate].
  destruct (StringFacts.readDate_shape s y m d E)
    as (y1 & y2 & y3 & y4 & m1 & m2 & d1 & d2 & -> & _ & Rm & _ & Hm & _).
  apply StringFacts.read2_print in Rm as [_ Rm].
  replace (Spec.monthOf _) with (Spec.str2 m1 m2) by reflexivity.
  rewrite <- Rm.
  assert (C : m = 1 \/ m = 2 \/ m = 3 \/ m = 4 \/ m = 5 \/ m = 6 \/ m = 7
              \/ m = 8 \/ m = 9 \/ m = 10 \/ m = 11 \/ m = 12) by lia.
  repeat destruct C as [C | C]; subst m; vm_compute; tauto.
Qed.

End VisibleFacts.

(** X16.  After the filters are cleared, every entry of a collection of
    valid dates is visible: the visible list is the collection
    rearranged. *)
Theorem all_visible_after_clearing (tz : Z) (p : Page.Page)
  (ls : list LogEntry) :
  logs (Page.state p) = Some ls -> Forall Spec.dated ls ->
  exists v,
    filteredSortedAndAvailable tz (Page.state (Page.handleClearFilters p))
    = Some v
    /\ Permutation (filteredAndSortedLogs v) ls.
Proof.
  intros Hl D.
  destruct (DateOrderFacts.view_unfiltered tz
              (Page.state (Page.handleClearFilters p)) ls Hl D
              eq_refl eq_refl eq_refl eq_refl) as [v [Hv Vv]].
  exists v. split; [exact Hv|]. rewrite Vv. apply SortFacts.sort_perm.
Qed.

Lemma all_visible_after_clearing_witness :
  let st := Spec.withFilters "2024" "03" "" ""
              (Examples.state [Samples.monday; Samples.march] Num.zero None) in
  exists v,
    filteredSortedAndAvailable 0
      (Page.state (Page.handleClearFilters (Samples.signedIn st)))
    = Some v
    /\ Permutation (filteredAndSortedLogs v) [Samples.monday; Samples.march].
Proof.
  cbv zeta.
  apply (all_visible_after_clearing 0
           (Samples.signedIn
              (Spec.withFilters "2024" "03" "" ""
                 (Examples.state [Samples.monday; Samples.march]
                    Num.zero None)))
           [Samples.monday; Samples.march] eq_refl).
  repeat constructor; unfold Spec.dated, Spec.isDate; vm_compute; discriminate.
Defined.

(** X17.  Toggling the sort direction twice gives the page back, and on a
    collection of log dates of the data model, no two alike, one toggle
    reverses the visible list, whatever filters are set. *)
Theorem toggle_reverses_visible (tz : Z) (p : Page.Page)
  (ls : list LogEntry) :
  logs (Page.state p) = Some ls ->
  Forall PageSpec.wellFormed ls -> NoDup (map date ls) ->
  Page.onSortToggle (Page.onSortToggle p) = p
  /\ PageSpec.visibleOf
       (filteredSortedAndAvailable tz (Page.state (Page.onSortToggle p)))
     = option_map (@rev LogEntry)
         (PageSpec.visibleOf (filteredSortedAndAvailable tz (Page.state p))).
Proof.
  intros Hl W N. split.
  - destruct p as [u l e st]. destruct st as [lg c m o fy fm fs fe].
    destruct o; reflexivity.
  - rewrite (VisibleFacts.visible_computed tz (Page.state p) ls Hl W).
    rewrite (VisibleFacts.visible_computed tz
               (Page.state (Page.onSortToggle p)) ls Hl W).
    cbn [option_map]. f_equal.
    unfold Page.onSortToggle.
    cbn [Page.setState Page.state Page.setSortOrder sortOrder].
    replace (filter (Spec.satisfiesb
                       (Page.setSortOrder
                          match sortOrder (Page.state p) with
                          | asc => desc
                          | desc => asc
                          end (Page.state p))) ls)
      with (filter (Spec.satisfiesb (Page.state p)) ls) by reflexivity.
    set (F := filter (Spec.satisfiesb (Page.state p)) ls).
    assert (E : Arr.sort (compareLogs asc) F
                = rev (Arr.sort (compareLogs desc) F)).
    { apply DateOrderFacts.sort_asc_rev_desc.
      - apply VisibleFacts.Forall_filter.
        apply VisibleFacts.wellFormed_dated. exact W.
      - apply VisibleFacts.NoDup_map_filter. exact N. }
    destruct (sortOrder (Page.state p)).
    + rewrite E. symmetry. apply rev_involutive.
    + exact E.
Qed.

Lemma toggle_reverses_visible_witness :
  let p := Samples.signedIn
             (Examples.state [Samples.monday; Samples.march] Num.zero None) in
  PageSpec.visibleOf
    (filteredSortedAndAvailable 0 (Page.state (Page.onSortToggle p)))
  = option_map (@rev LogEntry)
      (PageSpec.visibleOf (filteredSortedAndAvailable 0 (Page.state p))).
Proof.
  cbv zeta.
  apply (toggle_reverses_visible 0
           (Samples.signedIn
              (Examples.state [Samples.monday; Samples.march] Num.zero None))
           [Samples.monday; Samples.march] eq_refl).
  - repeat constructor.
  - repeat constructor; cbn; intuition discriminate.
Defined.

(** X18.  On a collection of log dates of the data model, the visible list
    holds the entries that pass the filter, each as often as the collection
    holds it, in the order of the days: not descending when the direction is
    ascending, not ascending when it is descending. *)
Theorem visible_sorted_by_day (tz : Z) (st : State) (ls : list LogEntry) :
  logs st = Some ls -> Forall PageSpec.wellFormed ls ->
  exists v,
    filteredSortedAndAvailable tz st = Some v
    /\ Permutation (filteredAndSortedLogs v) (filter (Spec.satisfiesb st) ls)
    /\ StronglySorted (PageSpec.inOrder (sortOrder st))
         (filteredAndSortedLogs v)
    /\ (List.length (filteredAndSortedLogs v) <= List.length ls)%nat.
Proof.
  intros Hl W. rewrite (ViewFacts.view_computed tz st ls Hl W).
  eexists. split; [reflexivity|]. cbn [filteredAndSortedLogs].
  assert (Pm := SortFacts.sort_perm (compareLogs (sortOrder st))
                  (filter (Spec.satisfiesb st) ls)).
  split; [exact Pm|]. split.
  - apply VisibleFacts.sort_in_order. apply VisibleFacts.Forall_filter.
    apply VisibleFacts.wellFormed_dated. exact W.
  - rewrite (Permutation_length Pm). apply filter_length_le.
Qed.

Lemma visible_sorted_by_day_witness :
  let ls := [Samples.march; Samples.monday] in
  exists v,
    filteredSortedAndAvailable 0 (Examples.state ls Num.zero None) = Some v
    /\ StronglySorted (PageSpec.inOrder desc) (filteredAndSortedLogs v).
Proof.
  cbv zeta.
  destruct (visible_sorted_by_day 0
              (Examples.state [Samples.march; Samples.monday] Num.zero None)
              [Samples.march; Samples.monday] eq_refl)
    as [v [H1 [_ [H2 _]]]].
  - repeat constructor.
  - exists v. split; [exact H1 | exact H2].
Defined.

(** X19.  With a start date after the end date, both set, no entry is
    visible. *)
Theorem inverted_range_shows_nothing (tz : Z) (st : State)
  (ls : list LogEntry) :
  logs st = Some ls -> Forall PageSpec.wellFormed ls ->
  filterStartDate st <> EmptyString -> filterEndDate st <> EmptyString ->
  String.compare (filterStartDate st) (filterEndDate st) = Gt ->
  PageSpec.visibleOf (filteredSortedAndAvailable tz st) = Some [].
Proof.
  intros Hl W Hs He G.
  rewrite (VisibleFacts.visible_computed tz st ls Hl W).
  rewrite VisibleFacts.filter_none; [reflexivity|].
  intros x _. apply not_true_is_false. intros S.
  apply ViewFacts.satisfiesb_spec in S.
  destruct S as [_ [_ [[U1 | L1] [U2 | L2]]]];
    try (unfold Spec.unset in *; contradiction).
  exact (ViewFacts.compare_not_gt_trans _ _ _ L1 L2 G).
Qed.

Lemma inverted_range_shows_nothing_witness :
  PageSpec.visibleOf
    (filteredSortedAndAvailable 0
       (Spec.withFilters "" "" "2024-02-01" "2024-01-01"
          (Examples.state [Samples.monday; Samples.march] Num.zero None)))
  = Some [].
Proof.
  apply (inverted_range_shows_nothing 0
           (Spec.withFilters "" "" "2024-02-01" "2024-01-01"
              (Examples.state [Samples.monday; Samples.march] Num.zero None))
           [Samples.monday; Samples.march] eq_refl).
  - repeat constructor.
  - discriminate.
  - discriminate.
  - reflexivity.
Defined.

(** X20.  On a collection of log dates of the data model, the months listed
    are among 01 to 12, so at most twelve, and neither the months nor the
    years listed outnumber the entries. *)
Theorem available_months_bounded (tz : Z) (st : State) (ls : list LogEntry) :
  logs st = Some ls -> Forall PageSpec.wellFormed ls ->
  exists v,
    filteredSortedAndAvailable tz st = Some v
    /\ incl (availableMonths v) PageSpec.monthNames
    /\ (List.length (availableMonths v) <= 12)%nat
    /\ (List.length (availableMonths v) <= List.length ls)%nat
    /\ (List.length (availableYears v) <= List.length ls)%nat.
Proof.
  intros Hl W. rewrite (ViewFacts.view_computed tz st ls Hl W).
  eexists. split; [reflexivity|]. cbn [availableMonths availableYears].
  destruct (ViewFacts.fold_Set_add_spec (fun l => Spec.monthOf (date l)) ls []
              (NoDup_nil _)) as [Nm Mm].
  destruct (ViewFacts.fold_Set_add_spec (fun l => Spec.yearOf (date l)) ls []
              (NoDup_nil _)) as [Ny My].
  fold (Spec.monthsOf ls []) in Nm, Mm. fold (Spec.yearsOf ls []) in Ny, My.
  assert (Pm := SortFacts.sort_perm
                  (fun a b => Some (Str.localeCompare a b))
                  (Spec.monthsOf ls [])).
  assert (Py := SortFacts.sort_perm
                  (fun a b => Some (Str.localeCompare b a))
                  (Spec.yearsOf ls [])).
  assert (I : incl (Arr.sort (fun a b => Some (Str.localeCompare a b))
                      (Spec.monthsOf ls [])) PageSpec.monthNames).
  { intros m Hm. apply (Permutation_in _ Pm) in Hm. apply Mm in Hm.
    destruct Hm as [[] | [e [He <-]]].
    apply VisibleFacts.monthOf_name. rewrite Forall_forall in W.
    apply W. exact He. }
  assert (Nm' : NoDup (Arr.sort (fun a b => Some (Str.localeCompare a b))
                         (Spec.monthsOf ls [])))
    by (apply (Permutation_NoDup (Permutation_sym Pm)); exact Nm).
  split; [exact I|]. split; [exact (NoDup_incl_length Nm' I)|]. split.
  - rewrite (Permutation_length Pm).
    rewrite <- (length_map (fun l => Spec.monthOf (date l)) ls).
    apply NoDup_incl_length; [exact Nm|].
    intros m Hm. apply Mm in Hm. destruct Hm as [[] | [e [He <-]]].
    apply (in_map (fun l => Spec.monthOf (date l))). exact He.
  - rewrite (Permutation_length Py).
    rewrite <- (length_map (fun l => Spec.yearOf (date l)) ls).
    apply NoDup_incl_length; [exact Ny|].
    intros y Hy. apply My in Hy. destruct Hy as [[] | [e [He <-]]].
    apply (in_map (fun l => Spec.yearOf (date l))). exact He.
Qed.

Lemma available_months_bounded_witness :
  exists v,
    filteredSortedAndAvailable 0
      (Examples.state [Samples.monday; Samples.march] Num.zero None)
    = Some v
    /\ (List.length (availableMonths v) <= 12)%nat.
Proof.
  destruct (available_months_bounded 0
              (Examples.state [Samples.monday; Samples.march] Num.zero None)
              [Samples.monday; Samples.march] eq_refl)
    as [v [H1 [_ [H2 _]]]].
  - repeat constructor.
  - exists v. split; [exact H1 | exact H2].
Defined.



(** X22.  For a signed-in user, picking an entry with a non-empty identifier
    for editing and saving asks for a merging update of the document of that
    entry, stamped [updatedAt] only, whatever identifier is passed to the
    handler; saving once more asks for a new document, since the first save
    ended the editing.  Picking an entry whose identifier is missing or
    empty and saving asks for a new document, not for an update. *)
Theorem edit_then_save (p : Page.Page) (e data data' : LogEntry)
  (uid : string) (id id' : option string) :
  Page.user p = Some uid ->
  let r1 := Page.handleAddOrUpdateLog data id (Page.onEdit e p) in
  let r2 := Page.handleAddOrUpdateLog data' id' (fst r1) in
  (forall i, Home.id e = Some i -> i <> EmptyString ->
             snd r1 = [Page.setDocumentNonBlocking uid i data
                         ["updatedAt"%string] true])
  /\ (Spec.absent (Home.id e) ->
      snd r1 = [Page.addDocumentNonBlocking uid data
                  ["createdAt"%string; "updatedAt"%string]])
  /\ snd r2 = [Page.addDocumentNonBlocking uid data'
                 ["createdAt"%string; "updatedAt"%string]].
Proof.
  intros Hu r1 r2. subst r2 r1.
  unfold Page.handleAddOrUpdateLog, Page.onEdit, Page.logsCollectionRef.
  cbn [Page.resetManualHours Page.setState Page.setEditingLog Page.user
         Page.editingLog fst snd].
  rewrite Hu. cbn [fst snd Page.resetManualHours Page.setState
                     Page.setEditingLog Page.user Page.editingLog].
  rewrite Hu. cbn [snd]. repeat split.
  - intros i Hi Hne. rewrite Hi.
    rewrite (HandlerFacts.falsy_id_present i Hne). reflexivity.
  - intros Ha. apply ClockFacts.falsy_absent in Ha. rewrite Ha. reflexivity.
Qed.

Lemma edit_then_save_witness :
  let p := Samples.signedIn (Examples.state [Samples.stored] Num.zero None) in
  snd (Page.handleAddOrUpdateLog Samples.monday None
         (Page.onEdit Samples.stored p))
  = [Page.setDocumentNonBlocking "u1" "d7" Samples.monday
       ["updatedAt"%string] true]
  /\ snd (Page.handleAddOrUpdateLog Samples.monday None
            (Page.onEdit Samples.unnamed p))
     = [Page.addDocumentNonBlocking "u1" Samples.monday
          ["createdAt"%string; "updatedAt"%string]].
Proof.
  cbv zeta. split.
  - apply (proj1 (edit_then_save
                    (Samples.signedIn
                       (Examples.state [Samples.stored] Num.zero None))
                    Samples.stored Samples.monday Samples.monday "u1"
                    None None eq_refl) "d7"%string eq_refl).
    discriminate.
  - apply (proj1 (proj2 (edit_then_save
                           (Samples.signedIn
                              (Examples.state [Samples.stored] Num.zero None))
                           Samples.unnamed Samples.monday Samples.monday "u1"
                           None None eq_refl))).
    right. reflexivity.
Defined.
